(** * Voter verification, ballot issuance and vote casting

    A shallow embedding of the request handlers of the e-voting backend:
    [requestOTP] and [confirmOTP] (controllers/verification.controller.js),
    [castVote] and [getBallot] (the votes controller, in its two revisions),
    and the positions controller.

    The relational store behind Prisma is a record of tables, each table a
    list of rows in insertion order.  A handler is a computation over the
    store that may answer early ([return res.status(..).json(..)]) or throw
    (a rejected [await]), the latter being turned into the 500 answer of the
    handler's [try]/[catch]. *)

From Stdlib Require Import ZArith List String Ascii Bool Lia.
Import ListNotations.

Local Open Scope string_scope.
Local Open Scope Z_scope.
Local Open Scope list_scope.

(** ** Data model *)

(** Row identifiers, as Prisma hands them to the controllers. *)
Definition Id := string.

(** Instants are milliseconds since the epoch, the value of a JS [Date]. *)
Definition Time := Z.

Module EligibleVoter.
Inductive Status := ELIGIBLE | INELIGIBLE.
Record t := mk {
  id : Id;
  regNo : string;
  name : string;
  status : Status;
  email : option string;
  phone : option string
}.
End EligibleVoter.

Module Verification.
Record t := mk {
  id : Id;
  voterId : Id;
  method : string;
  otpHash : string;
  issuedAt : Time;
  expiresAt : Time;
  verifiedAt : option Time;
  consumedAt : option Time;
  ballotToken : option string
}.

Definition set_verifiedAt (at_ : Time) (v : t) : t :=
  mk (id v) (voterId v) (method v) (otpHash v) (issuedAt v) (expiresAt v)
     (Some at_) (consumedAt v) (ballotToken v).

Definition set_ballotToken (tok : string) (v : t) : t :=
  mk (id v) (voterId v) (method v) (otpHash v) (issuedAt v) (expiresAt v)
     (verifiedAt v) (consumedAt v) (Some tok).
End Verification.

Module Ballot.
Inductive Status := ACTIVE | CONSUMED.
Record t := mk {
  id : Id;
  voterId : Id;
  token : string;
  status : Status;
  issuedAt : Time;
  consumedAt : option Time
}.

Definition is_consumed (b : t) : bool :=
  match status b with CONSUMED => true | ACTIVE => false end.

Definition is_active (b : t) : bool := negb (is_consumed b).

Definition consume (at_ : Time) (b : t) : t :=
  mk (id b) (voterId b) (token b) CONSUMED (issuedAt b) (Some at_).
End Ballot.

(** Of a Vote row, a Position row and a Candidate row the columns the three
    handlers read or write. *)
Module Vote.
Record t := mk {
  ballotId : Id;
  positionId : Id;
  candidateId : Id
}.
End Vote.

Module Position.
Record t := mk {
  id : Id;
  name : string;
  votingOpens : Time;
  votingCloses : Time
}.
End Position.

Module Candidate.
Inductive Status := PENDING | APPROVED | REJECTED.
Record t := mk {
  id : Id;
  positionId : Id;
  name : string;
  status : Status
}.

Definition is_approved (c : t) : bool :=
  match status c with APPROVED => true | _ => false end.
End Candidate.

(** A JSON value, for audit payloads. *)
#[local] Unset Elimination Schemes.
Inductive Json :=
| JNull
| JStr (s : string)
| JNum (n : Z)
| JArr (items : list Json)
| JObj (fields : list (string * Json)).
#[local] Set Elimination Schemes.

Module AuditEvent.
Record t := mk {
  actorType : string;
  actorId : option Id;
  action : string;
  entity : string;
  entityId : Id;
  payload : Json
}.
End AuditEvent.

(** The tables reached through [prisma], and the audit sink. *)
Module prisma.
Record Store := mkStore {
  eligibleVoter : list EligibleVoter.t;
  verification : list Verification.t;
  ballot : list Ballot.t;
  vote : list Vote.t;
  position : list Position.t;
  candidate : list Candidate.t;
  auditLog : list AuditEvent.t
}.

Definition with_verification (f : list Verification.t -> list Verification.t)
    (db : Store) : Store :=
  mkStore (eligibleVoter db) (f (verification db)) (ballot db) (vote db)
          (position db) (candidate db) (auditLog db).

Definition with_ballot (f : list Ballot.t -> list Ballot.t) (db : Store) : Store :=
  mkStore (eligibleVoter db) (verification db) (f (ballot db)) (vote db)
          (position db) (candidate db) (auditLog db).

Definition with_vote (f : list Vote.t -> list Vote.t) (db : Store) : Store :=
  mkStore (eligibleVoter db) (verification db) (ballot db) (f (vote db))
          (position db) (candidate db) (auditLog db).

Definition with_auditLog (f : list AuditEvent.t -> list AuditEvent.t)
    (db : Store) : Store :=
  mkStore (eligibleVoter db) (verification db) (ballot db) (vote db)
          (position db) (candidate db) (f (auditLog db)).
End prisma.
Abbreviation Store := prisma.Store.

(** ** HTTP answers *)

Record ClosedPosition := mkClosed {
  closed_name : string;
  closed_votingOpens : Time;
  closed_votingCloses : Time
}.

(** The JSON bodies the three handlers send. *)
Inductive Body :=
| ErrorBody (error : string) (hint : option string)
| RateLimitBody (error : string) (retryAfter : Z)
| DeliveryFailedBody (error hint : string) (emailError smsError : option string)
| OtpSentBody (message : string) (expiresIn : Z) (hint : string)
              (sentVia : list string) (warnings : option string)
| VerifiedBody (message ballotToken : string) (expiresAt : Time) (note : string)
| NotOpenBody (error hint : string) (closedPositions : list ClosedPosition)
| VoteCastBody (message : string) (votes : nat) (note : string).

Record Response := mkResponse {
  status : Z;
  body : Body
}.

(** [res.json(b)] answers 200; [res.status(c).json(b)] answers [c]. *)
Definition json (b : Body) : Response := mkResponse 200 b.
Definition status_json (c : Z) (b : Body) : Response := mkResponse c b.

(** ** Strings

    A string is held as the bytes of its UTF-8 encoding. *)

(** The uppercase of an ASCII letter; other bytes are left as they are. *)
Definition upper_ascii (c : ascii) : ascii :=
  let n := nat_of_ascii c in
  if (Nat.leb 97 n && Nat.leb n 122)%bool then ascii_of_nat (n - 32) else c.

(** The code points beyond ASCII whose uppercase mapping is not the code
    point itself, each with that mapping: the Unicode Character Database,
    version 14.0, [UnicodeData.txt] and the unconditional entries of
    [SpecialCasing.txt], which is what [String.prototype.toUpperCase]
    applies, whatever the locale. *)
Definition uppercase_mappings : list (N * list N) :=
  [(181, [924]); (223, [83; 83]); (224, [192]); (225, [193]); (226, [194]);
   (227, [195]); (228, [196]); (229, [197]); (230, [198]); (231, [199]); (232, [200]);
   (233, [201]); (234, [202]); (235, [203]); (236, [204]); (237, [205]); (238, [206]);
   (239, [207]); (240, [208]); (241, [209]); (242, [210]); (243, [211]); (244, [212]);
   (245, [213]); (246, [214]); (248, [216]); (249, [217]); (250, [218]); (251, [219]);
   (252, [220]); (253, [221]); (254, [222]); (255, [376]); (257, [256]); (259, [258]);
   (261, [260]); (263, [262]); (265, [264]); (267, [266]); (269, [268]); (271, [270]);
   (273, [272]); (275, [274]); (277, [276]); (279, [278]); (281, [280]); (283, [282]);
   (285, [284]); (287, [286]); (289, [288]); (291, [290]); (293, [292]); (295, [294]);
   (297, [296]); (299, [298]); (301, [300]); (303, [302]); (305, [73]); (307, [306]);
   (309, [308]); (311, [310]); (314, [313]); (316, [315]); (318, [317]); (320, [319]);
   (322, [321]); (324, [323]); (326, [325]); (328, [327]); (329, [700; 78]);
   (331, [330]); (333, [332]); (335, [334]); (337, [336]); (339, [338]); (341, [340]);
   (343, [342]); (345, [344]); (347, [346]); (349, [348]); (351, [350]); (353, [352]);
   (355, [354]); (357, [356]); (359, [358]); (361, [360]); (363, [362]); (365, [364]);
   (367, [366]); (369, [368]); (371, [370]); (373, [372]); (375, [374]); (378, [377]);
   (380, [379]); (382, [381]); (383, [83]); (384, [579]); (387, [386]); (389, [388]);
   (392, [391]); (396, [395]); (402, [401]); (405, [502]); (409, [408]); (410, [573]);
   (414, [544]); (417, [416]); (419, [418]); (421, [420]); (424, [423]); (429, [428]);
   (432, [431]); (436, [435]); (438, [437]); (441, [440]); (445, [444]); (447, [503]);
   (453, [452]); (454, [452]); (456, [455]); (457, [455]); (459, [458]); (460, [458]);
   (462, [461]); (464, [463]); (466, [465]); (468, [467]); (470, [469]); (472, [471]);
   (474, [473]); (476, [475]); (477, [398]); (479, [478]); (481, [480]); (483, [482]);
   (485, [484]); (487, [486]); (489, [488]); (491, [490]); (493, [492]); (495, [494]);
   (496, [74; 780]); (498, [497]); (499, [497]); (501, [500]); (505, [504]);
   (507, [506]); (509, [508]); (511, [510]); (513, [512]); (515, [514]); (517, [516]);
   (519, [518]); (521, [520]); (523, [522]); (525, [524]); (527, [526]); (529, [528]);
   (531, [530]); (533, [532]); (535, [534]); (537, [536]); (539, [538]); (541, [540]);
   (543, [542]); (547, [546]); (549, [548]); (551, [550]); (553, [552]); (555, [554]);
   (557, [556]); (559, [558]); (561, [560]); (563, [562]); (572, [571]);
   (575, [11390]); (576, [11391]); (578, [577]); (583, [582]); (585, [584]);
   (587, [586]); (589, [588]); (591, [590]); (592, [11375]); (593, [11373]);
   (594, [11376]); (595, [385]); (596, [390]); (598, [393]); (599, [394]);
   (601, [399]); (603, [400]); (604, [42923]); (608, [403]); (609, [42924]);
   (611, [404]); (613, [42893]); (614, [42922]); (616, [407]); (617, [406]);
   (618, [42926]); (619, [11362]); (620, [42925]); (623, [412]); (625, [11374]);
   (626, [413]); (629, [415]); (637, [11364]); (640, [422]); (642, [42949]);
   (643, [425]); (647, [42929]); (648, [430]); (649, [580]); (650, [433]);
   (651, [434]); (652, [581]); (658, [439]); (669, [42930]); (670, [42928]);
   (837, [921]); (881, [880]); (883, [882]); (887, [886]); (891, [1021]);
   (892, [1022]); (893, [1023]); (912, [921; 776; 769]); (940, [902]); (941, [904]);
   (942, [905]); (943, [906]); (944, [933; 776; 769]); (945, [913]); (946, [914]);
   (947, [915]); (948, [916]); (949, [917]); (950, [918]); (951, [919]); (952, [920]);
   (953, [921]); (954, [922]); (955, [923]); (956, [924]); (957, [925]); (958, [926]);
   (959, [927]); (960, [928]); (961, [929]); (962, [931]); (963, [931]); (964, [932]);
   (965, [933]); (966, [934]); (967, [935]); (968, [936]); (969, [937]); (970, [938]);
   (971, [939]); (972, [908]); (973, [910]); (974, [911]); (976, [914]); (977, [920]);
   (981, [934]); (982, [928]); (983, [975]); (985, [984]); (987, [986]); (989, [988]);
   (991, [990]); (993, [992]); (995, [994]); (997, [996]); (999, [998]);
   (1001, [1000]); (1003, [1002]); (1005, [1004]); (1007, [1006]); (1008, [922]);
   (1009, [929]); (1010, [1017]); (1011, [895]); (1013, [917]); (1016, [1015]);
   (1019, [1018]); (1072, [1040]); (1073, [1041]); (1074, [1042]); (1075, [1043]);
   (1076, [1044]); (1077, [1045]); (1078, [1046]); (1079, [1047]); (1080, [1048]);
   (1081, [1049]); (1082, [1050]); (1083, [1051]); (1084, [1052]); (1085, [1053]);
   (1086, [1054]); (1087, [1055]); (1088, [1056]); (1089, [1057]); (1090, [1058]);
   (1091, [1059]); (1092, [1060]); (1093, [1061]); (1094, [1062]); (1095, [1063]);
   (1096, [1064]); (1097, [1065]); (1098, [1066]); (1099, [1067]); (1100, [1068]);
   (1101, [1069]); (1102, [1070]); (1103, [1071]); (1104, [1024]); (1105, [1025]);
   (1106, [1026]); (1107, [1027]); (1108, [1028]); (1109, [1029]); (1110, [1030]);
   (1111, [1031]); (1112, [1032]); (1113, [1033]); (1114, [1034]); (1115, [1035]);
   (1116, [1036]); (1117, [1037]); (1118, [1038]); (1119, [1039]); (1121, [1120]);
   (1123, [1122]); (1125, [1124]); (1127, [1126]); (1129, [1128]); (1131, [1130]);
   (1133, [1132]); (1135, [1134]); (1137, [1136]); (1139, [1138]); (1141, [1140]);
   (1143, [1142]); (1145, [1144]); (1147, [1146]); (1149, [1148]); (1151, [1150]);
   (1153, [1152]); (1163, [1162]); (1165, [1164]); (1167, [1166]); (1169, [1168]);
   (1171, [1170]); (1173, [1172]); (1175, [1174]); (1177, [1176]); (1179, [1178]);
   (1181, [1180]); (1183, [1182]); (1185, [1184]); (1187, [1186]); (1189, [1188]);
   (1191, [1190]); (1193, [1192]); (1195, [1194]); (1197, [1196]); (1199, [1198]);
   (1201, [1200]); (1203, [1202]); (1205, [1204]); (1207, [1206]); (1209, [1208]);
   (1211, [1210]); (1213, [1212]); (1215, [1214]); (1218, [1217]); (1220, [1219]);
   (1222, [1221]); (1224, [1223]); (1226, [1225]); (1228, [1227]); (1230, [1229]);
   (1231, [1216]); (1233, [1232]); (1235, [1234]); (1237, [1236]); (1239, [1238]);
   (1241, [1240]); (1243, [1242]); (1245, [1244]); (1247, [1246]); (1249, [1248]);
   (1251, [1250]); (1253, [1252]); (1255, [1254]); (1257, [1256]); (1259, [1258]);
   (1261, [1260]); (1263, [1262]); (1265, [1264]); (1267, [1266]); (1269, [1268]);
   (1271, [1270]); (1273, [1272]); (1275, [1274]); (1277, [1276]); (1279, [1278]);
   (1281, [1280]); (1283, [1282]); (1285, [1284]); (1287, [1286]); (1289, [1288]);
   (1291, [1290]); (1293, [1292]); (1295, [1294]); (1297, [1296]); (1299, [1298]);
   (1301, [1300]); (1303, [1302]); (1305, [1304]); (1307, [1306]); (1309, [1308]);
   (1311, [1310]); (1313, [1312]); (1315, [1314]); (1317, [1316]); (1319, [1318]);
   (1321, [1320]); (1323, [1322]); (1325, [1324]); (1327, [1326]); (1377, [1329]);
   (1378, [1330]); (1379, [1331]); (1380, [1332]); (1381, [1333]); (1382, [1334]);
   (1383, [1335]); (1384, [1336]); (1385, [1337]); (1386, [1338]); (1387, [1339]);
   (1388, [1340]); (1389, [1341]); (1390, [1342]); (1391, [1343]); (1392, [1344]);
   (1393, [1345]); (1394, [1346]); (1395, [1347]); (1396, [1348]); (1397, [1349]);
   (1398, [1350]); (1399, [1351]); (1400, [1352]); (1401, [1353]); (1402, [1354]);
   (1403, [1355]); (1404, [1356]); (1405, [1357]); (1406, [1358]); (1407, [1359]);
   (1408, [1360]); (1409, [1361]); (1410, [1362]); (1411, [1363]); (1412, [1364]);
   (1413, [1365]); (1414, [1366]); (1415, [1333; 1362]); (4304, [7312]);
   (4305, [7313]); (4306, [7314]); (4307, [7315]); (4308, [7316]); (4309, [7317]);
   (4310, [7318]); (4311, [7319]); (4312, [7320]); (4313, [7321]); (4314, [7322]);
   (4315, [7323]); (4316, [7324]); (4317, [7325]); (4318, [7326]); (4319, [7327]);
   (4320, [7328]); (4321, [7329]); (4322, [7330]); (4323, [7331]); (4324, [7332]);
   (4325, [7333]); (4326, [7334]); (4327, [7335]); (4328, [7336]); (4329, [7337]);
   (4330, [7338]); (4331, [7339]); (4332, [7340]); (4333, [7341]); (4334, [7342]);
   (4335, [7343]); (4336, [7344]); (4337, [7345]); (4338, [7346]); (4339, [7347]);
   (4340, [7348]); (4341, [7349]); (4342, [7350]); (4343, [7351]); (4344, [7352]);
   (4345, [7353]); (4346, [7354]); (4349, [7357]); (4350, [7358]); (4351, [7359]);
   (5112, [5104]); (5113, [5105]); (5114, [5106]); (5115, [5107]); (5116, [5108]);
   (5117, [5109]); (7296, [1042]); (7297, [1044]); (7298, [1054]); (7299, [1057]);
   (7300, [1058]); (7301, [1058]); (7302, [1066]); (7303, [1122]); (7304, [42570]);
   (7545, [42877]); (7549, [11363]); (7566, [42950]); (7681, [7680]); (7683, [7682]);
   (7685, [7684]); (7687, [7686]); (7689, [7688]); (7691, [7690]); (7693, [7692]);
   (7695, [7694]); (7697, [7696]); (7699, [7698]); (7701, [7700]); (7703, [7702]);
   (7705, [7704]); (7707, [7706]); (7709, [7708]); (7711, [7710]); (7713, [7712]);
   (7715, [7714]); (7717, [7716]); (7719, [7718]); (7721, [7720]); (7723, [7722]);
   (7725, [7724]); (7727, [7726]); (7729, [7728]); (7731, [7730]); (7733, [7732]);
   (7735, [7734]); (7737, [7736]); (7739, [7738]); (7741, [7740]); (7743, [7742]);
   (7745, [7744]); (7747, [7746]); (7749, [7748]); (7751, [7750]); (7753, [7752]);
   (7755, [7754]); (7757, [7756]); (7759, [7758]); (7761, [7760]); (7763, [7762]);
   (7765, [7764]); (7767, [7766]); (7769, [7768]); (7771, [7770]); (7773, [7772]);
   (7775, [7774]); (7777, [7776]); (7779, [7778]); (7781, [7780]); (7783, [7782]);
   (7785, [7784]); (7787, [7786]); (7789, [7788]); (7791, [7790]); (7793, [7792]);
   (7795, [7794]); (7797, [7796]); (7799, [7798]); (7801, [7800]); (7803, [7802]);
   (7805, [7804]); (7807, [7806]); (7809, [7808]); (7811, [7810]); (7813, [7812]);
   (7815, [7814]); (7817, [7816]); (7819, [7818]); (7821, [7820]); (7823, [7822]);
   (7825, [7824]); (7827, [7826]); (7829, [7828]); (7830, [72; 817]);
   (7831, [84; 776]); (7832, [87; 778]); (7833, [89; 778]); (7834, [65; 702]);
   (7835, [7776]); (7841, [7840]); (7843, [7842]); (7845, [7844]); (7847, [7846]);
   (7849, [7848]); (7851, [7850]); (7853, [7852]); (7855, [7854]); (7857, [7856]);
   (7859, [7858]); (7861, [7860]); (7863, [7862]); (7865, [7864]); (7867, [7866]);
   (7869, [7868]); (7871, [7870]); (7873, [7872]); (7875, [7874]); (7877, [7876]);
   (7879, [7878]); (7881, [7880]); (7883, [7882]); (7885, [7884]); (7887, [7886]);
   (7889, [7888]); (7891, [7890]); (7893, [7892]); (7895, [7894]); (7897, [7896]);
   (7899, [7898]); (7901, [7900]); (7903, [7902]); (7905, [7904]); (7907, [7906]);
   (7909, [7908]); (7911, [7910]); (7913, [7912]); (7915, [7914]); (7917, [7916]);
   (7919, [7918]); (7921, [7920]); (7923, [7922]); (7925, [7924]); (7927, [7926]);
   (7929, [7928]); (7931, [7930]); (7933, [7932]); (7935, [7934]); (7936, [7944]);
   (7937, [7945]); (7938, [7946]); (7939, [7947]); (7940, [7948]); (7941, [7949]);
   (7942, [7950]); (7943, [7951]); (7952, [7960]); (7953, [7961]); (7954, [7962]);
   (7955, [7963]); (7956, [7964]); (7957, [7965]); (7968, [7976]); (7969, [7977]);
   (7970, [7978]); (7971, [7979]); (7972, [7980]); (7973, [7981]); (7974, [7982]);
   (7975, [7983]); (7984, [7992]); (7985, [7993]); (7986, [7994]); (7987, [7995]);
   (7988, [7996]); (7989, [7997]); (7990, [7998]); (7991, [7999]); (8000, [8008]);
   (8001, [8009]); (8002, [8010]); (8003, [8011]); (8004, [8012]); (8005, [8013]);
   (8016, [933; 787]); (8017, [8025]); (8018, [933; 787; 768]); (8019, [8027]);
   (8020, [933; 787; 769]); (8021, [8029]); (8022, [933; 787; 834]); (8023, [8031]);
   (8032, [8040]); (8033, [8041]); (8034, [8042]); (8035, [8043]); (8036, [8044]);
   (8037, [8045]); (8038, [8046]); (8039, [8047]); (8048, [8122]); (8049, [8123]);
   (8050, [8136]); (8051, [8137]); (8052, [8138]); (8053, [8139]); (8054, [8154]);
   (8055, [8155]); (8056, [8184]); (8057, [8185]); (8058, [8170]); (8059, [8171]);
   (8060, [8186]); (8061, [8187]); (8064, [7944; 921]); (8065, [7945; 921]);
   (8066, [7946; 921]); (8067, [7947; 921]); (8068, [7948; 921]); (8069, [7949; 921]);
   (8070, [7950; 921]); (8071, [7951; 921]); (8072, [7944; 921]); (8073, [7945; 921]);
   (8074, [7946; 921]); (8075, [7947; 921]); (8076, [7948; 921]); (8077, [7949; 921]);
   (8078, [7950; 921]); (8079, [7951; 921]); (8080, [7976; 921]); (8081, [7977; 921]);
   (8082, [7978; 921]); (8083, [7979; 921]); (8084, [7980; 921]); (8085, [7981; 921]);
   (8086, [7982; 921]); (8087, [7983; 921]); (8088, [7976; 921]); (8089, [7977; 921]);
   (8090, [7978; 921]); (8091, [7979; 921]); (8092, [7980; 921]); (8093, [7981; 921]);
   (8094, [7982; 921]); (8095, [7983; 921]); (8096, [8040; 921]); (8097, [8041; 921]);
   (8098, [8042; 921]); (8099, [8043; 921]); (8100, [8044; 921]); (8101, [8045; 921]);
   (8102, [8046; 921]); (8103, [8047; 921]); (8104, [8040; 921]); (8105, [8041; 921]);
   (8106, [8042; 921]); (8107, [8043; 921]); (8108, [8044; 921]); (8109, [8045; 921]);
   (8110, [8046; 921]); (8111, [8047; 921]); (8112, [8120]); (8113, [8121]);
   (8114, [8122; 921]); (8115, [913; 921]); (8116, [902; 921]); (8118, [913; 834]);
   (8119, [913; 834; 921]); (8124, [913; 921]); (8126, [921]); (8130, [8138; 921]);
   (8131, [919; 921]); (8132, [905; 921]); (8134, [919; 834]); (8135, [919; 834; 921]);
   (8140, [919; 921]); (8144, [8152]); (8145, [8153]); (8146, [921; 776; 768]);
   (8147, [921; 776; 769]); (8150, [921; 834]); (8151, [921; 776; 834]);
   (8160, [8168]); (8161, [8169]); (8162, [933; 776; 768]); (8163, [933; 776; 769]);
   (8164, [929; 787]); (8165, [8172]); (8166, [933; 834]); (8167, [933; 776; 834]);
   (8178, [8186; 921]); (8179, [937; 921]); (8180, [911; 921]); (8182, [937; 834]);
   (8183, [937; 834; 921]); (8188, [937; 921]); (8526, [8498]); (8560, [8544]);
   (8561, [8545]); (8562, [8546]); (8563, [8547]); (8564, [8548]); (8565, [8549]);
   (8566, [8550]); (8567, [8551]); (8568, [8552]); (8569, [8553]); (8570, [8554]);
   (8571, [8555]); (8572, [8556]); (8573, [8557]); (8574, [8558]); (8575, [8559]);
   (8580, [8579]); (9424, [9398]); (9425, [9399]); (9426, [9400]); (9427, [9401]);
   (9428, [9402]); (9429, [9403]); (9430, [9404]); (9431, [9405]); (9432, [9406]);
   (9433, [9407]); (9434, [9408]); (9435, [9409]); (9436, [9410]); (9437, [9411]);
   (9438, [9412]); (9439, [9413]); (9440, [9414]); (9441, [9415]); (9442, [9416]);
   (9443, [9417]); (9444, [9418]); (9445, [9419]); (9446, [9420]); (9447, [9421]);
   (9448, [9422]); (9449, [9423]); (11312, [11264]); (11313, [11265]);
   (11314, [11266]); (11315, [11267]); (11316, [11268]); (11317, [11269]);
   (11318, [11270]); (11319, [11271]); (11320, [11272]); (11321, [11273]);
   (11322, [11274]); (11323, [11275]); (11324, [11276]); (11325, [11277]);
   (11326, [11278]); (11327, [11279]); (11328, [11280]); (11329, [11281]);
   (11330, [11282]); (11331, [11283]); (11332, [11284]); (11333, [11285]);
   (11334, [11286]); (11335, [11287]); (11336, [11288]); (11337, [11289]);
   (11338, [11290]); (11339, [11291]); (11340, [11292]); (11341, [11293]);
   (11342, [11294]); (11343, [11295]); (11344, [11296]); (11345, [11297]);
   (11346, [11298]); (11347, [11299]); (11348, [11300]); (11349, [11301]);
   (11350, [11302]); (11351, [11303]); (11352, [11304]); (11353, [11305]);
   (11354, [11306]); (11355, [11307]); (11356, [11308]); (11357, [11309]);
   (11358, [11310]); (11359, [11311]); (11361, [11360]); (11365, [570]);
   (11366, [574]); (11368, [11367]); (11370, [11369]); (11372, [11371]);
   (11379, [11378]); (11382, [11381]); (11393, [11392]); (11395, [11394]);
   (11397, [11396]); (11399, [11398]); (11401, [11400]); (11403, [11402]);
   (11405, [11404]); (11407, [11406]); (11409, [11408]); (11411, [11410]);
   (11413, [11412]); (11415, [11414]); (11417, [11416]); (11419, [11418]);
   (11421, [11420]); (11423, [11422]); (11425, [11424]); (11427, [11426]);
   (11429, [11428]); (11431, [11430]); (11433, [11432]); (11435, [11434]);
   (11437, [11436]); (11439, [11438]); (11441, [11440]); (11443, [11442]);
   (11445, [11444]); (11447, [11446]); (11449, [11448]); (11451, [11450]);
   (11453, [11452]); (11455, [11454]); (11457, [11456]); (11459, [11458]);
   (11461, [11460]); (11463, [11462]); (11465, [11464]); (11467, [11466]);
   (11469, [11468]); (11471, [11470]); (11473, [11472]); (11475, [11474]);
   (11477, [11476]); (11479, [11478]); (11481, [11480]); (11483, [11482]);
   (11485, [11484]); (11487, [11486]); (11489, [11488]); (11491, [11490]);
   (11500, [11499]); (11502, [11501]); (11507, [11506]); (11520, [4256]);
   (11521, [4257]); (11522, [4258]); (11523, [4259]); (11524, [4260]); (11525, [4261]);
   (11526, [4262]); (11527, [4263]); (11528, [4264]); (11529, [4265]); (11530, [4266]);
   (11531, [4267]); (11532, [4268]); (11533, [4269]); (11534, [4270]); (11535, [4271]);
   (11536, [4272]); (11537, [4273]); (11538, [4274]); (11539, [4275]); (11540, [4276]);
   (11541, [4277]); (11542, [4278]); (11543, [4279]); (11544, [4280]); (11545, [4281]);
   (11546, [4282]); (11547, [4283]); (11548, [4284]); (11549, [4285]); (11550, [4286]);
   (11551, [4287]); (11552, [4288]); (11553, [4289]); (11554, [4290]); (11555, [4291]);
   (11556, [4292]); (11557, [4293]); (11559, [4295]); (11565, [4301]);
   (42561, [42560]); (42563, [42562]); (42565, [42564]); (42567, [42566]);
   (42569, [42568]); (42571, [42570]); (42573, [42572]); (42575, [42574]);
   (42577, [42576]); (42579, [42578]); (42581, [42580]); (42583, [42582]);
   (42585, [42584]); (42587, [42586]); (42589, [42588]); (42591, [42590]);
   (42593, [42592]); (42595, [42594]); (42597, [42596]); (42599, [42598]);
   (42601, [42600]); (42603, [42602]); (42605, [42604]); (42625, [42624]);
   (42627, [42626]); (42629, [42628]); (42631, [42630]); (42633, [42632]);
   (42635, [42634]); (42637, [42636]); (42639, [42638]); (42641, [42640]);
   (42643, [42642]); (42645, [42644]); (42647, [42646]); (42649, [42648]);
   (42651, [42650]); (42787, [42786]); (42789, [42788]); (42791, [42790]);
   (42793, [42792]); (42795, [42794]); (42797, [42796]); (42799, [42798]);
   (42803, [42802]); (42805, [42804]); (42807, [42806]); (42809, [42808]);
   (42811, [42810]); (42813, [42812]); (42815, [42814]); (42817, [42816]);
   (42819, [42818]); (42821, [42820]); (42823, [42822]); (42825, [42824]);
   (42827, [42826]); (42829, [42828]); (42831, [42830]); (42833, [42832]);
   (42835, [42834]); (42837, [42836]); (42839, [42838]); (42841, [42840]);
   (42843, [42842]); (42845, [42844]); (42847, [42846]); (42849, [42848]);
   (42851, [42850]); (42853, [42852]); (42855, [42854]); (42857, [42856]);
   (42859, [42858]); (42861, [42860]); (42863, [42862]); (42874, [42873]);
   (42876, [42875]); (42879, [42878]); (42881, [42880]); (42883, [42882]);
   (42885, [42884]); (42887, [42886]); (42892, [42891]); (42897, [42896]);
   (42899, [42898]); (42900, [42948]); (42903, [42902]); (42905, [42904]);
   (42907, [42906]); (42909, [42908]); (42911, [42910]); (42913, [42912]);
   (42915, [42914]); (42917, [42916]); (42919, [42918]); (42921, [42920]);
   (42933, [42932]); (42935, [42934]); (42937, [42936]); (42939, [42938]);
   (42941, [42940]); (42943, [42942]); (42945, [42944]); (42947, [42946]);
   (42952, [42951]); (42954, [42953]); (42961, [42960]); (42967, [42966]);
   (42969, [42968]); (42998, [42997]); (43859, [42931]); (43888, [5024]);
   (43889, [5025]); (43890, [5026]); (43891, [5027]); (43892, [5028]); (43893, [5029]);
   (43894, [5030]); (43895, [5031]); (43896, [5032]); (43897, [5033]); (43898, [5034]);
   (43899, [5035]); (43900, [5036]); (43901, [5037]); (43902, [5038]); (43903, [5039]);
   (43904, [5040]); (43905, [5041]); (43906, [5042]); (43907, [5043]); (43908, [5044]);
   (43909, [5045]); (43910, [5046]); (43911, [5047]); (43912, [5048]); (43913, [5049]);
   (43914, [5050]); (43915, [5051]); (43916, [5052]); (43917, [5053]); (43918, [5054]);
   (43919, [5055]); (43920, [5056]); (43921, [5057]); (43922, [5058]); (43923, [5059]);
   (43924, [5060]); (43925, [5061]); (43926, [5062]); (43927, [5063]); (43928, [5064]);
   (43929, [5065]); (43930, [5066]); (43931, [5067]); (43932, [5068]); (43933, [5069]);
   (43934, [5070]); (43935, [5071]); (43936, [5072]); (43937, [5073]); (43938, [5074]);
   (43939, [5075]); (43940, [5076]); (43941, [5077]); (43942, [5078]); (43943, [5079]);
   (43944, [5080]); (43945, [5081]); (43946, [5082]); (43947, [5083]); (43948, [5084]);
   (43949, [5085]); (43950, [5086]); (43951, [5087]); (43952, [5088]); (43953, [5089]);
   (43954, [5090]); (43955, [5091]); (43956, [5092]); (43957, [5093]); (43958, [5094]);
   (43959, [5095]); (43960, [5096]); (43961, [5097]); (43962, [5098]); (43963, [5099]);
   (43964, [5100]); (43965, [5101]); (43966, [5102]); (43967, [5103]);
   (64256, [70; 70]); (64257, [70; 73]); (64258, [70; 76]); (64259, [70; 70; 73]);
   (64260, [70; 70; 76]); (64261, [83; 84]); (64262, [83; 84]); (64275, [1348; 1350]);
   (64276, [1348; 1333]); (64277, [1348; 1339]); (64278, [1358; 1350]);
   (64279, [1348; 1341]); (65345, [65313]); (65346, [65314]); (65347, [65315]);
   (65348, [65316]); (65349, [65317]); (65350, [65318]); (65351, [65319]);
   (65352, [65320]); (65353, [65321]); (65354, [65322]); (65355, [65323]);
   (65356, [65324]); (65357, [65325]); (65358, [65326]); (65359, [65327]);
   (65360, [65328]); (65361, [65329]); (65362, [65330]); (65363, [65331]);
   (65364, [65332]); (65365, [65333]); (65366, [65334]); (65367, [65335]);
   (65368, [65336]); (65369, [65337]); (65370, [65338]); (66600, [66560]);
   (66601, [66561]); (66602, [66562]); (66603, [66563]); (66604, [66564]);
   (66605, [66565]); (66606, [66566]); (66607, [66567]); (66608, [66568]);
   (66609, [66569]); (66610, [66570]); (66611, [66571]); (66612, [66572]);
   (66613, [66573]); (66614, [66574]); (66615, [66575]); (66616, [66576]);
   (66617, [66577]); (66618, [66578]); (66619, [66579]); (66620, [66580]);
   (66621, [66581]); (66622, [66582]); (66623, [66583]); (66624, [66584]);
   (66625, [66585]); (66626, [66586]); (66627, [66587]); (66628, [66588]);
   (66629, [66589]); (66630, [66590]); (66631, [66591]); (66632, [66592]);
   (66633, [66593]); (66634, [66594]); (66635, [66595]); (66636, [66596]);
   (66637, [66597]); (66638, [66598]); (66639, [66599]); (66776, [66736]);
   (66777, [66737]); (66778, [66738]); (66779, [66739]); (66780, [66740]);
   (66781, [66741]); (66782, [66742]); (66783, [66743]); (66784, [66744]);
   (66785, [66745]); (66786, [66746]); (66787, [66747]); (66788, [66748]);
   (66789, [66749]); (66790, [66750]); (66791, [66751]); (66792, [66752]);
   (66793, [66753]); (66794, [66754]); (66795, [66755]); (66796, [66756]);
   (66797, [66757]); (66798, [66758]); (66799, [66759]); (66800, [66760]);
   (66801, [66761]); (66802, [66762]); (66803, [66763]); (66804, [66764]);
   (66805, [66765]); (66806, [66766]); (66807, [66767]); (66808, [66768]);
   (66809, [66769]); (66810, [66770]); (66811, [66771]); (66967, [66928]);
   (66968, [66929]); (66969, [66930]); (66970, [66931]); (66971, [66932]);
   (66972, [66933]); (66973, [66934]); (66974, [66935]); (66975, [66936]);
   (66976, [66937]); (66977, [66938]); (66979, [66940]); (66980, [66941]);
   (66981, [66942]); (66982, [66943]); (66983, [66944]); (66984, [66945]);
   (66985, [66946]); (66986, [66947]); (66987, [66948]); (66988, [66949]);
   (66989, [66950]); (66990, [66951]); (66991, [66952]); (66992, [66953]);
   (66993, [66954]); (66995, [66956]); (66996, [66957]); (66997, [66958]);
   (66998, [66959]); (66999, [66960]); (67000, [66961]); (67001, [66962]);
   (67003, [66964]); (67004, [66965]); (68800, [68736]); (68801, [68737]);
   (68802, [68738]); (68803, [68739]); (68804, [68740]); (68805, [68741]);
   (68806, [68742]); (68807, [68743]); (68808, [68744]); (68809, [68745]);
   (68810, [68746]); (68811, [68747]); (68812, [68748]); (68813, [68749]);
   (68814, [68750]); (68815, [68751]); (68816, [68752]); (68817, [68753]);
   (68818, [68754]); (68819, [68755]); (68820, [68756]); (68821, [68757]);
   (68822, [68758]); (68823, [68759]); (68824, [68760]); (68825, [68761]);
   (68826, [68762]); (68827, [68763]); (68828, [68764]); (68829, [68765]);
   (68830, [68766]); (68831, [68767]); (68832, [68768]); (68833, [68769]);
   (68834, [68770]); (68835, [68771]); (68836, [68772]); (68837, [68773]);
   (68838, [68774]); (68839, [68775]); (68840, [68776]); (68841, [68777]);
   (68842, [68778]); (68843, [68779]); (68844, [68780]); (68845, [68781]);
   (68846, [68782]); (68847, [68783]); (68848, [68784]); (68849, [68785]);
   (68850, [68786]); (71872, [71840]); (71873, [71841]); (71874, [71842]);
   (71875, [71843]); (71876, [71844]); (71877, [71845]); (71878, [71846]);
   (71879, [71847]); (71880, [71848]); (71881, [71849]); (71882, [71850]);
   (71883, [71851]); (71884, [71852]); (71885, [71853]); (71886, [71854]);
   (71887, [71855]); (71888, [71856]); (71889, [71857]); (71890, [71858]);
   (71891, [71859]); (71892, [71860]); (71893, [71861]); (71894, [71862]);
   (71895, [71863]); (71896, [71864]); (71897, [71865]); (71898, [71866]);
   (71899, [71867]); (71900, [71868]); (71901, [71869]); (71902, [71870]);
   (71903, [71871]); (93792, [93760]); (93793, [93761]); (93794, [93762]);
   (93795, [93763]); (93796, [93764]); (93797, [93765]); (93798, [93766]);
   (93799, [93767]); (93800, [93768]); (93801, [93769]); (93802, [93770]);
   (93803, [93771]); (93804, [93772]); (93805, [93773]); (93806, [93774]);
   (93807, [93775]); (93808, [93776]); (93809, [93777]); (93810, [93778]);
   (93811, [93779]); (93812, [93780]); (93813, [93781]); (93814, [93782]);
   (93815, [93783]); (93816, [93784]); (93817, [93785]); (93818, [93786]);
   (93819, [93787]); (93820, [93788]); (93821, [93789]); (93822, [93790]);
   (93823, [93791]); (125218, [125184]); (125219, [125185]); (125220, [125186]);
   (125221, [125187]); (125222, [125188]); (125223, [125189]); (125224, [125190]);
   (125225, [125191]); (125226, [125192]); (125227, [125193]); (125228, [125194]);
   (125229, [125195]); (125230, [125196]); (125231, [125197]); (125232, [125198]);
   (125233, [125199]); (125234, [125200]); (125235, [125201]); (125236, [125202]);
   (125237, [125203]); (125238, [125204]); (125239, [125205]); (125240, [125206]);
   (125241, [125207]); (125242, [125208]); (125243, [125209]); (125244, [125210]);
   (125245, [125211]); (125246, [125212]); (125247, [125213]); (125248, [125214]);
   (125249, [125215]); (125250, [125216]); (125251, [125217])]%N.

Definition uppercase_of (cp : N) : list N :=
  match find (fun e => N.eqb (fst e) cp) uppercase_mappings with
  | Some e => snd e
  | None => [cp]
  end.

(** The UTF-8 encoding of a code point. *)
Definition utf8_encode (cp : N) : list ascii :=
  (if cp <? 128 then [ascii_of_N cp]
   else if cp <? 2048 then
     [ascii_of_N (192 + cp / 64); ascii_of_N (128 + cp mod 64)]
   else if cp <? 65536 then
     [ascii_of_N (224 + cp / 4096); ascii_of_N (128 + (cp / 64) mod 64);
      ascii_of_N (128 + cp mod 64)]
   else
     [ascii_of_N (240 + cp / 262144); ascii_of_N (128 + (cp / 4096) mod 64);
      ascii_of_N (128 + (cp / 64) mod 64); ascii_of_N (128 + cp mod 64)])%N.

(** The bytes of the uppercase mapping of a code point. *)
Definition utf8_upper (cp : N) : list ascii :=
  List.concat (map utf8_encode (uppercase_of cp)).

(** A continuation byte, [10xxxxxx]. *)
Definition continuation (b : N) : bool := ((128 <=? b) && (b <? 192))%N.

(** A code point encoded on two, three or four bytes, when the bytes are
    the well-formed encoding of one. *)
Definition decode2 (b1 b2 : N) : option N :=
  (if (194 <=? b1) && (b1 <? 224) && continuation b2
   then Some ((b1 - 192) * 64 + (b2 - 128)) else None)%N.

Definition decode3 (b1 b2 b3 : N) : option N :=
  (let cp := (b1 - 224) * 4096 + (b2 - 128) * 64 + (b3 - 128) in
   if (224 <=? b1) && (b1 <? 240) && continuation b2 && continuation b3
      && (2048 <=? cp) && negb ((55296 <=? cp) && (cp <? 57344))
   then Some cp else None)%N.

Definition decode4 (b1 b2 b3 b4 : N) : option N :=
  (let cp := (b1 - 240) * 262144 + (b2 - 128) * 4096 + (b3 - 128) * 64 + (b4 - 128) in
   if (240 <=? b1) && (b1 <? 245) && continuation b2 && continuation b3
      && continuation b4 && (65536 <=? cp) && (cp <? 1114112)
   then Some cp else None)%N.

(** A run of bytes beyond ASCII in uppercase: every code point is replaced
    by its mapping; a byte that does not start a well-formed encoding is
    left as it is. *)
Fixpoint upper_run (bytes : list N) : list ascii :=
  match bytes with
  | [] => []
  | b1 :: r1 =>
      match r1 with
      | [] => ascii_of_N b1 :: upper_run r1
      | b2 :: r2 =>
          match decode2 b1 b2 with
          | Some cp => utf8_upper cp ++ upper_run r2
          | None =>
              match r2 with
              | [] => ascii_of_N b1 :: upper_run r1
              | b3 :: r3 =>
                  match decode3 b1 b2 b3 with
                  | Some cp => utf8_upper cp ++ upper_run r3
                  | None =>
                      match r3 with
                      | [] => ascii_of_N b1 :: upper_run r1
                      | b4 :: r4 =>
                          match decode4 b1 b2 b3 b4 with
                          | Some cp => utf8_upper cp ++ upper_run r4
                          | None => ascii_of_N b1 :: upper_run r1
                          end
                      end
                  end
              end
          end
      end
  end.

(** [pending] holds, last byte first, the bytes beyond ASCII read since the
    last ASCII byte. *)
Fixpoint upper_from (pending : list N) (s : string) : string :=
  match s with
  | EmptyString => string_of_list_ascii (upper_run (rev pending))
  | String c rest =>
      if (N_of_ascii c <? 128)%N then
        String.append (string_of_list_ascii (upper_run (rev pending)))
                      (String (upper_ascii c) (upper_from [] rest))
      else upper_from (N_of_ascii c :: pending) rest
  end.

(** [String.prototype.toUpperCase]. *)
Definition toUpperCase (s : string) : string := upper_from [] s.



(** JS truthiness of an optional string field of a request body: [undefined],
    [null] and the empty string are falsy. *)
Definition truthy (o : option string) : option string :=
  match o with
  | Some EmptyString => None
  | other => other
  end.

(** [arr.join(', ')]. *)
Definition join (sep : string) (l : list string) : string := String.concat sep l.

(** [arr.includes(x)] on an array of strings. *)
Definition includes (x : string) (l : list string) : bool :=
  existsb (String.eqb x) l.

(** [substring(0, n)]. *)
Definition substring0 (n : nat) (s : string) : string := String.substring 0 n s.

(** ** The environment of one request

    Everything a handler reads from outside the store: the clock, the random
    sources, the generated row ids, the outcome of the two deliveries, and
    which of the awaited calls reject. *)

(** The awaited calls of the three handlers. *)
Inductive Op :=
| eligibleVoter_findUnique
| ballot_findFirst
| verification_findFirst
| bcrypt_hash_call
| verification_create
| bcrypt_compare_call
| verification_update_verifiedAt
| ballot_create
| verification_update_ballotToken
| ballot_findUnique
| position_findMany_open
| position_findMany_all
| candidate_findMany
| vote_findMany
| vote_transaction
| ballot_update
| audit_write (action : string).

(** The two delivery channels of the notification gateway. *)
Inductive Channel := Email | SMS.

(** A callback pair registered on a delivery promise
    ([.then(..).catch(..)]), with the variables it closes over. *)
Inductive Task :=
| OnSettled (ch : Channel) (verificationId : Id) (voter : EligibleVoter.t).

Record Env := mkEnv {
  (** the successive readings of [Date.now()] / [new Date()] in the request *)
  clock : nat -> Time;
  (** [crypto.randomInt(100000, 999999).toString()] *)
  random_otp : string;
  (** [crypto.randomBytes(32).toString('hex')] *)
  random_token : string;
  (** [bcrypt.hash(otp, 10)], with the salt the library draws, and
      [bcrypt.compare(otp, hash)] *)
  bcrypt_hash : string -> string;
  bcrypt_compare : string -> string -> bool;
  (** ids given to the rows the request creates, and the reading of the
      database clock that fills their [issuedAt] *)
  new_verification_id : Id;
  new_ballot_id : Id;
  db_now : Time;
  (** does [sendOTPEmail] / [sendOTPSMS] resolve (true) or reject (false),
      and with which error message *)
  delivered : Channel -> bool;
  delivery_error : Channel -> string;
  (** has the delivery promise settled by the time the handler next awaits *)
  settled_by_next_await : Channel -> bool;
  (** does the awaited call reject *)
  rejects : Op -> bool
}.

(** ** Handlers as computations

    The state of a running handler is the store together with the two
    arrays [sentMethods] and [failedMethods] that [requestOTP] shares with
    the delivery callbacks, and the callbacks that are registered but have
    not run.  A promise reaction never runs inside the synchronous code that
    registered it: it runs when the handler yields at an [await] (if its
    promise has settled by then) or after the handler has finished. *)

Record HState := mkHState {
  store : Store;
  sentMethods : list string;
  failedMethods : list string;
  microtasks : list Task
}.

Inductive Outcome (A : Type) :=
| Continue (a : A)
| Responded (r : Response)
| Threw.
Arguments Continue {A} a.
Arguments Responded {A} r.
Arguments Threw {A}.

Definition Handler (A : Type) := HState -> HState * Outcome A.

Definition ret {A} (a : A) : Handler A := fun st => (st, Continue a).

Definition bind {A B} (m : Handler A) (k : A -> Handler B) : Handler B :=
  fun st =>
    match m st with
    | (st', Continue a) => k a st'
    | (st', Responded r) => (st', Responded r)
    | (st', Threw) => (st', Threw)
    end.

(** [return res.status(..).json(..)]: the handler stops with this answer. *)
Definition respond {A} (r : Response) : Handler A := fun st => (st, Responded r).

Definition throw {A} : Handler A := fun st => (st, Threw).

Declare Scope handler_scope.
Delimit Scope handler_scope with handler.
Notation "x <- m ;; k" := (bind m (fun x => k))
  (at level 61, m at next level, right associativity) : handler_scope.
Notation "m ;;; k" := (bind m (fun _ => k))
  (at level 61, right associativity) : handler_scope.
Local Open Scope handler_scope.

Definition on_store (f : Store -> Store) (st : HState) : HState :=
  mkHState (f (store st)) (sentMethods st) (failedMethods st) (microtasks st).

(** An awaited read: rejects when the environment says so, else returns what
    the query finds in the store. *)
Definition query {A} (env : Env) (op : Op) (q : Store -> A) : Handler A :=
  fun st => if rejects env op then (st, Threw) else (st, Continue (q (store st))).

(** An awaited write: rejects leaving the store as it was, or applies [w]
    and returns what it yields. *)
Definition mutate {A} (env : Env) (op : Op) (w : Store -> Store * A) : Handler A :=
  fun st =>
    if rejects env op then (st, Threw)
    else let '(db', a) := w (store st) in (on_store (fun _ => db') st, Continue a).

(** An awaited write that the store itself may refuse (a uniqueness
    violation): [w] yields [None] and the call rejects. *)
Definition attempt {A} (env : Env) (op : Op) (w : Store -> option (Store * A))
    : Handler A :=
  fun st =>
    if rejects env op then (st, Threw)
    else match w (store st) with
         | Some (db', a) => (on_store (fun _ => db') st, Continue a)
         | None => (st, Threw)
         end.

Definition get_sentMethods : Handler (list string) :=
  fun st => (st, Continue (sentMethods st)).

Definition get_failedMethods : Handler (list string) :=
  fun st => (st, Continue (failedMethods st)).

(** ** The audit sink and the delivery callbacks *)

(** Modelled from the spec: [logAudit] (utils/auditLogger) is not among the
    sources; the audit sink is an append-only event recorder whose call
    returns a promise, which resolves once the event is recorded and
    rejects when recording fails. *)
Definition logAudit (env : Env) (ev : AuditEvent.t) : Handler unit :=
  mutate env (audit_write (AuditEvent.action ev))
         (fun db => (prisma.with_auditLog (fun l => l ++ [ev]) db, tt)).

(** [p.catch(err => console.error(..))] on a promise that is not awaited:
    a rejection is swallowed and the caller goes on. *)
Definition detached (m : Handler unit) : Handler unit :=
  fun st => let '(st', _) := m st in (st', Continue tt).

Definition push_sent (x : string) (st : HState) : HState :=
  mkHState (store st) (sentMethods st ++ [x]) (failedMethods st) (microtasks st).

Definition push_failed (x : string) (st : HState) : HState :=
  mkHState (store st) (sentMethods st) (failedMethods st ++ [x]) (microtasks st).

Definition set_microtasks (ts : list Task) (st : HState) : HState :=
  mkHState (store st) (sentMethods st) (failedMethods st) ts.

Definition channel_name (ch : Channel) : string :=
  match ch with Email => "email" | SMS => "SMS" end.

Definition channel_failed_action (ch : Channel) : string :=
  match ch with Email => "OTP_EMAIL_FAILED" | SMS => "OTP_SMS_FAILED" end.

(** The body of the [.then] callback when the delivery resolved, of the
    [.catch] callback when it rejected. *)
Definition run_task (env : Env) (t : Task) (st : HState) : HState :=
  match t with
  | OnSettled ch verificationId voter =>
      if delivered env ch then push_sent (channel_name ch) st
      else
        fst (detached
               (logAudit env
                  (AuditEvent.mk "system" None (channel_failed_action ch)
                     "verification" verificationId
                     (JObj [("voterId", JStr (EligibleVoter.id voter));
                            ("error", JStr (delivery_error env ch));
                            ("regNo", JStr (EligibleVoter.regNo voter))])))
               (push_failed (channel_name ch) st))
  end.

Definition task_channel (t : Task) : Channel :=
  match t with OnSettled ch _ _ => ch end.

(** Registering the callbacks runs none of them. *)
Definition register (t : Task) : Handler unit :=
  fun st => (set_microtasks (microtasks st ++ [t]) st, Continue tt).

(** The handler yields at an [await]: the callbacks whose promise has
    settled run, the others stay registered. *)
Definition yield (env : Env) (st : HState) : HState :=
  let ready := filter (fun t => settled_by_next_await env (task_channel t)) (microtasks st) in
  let waiting :=
    filter (fun t => negb (settled_by_next_await env (task_channel t))) (microtasks st) in
  fold_left (fun s t => run_task env t s) ready (set_microtasks waiting st).

Definition await {A} (env : Env) (m : Handler A) : Handler A :=
  fun st => m (yield env st).

(** Once the handler is done the deliveries settle and the remaining
    callbacks run. *)
Definition settle (env : Env) (st : HState) : HState :=
  fold_left (fun s t => run_task env t s) (microtasks st) (set_microtasks [] st).

(** A handler body inside [try { .. } catch (error) { res.status(500).. }],
    run on a store; the result is the store once everything the request
    started has finished, and the answer sent. *)
Definition handle (env : Env) (body : Handler Response) (on_catch : Response)
    (db : Store) : Store * Response :=
  let '(st, out) := body (mkHState db [] [] []) in
  (store (settle env st),
   match out with
   | Continue r => r
   | Responded r => r
   | Threw => on_catch
   end).

(** ** castVote *)

Record Selection := mkSelection {
  positionId : Id;
  candidateId : Id
}.

(** The body of POST /vote/cast; [votes] is [None] when the field is absent
    or is not an array. *)
Record CastVoteBody := mkCastVoteBody {
  token : option string;
  votes : option (list Selection)
}.

(** [where: { id: { in: ids } }]. *)
Definition id_in (ids : list Id) (x : Id) : bool := existsb (String.eqb x) ids.

(** [new Set(xs).size]. *)
Fixpoint set_size (xs : list Id) : nat :=
  match xs with
  | [] => 0
  | x :: rest => if id_in rest x then set_size rest else S (set_size rest)
  end.

(** The window test of the two [position.findMany] queries:
    [votingOpens <= now] and [votingCloses >= now]. *)
Definition window_contains (now : Time) (p : Position.t) : bool :=
  (Position.votingOpens p <=? now) && (Position.votingCloses p >=? now).

(** The filter building [closedPositions]:
    [now < p.votingOpens || now > p.votingCloses]. *)
Definition reported_closed (now : Time) (p : Position.t) : bool :=
  (now <? Position.votingOpens p) || (now >? Position.votingCloses p).

(** [allPositions.filter((p) => { const now = new Date(); return .. })]:
    the callback reads the clock afresh for every position; [i] is the
    number of readings the request has made so far. *)
Fixpoint filter_closed (clock : nat -> Time) (i : nat) (ps : list Position.t)
    : list Position.t :=
  match ps with
  | [] => []
  | p :: rest =>
      if reported_closed (clock i) p then p :: filter_closed clock (S i) rest
      else filter_closed clock (S i) rest
  end.

(** [parseDate(new Date().toISOString().slice(0, 16))] in the votes
    controller that reads the clock through [parseDate].  The ISO string cut
    after the minutes, ["YYYY-MM-DDTHH:mm"], shows the UTC clock with seconds
    and milliseconds dropped and has no zone; the [parseDate] of that
    controller hands it to [new Date(..)] as it is, and a date-time string
    without zone is read as local time.  The result is the instant at which
    the server's local clock shows what the UTC clock shows now, seconds
    dropped: [zone wall] is the offset of the server's local time from UTC,
    in milliseconds, when the local clock shows [wall].  (For readings of the
    clock in the years 0000 to 9999, where the ISO string has a four-digit
    year.) *)
Definition votes_now_local (zone : Time -> Z) (t : Time) : Time :=
  let wall := 60000 * (t / 60000) in
  wall - zone wall.

(** [ballot.findUnique({ where: { token }, include: { voter } })]. *)
Definition find_ballot_with_voter (token : string) (db : Store)
    : option (Ballot.t * option EligibleVoter.t) :=
  match find (fun b => String.eqb (Ballot.token b) token) (prisma.ballot db) with
  | None => None
  | Some b =>
      Some (b, find (fun v => String.eqb (EligibleVoter.id v) (Ballot.voterId b))
                    (prisma.eligibleVoter db))
  end.

Definition ballot_update_consumed (ballotId : Id) (at_ : Time) (db : Store) : Store :=
  prisma.with_ballot
    (map (fun b => if String.eqb (Ballot.id b) ballotId then Ballot.consume at_ b else b))
    db.

(** The handler, with the way it obtains [now] for the window query as a
    parameter: the two revisions of the controller differ in that line
    only. *)
Definition castVote_body (now_of : Time -> Time) (env : Env) (req : CastVoteBody)
    : Handler Response :=
  match truthy (token req) with
  | None => respond (status_json 400 (ErrorBody "Ballot token is required" None))
  | Some token =>
  match votes req with
  | None | Some [] => respond (status_json 400 (ErrorBody "Votes are required" None))
  | Some votes =>
    found <- query env ballot_findUnique (find_ballot_with_voter token) ;;
    match found with
    | None => respond (status_json 404 (ErrorBody "Invalid ballot token" None))
    | Some (ballot, voter) =>
      if Ballot.is_consumed ballot then
        respond (status_json 400 (ErrorBody "This ballot has already been used"
                                            (Some "You can only vote once")))
      else
        let now := now_of (clock env 0) in
        positions <- query env position_findMany_open
          (fun db => filter (fun p => id_in (map positionId votes) (Position.id p)
                                      && window_contains now p)
                            (prisma.position db)) ;;
        if negb (Nat.eqb (List.length positions) (List.length votes)) then
          allPositions <- query env position_findMany_all
            (fun db => filter (fun p => id_in (map positionId votes) (Position.id p))
                              (prisma.position db)) ;;
          let closedPositions := filter_closed (clock env) 1 allPositions in
          respond (status_json 400
            (NotOpenBody "Some positions are not open for voting"
               (match closedPositions with
                | [] => "Voting window may have closed. Contact administrator to extend voting time."
                | _ => String.append "Voting window closed for: "
                         (join ", " (map Position.name closedPositions))
                end)
               (map (fun p => mkClosed (Position.name p) (Position.votingOpens p)
                                       (Position.votingCloses p))
                    closedPositions)))
        else
          let candidateIds := map candidateId votes in
          candidates <- query env candidate_findMany
            (fun db => filter (fun c => id_in candidateIds (Candidate.id c)
                                        && Candidate.is_approved c)
                              (prisma.candidate db)) ;;
          if negb (Nat.eqb (List.length candidates) (List.length votes)) then
            respond (status_json 400
              (ErrorBody "Some candidates are invalid or not approved" None))
          else
            let positionIds := map positionId votes in
            if negb (Nat.eqb (set_size positionIds) (List.length positionIds)) then
              respond (status_json 400
                (ErrorBody "Cannot vote multiple times for the same position" None))
            else
              existingVotes <- query env vote_findMany
                (fun db => filter (fun v => String.eqb (Vote.ballotId v) (Ballot.id ballot)
                                            && id_in positionIds (Vote.positionId v))
                                  (prisma.vote db)) ;;
              match existingVotes with
              | _ :: _ =>
                  respond (status_json 400
                    (ErrorBody "You have already voted for some of these positions" None))
              | [] =>
                  voteRecords <- mutate env vote_transaction
                    (fun db =>
                       let created :=
                         map (fun v => Vote.mk (Ballot.id ballot) (positionId v) (candidateId v))
                             votes in
                       (prisma.with_vote (fun l => l ++ created) db, created)) ;;
                  mutate env ballot_update
                    (fun db => (ballot_update_consumed (Ballot.id ballot) (clock env 1) db, tt)) ;;;
                  match voter with
                  | None => throw   (* [ballot.voter.id] on a null [voter] *)
                  | Some voter =>
                      detached
                        (logAudit env
                           (AuditEvent.mk "voter" (Some (EligibleVoter.id voter)) "CAST_VOTE"
                              "ballot" (Ballot.id ballot)
                              (JObj [("regNo", JStr (EligibleVoter.regNo voter));
                                     ("positionsVoted", JNum (Z.of_nat (List.length votes)));
                                     ("positions",
                                      JArr (map (fun v =>
                                                   JObj [("positionId", JStr (positionId v));
                                                         ("candidateId", JStr (candidateId v))])
                                                votes))]))) ;;;
                      ret (json (VoteCastBody "Vote cast successfully" (List.length voteRecords)
                             "Your vote has been recorded. Thank you for participating!"))
                  end
              end
    end
  end
  end.

Definition cast_failed : Response :=
  status_json 500 (ErrorBody "Failed to cast vote" None).

Definition castVote_with (now_of : Time -> Time) (env : Env) (req : CastVoteBody)
    (db : Store) : Store * Response :=
  handle env (castVote_body now_of env req) cast_failed db.

(** The revision that compares the windows with [new Date()]. *)
Definition castVote : Env -> CastVoteBody -> Store -> Store * Response :=
  castVote_with (fun t => t).

(** The revision that compares them with
    [parseDate(new Date().toISOString().slice(0, 16))], on a server whose
    local time is [zone] ahead of UTC. *)
Definition castVote_zone (zone : Time -> Z)
    : Env -> CastVoteBody -> Store -> Store * Response :=
  castVote_with (votes_now_local zone).

(** ** requestOTP and confirmOTP *)

Record RequestOTPBody := mkRequestOTPBody {
  request_reg_no : option string
}.

Record ConfirmOTPBody := mkConfirmOTPBody {
  reg_no : option string;
  otp : option string
}.

Definition is_null {A} (o : option A) : bool :=
  match o with None => true | Some _ => false end.

(** [findFirst({ where, orderBy: { issuedAt: 'desc' } })]: among the rows
    that satisfy [where], the one issued last (the earliest row of the table
    among equals). *)
Fixpoint latest (rows : list Verification.t) : option Verification.t :=
  match rows with
  | [] => None
  | v :: rest =>
      match latest rest with
      | None => Some v
      | Some w =>
          if Verification.issuedAt w >? Verification.issuedAt v then Some w else Some v
      end
  end.

Definition findFirst_latest (where_ : Verification.t -> bool) (db : Store)
    : option Verification.t :=
  latest (filter where_ (prisma.verification db)).

(** [eligibleVoter.findUnique({ where: { regNo: reg_no.toUpperCase() } })]. *)
Definition find_voter (reg_no : string) (db : Store) : option EligibleVoter.t :=
  find (fun v => String.eqb (EligibleVoter.regNo v) (toUpperCase reg_no))
       (prisma.eligibleVoter db).

(** [ballot.findFirst({ where: { voterId, status: 'CONSUMED' } })]. *)
Definition find_consumed_ballot (voterId : Id) (db : Store) : option Ballot.t :=
  find (fun b => String.eqb (Ballot.voterId b) voterId && Ballot.is_consumed b)
       (prisma.ballot db).

(** The [where] of the rate-limit query of [requestOTP]:
    [{ voterId, issuedAt: { gte: since }, verifiedAt: null }]. *)
Definition recent_unverified (voterId : Id) (since : Time) (v : Verification.t) : bool :=
  String.eqb (Verification.voterId v) voterId
  && (Verification.issuedAt v >=? since)
  && is_null (Verification.verifiedAt v).

(** The [where] of the challenge query of [confirmOTP]:
    [{ voterId, verifiedAt: null, consumedAt: null, expiresAt: { gte: now } }]. *)
Definition unverified_unexpired (voterId : Id) (now : Time) (v : Verification.t) : bool :=
  String.eqb (Verification.voterId v) voterId
  && is_null (Verification.verifiedAt v)
  && is_null (Verification.consumedAt v)
  && (Verification.expiresAt v >=? now).

Definition is_eligible (v : EligibleVoter.t) : bool :=
  match EligibleVoter.status v with
  | EligibleVoter.ELIGIBLE => true
  | EligibleVoter.INELIGIBLE => false
  end.

Definition requestOTP_body (env : Env) (req : RequestOTPBody) : Handler Response :=
  match truthy (request_reg_no req) with
  | None => respond (status_json 400 (ErrorBody "Registration number is required" None))
  | Some reg_no =>
    voter <- query env eligibleVoter_findUnique (find_voter reg_no) ;;
    match voter with
    | None => respond (status_json 404 (ErrorBody "Registration number not found" None))
    | Some voter =>
      if negb (is_eligible voter) then
        respond (status_json 400 (ErrorBody "Voter is not eligible" None))
      else
        existingBallot <- query env ballot_findFirst
                            (find_consumed_ballot (EligibleVoter.id voter)) ;;
        match existingBallot with
        | Some _ =>
            respond (status_json 400
              (ErrorBody "You have already voted. Ballot already used."
                         (Some "Each voter can only vote once")))
        | None =>
          recentVerification <- query env verification_findFirst
            (findFirst_latest
               (recent_unverified (EligibleVoter.id voter)
                  (clock env 0 - 2 * 60 * 1000))) ;;
          match recentVerification with
          | Some _ =>
              respond (status_json 429
                (RateLimitBody "Please wait before requesting another OTP" 120))
          | None =>
            let otp := random_otp env in
            otpHash <- query env bcrypt_hash_call (fun _ => bcrypt_hash env otp) ;;
            let expiresAt := clock env 1 + 5 * 60 * 1000 in
            match truthy (EligibleVoter.email voter) with
            | None =>
                respond (status_json 400
                  (ErrorBody "Voter email not found"
                     (Some "Contact administrator to update your email address in the CSV file")))
            | Some _ =>
            match truthy (EligibleVoter.phone voter) with
            | None =>
                respond (status_json 400
                  (ErrorBody "Voter phone number not found"
                     (Some "Contact administrator to update your phone number in the CSV file")))
            | Some _ =>
              verification <- mutate env verification_create
                (fun db =>
                   let v := Verification.mk (new_verification_id env) (EligibleVoter.id voter)
                              "both" otpHash (db_now env) expiresAt None None None in
                   (prisma.with_verification (fun l => l ++ [v]) db, v)) ;;
              (* sentMethods = [], failedMethods = []; the two sends start and
                 their callbacks are registered, neither is awaited *)
              register (OnSettled Email (Verification.id verification) voter) ;;;
              register (OnSettled SMS (Verification.id verification) voter) ;;;
              sent <- get_sentMethods ;;
              failed <- get_failedMethods ;;
              if Nat.eqb (List.length sent) 0 then
                respond (status_json 500
                  (DeliveryFailedBody "Failed to send OTP via both email and SMS"
                     "Please contact administrator. Both email and SMS services may be misconfigured."
                     (if includes "email" failed then Some "Email service failed" else None)
                     (if includes "SMS" failed then Some "SMS service failed" else None)))
              else
                await env
                  (logAudit env
                     (AuditEvent.mk "system" None "OTP_REQUESTED" "verification"
                        (Verification.id verification)
                        (JObj ([("voterId", JStr (EligibleVoter.id voter));
                                ("regNo", JStr (EligibleVoter.regNo voter));
                                ("methods", JArr (map JStr sent))]
                               ++ match failed with
                                  | [] => []
                                  | _ => [("failedMethods", JArr (map JStr failed))]
                                  end)))) ;;;
                sent <- get_sentMethods ;;
                failed <- get_failedMethods ;;
                let '(message, hint) :=
                  if Nat.eqb (List.length sent) 2 then
                    ("OTP sent successfully to your email and phone",
                     "Check both your email and SMS for the verification code")
                  else if includes "email" sent then
                    ("OTP sent successfully to your email",
                     "Check your email for the verification code. SMS delivery failed.")
                  else if includes "SMS" sent then
                    ("OTP sent successfully to your phone",
                     "Check your SMS for the verification code. Email delivery failed.")
                  else ("OTP sent successfully", "") in
                ret (json
                  (OtpSentBody message 300 hint sent
                     (match failed with
                      | [] => None
                      | _ => Some (String.append "Some delivery methods failed: "
                                                 (join ", " failed))
                      end)))
            end
            end
          end
        end
    end
  end.

Definition request_failed : Response :=
  status_json 500 (ErrorBody "Failed to request OTP" None).

Definition requestOTP (env : Env) (req : RequestOTPBody) (db : Store)
    : Store * Response :=
  handle env (requestOTP_body env req) request_failed db.

(** [ballot.create]: the token is a unique column (the controllers look
    ballots up with [findUnique({ where: { token } })]), so creating a second
    row with a token already there rejects. *)
Definition ballot_create_row (b : Ballot.t) (db : Store) : option (Store * Ballot.t) :=
  if existsb (fun b' => String.eqb (Ballot.token b') (Ballot.token b)) (prisma.ballot db)
  then None
  else Some (prisma.with_ballot (fun l => l ++ [b]) db, b).

Definition verification_update (id : Id) (f : Verification.t -> Verification.t)
    (db : Store) : Store :=
  prisma.with_verification
    (map (fun v => if String.eqb (Verification.id v) id then f v else v)) db.

Definition confirmOTP_body (env : Env) (req : ConfirmOTPBody) : Handler Response :=
  match truthy (reg_no req), truthy (otp req) with
  | Some reg_no, Some otp =>
    voter <- query env eligibleVoter_findUnique (find_voter reg_no) ;;
    match voter with
    | None => respond (status_json 404 (ErrorBody "Registration number not found" None))
    | Some voter =>
      verification <- query env verification_findFirst
        (findFirst_latest (unverified_unexpired (EligibleVoter.id voter) (clock env 0))) ;;
      match verification with
      | None =>
          respond (status_json 400 (ErrorBody "No valid OTP found" (Some "Request a new OTP")))
      | Some verification =>
        validOTP <- query env bcrypt_compare_call
                      (fun _ => bcrypt_compare env otp (Verification.otpHash verification)) ;;
        if negb validOTP then
          logAudit env
            (AuditEvent.mk "system" None "OTP_VERIFICATION_FAILED" "verification"
               (Verification.id verification)
               (JObj [("voterId", JStr (EligibleVoter.id voter));
                      ("regNo", JStr (EligibleVoter.regNo voter))])) ;;;
          respond (status_json 401 (ErrorBody "Invalid OTP" None))
        else
          existingBallot <- query env ballot_findFirst
                              (find_consumed_ballot (EligibleVoter.id voter)) ;;
          match existingBallot with
          | Some _ =>
              respond (status_json 400
                (ErrorBody "You have already voted. Ballot already used." None))
          | None =>
            mutate env verification_update_verifiedAt
              (fun db => (verification_update (Verification.id verification)
                            (Verification.set_verifiedAt (clock env 1)) db, tt)) ;;;
            let ballotToken := random_token env in
            ballot <- attempt env ballot_create
              (ballot_create_row
                 (Ballot.mk (new_ballot_id env) (EligibleVoter.id voter) ballotToken
                            Ballot.ACTIVE (db_now env) None)) ;;
            mutate env verification_update_ballotToken
              (fun db => (verification_update (Verification.id verification)
                            (Verification.set_ballotToken ballotToken) db, tt)) ;;;
            logAudit env
              (AuditEvent.mk "system" None "OTP_VERIFIED_BALLOT_ISSUED" "ballot"
                 (Ballot.id ballot)
                 (JObj [("voterId", JStr (EligibleVoter.id voter));
                        ("regNo", JStr (EligibleVoter.regNo voter));
                        ("ballotToken",
                         JStr (String.append (substring0 8 ballotToken) "..."))])) ;;;
            ret (json (VerifiedBody "Verification successful" ballotToken
                         (Ballot.issuedAt ballot)
                         "Use this token to cast your vote. It can only be used once."))
          end
      end
    end
  | _, _ => respond (status_json 400 (ErrorBody "Registration number and OTP are required" None))
  end.

Definition confirm_failed : Response :=
  status_json 500 (ErrorBody "Failed to verify OTP" None).

Definition confirmOTP (env : Env) (req : ConfirmOTPBody) (db : Store)
    : Store * Response :=
  handle env (confirmOTP_body env req) confirm_failed db.

(** ** Selecting rows by a list of ids *)

(** [findMany({ where: { id: { in: ids }, .. } })]: the rows whose key is
    among [ids] and that pass the rest of the filter. *)
Definition select {A : Type} (key : A -> Id) (keep : A -> bool) (ids : list Id)
    (rows : list A) : list A :=
  filter (fun r => id_in ids (key r) && keep r) rows.

(** ** The answers, named as the specification names them *)

Inductive ErrorCode :=
| NOT_FOUND | INELIGIBLE | ALREADY_VOTED | RATE_LIMITED | MISSING_CONTACT
| DELIVERY_FAILED | NO_VALID_CHALLENGE | INVALID_OTP
| INVALID_TOKEN | MALFORMED_SUBMISSION | WINDOW_CLOSED | INVALID_CANDIDATE
| DUPLICATE_VOTE.

Definition error_of_message (e : string) : option ErrorCode :=
  if String.eqb e "Registration number not found" then Some NOT_FOUND
  else if String.eqb e "Voter is not eligible" then Some INELIGIBLE
  else if String.eqb e "You have already voted. Ballot already used." then Some ALREADY_VOTED
  else if String.eqb e "This ballot has already been used" then Some ALREADY_VOTED
  else if String.eqb e "Voter email not found" then Some MISSING_CONTACT
  else if String.eqb e "Voter phone number not found" then Some MISSING_CONTACT
  else if String.eqb e "No valid OTP found" then Some NO_VALID_CHALLENGE
  else if String.eqb e "Invalid OTP" then Some INVALID_OTP
  else if String.eqb e "Invalid ballot token" then Some INVALID_TOKEN
  else if String.eqb e "Votes are required" then Some MALFORMED_SUBMISSION
  else if String.eqb e "Cannot vote multiple times for the same position"
       then Some MALFORMED_SUBMISSION
  else if String.eqb e "Some candidates are invalid or not approved"
       then Some INVALID_CANDIDATE
  else if String.eqb e "You have already voted for some of these positions"
       then Some DUPLICATE_VOTE
  else None.

Definition error_code (r : Response) : option ErrorCode :=
  match body r with
  | ErrorBody e _ => error_of_message e
  | RateLimitBody _ _ => Some RATE_LIMITED
  | DeliveryFailedBody _ _ _ _ => Some DELIVERY_FAILED
  | NotOpenBody _ _ _ => Some WINDOW_CLOSED
  | OtpSentBody _ _ _ _ _ | VerifiedBody _ _ _ _ | VoteCastBody _ _ _ => None
  end.

(** ** Integrity of the store *)

(** Primary keys: no two rows of the position table, and no two of the
    candidate table, have the same id. *)
Definition position_ids_unique (db : Store) : Prop :=
  NoDup (map Position.id (prisma.position db)).

Definition candidate_ids_unique (db : Store) : Prop :=
  NoDup (map Candidate.id (prisma.candidate db)).


(** ** Requests that reach the window check *)

(** The request carries a token that resolves to a ballot that is not
    CONSUMED and a non-empty array of selections, and none of the storage
    calls up to the window check rejects. *)
Definition reaches_window_check (env : Env) (req : CastVoteBody) (db : Store)
    (tok : string) (vs : list Selection) (b : Ballot.t)
    (voter : option EligibleVoter.t) : Prop :=
  truthy (token req) = Some tok /\
  votes req = Some vs /\
  vs <> [] /\
  rejects env ballot_findUnique = false /\
  find_ballot_with_voter tok db = Some (b, voter) /\
  Ballot.is_consumed b = false /\
  rejects env position_findMany_open = false /\
  rejects env position_findMany_all = false.

(** The closed interval [[votingOpens, votingCloses]]. *)
Definition in_closed_window (now : Time) (p : Position.t) : Prop :=
  Position.votingOpens p <= now <= Position.votingCloses p.

(** The ballots of a voter that have reached CONSUMED, and those that are
    ACTIVE. *)
Definition consumed_ballots_of (voterId : Id) (db : Store) : list Ballot.t :=
  filter (fun b => String.eqb (Ballot.voterId b) voterId && Ballot.is_consumed b)
         (prisma.ballot db).

Definition active_ballots_of (voterId : Id) (db : Store) : list Ballot.t :=
  filter (fun b => String.eqb (Ballot.voterId b) voterId && Ballot.is_active b)
         (prisma.ballot db).

(** The Vote rows of a ballot. *)
Definition votes_of (ballotId : Id) (db : Store) : list Vote.t :=
  filter (fun v => String.eqb (Vote.ballotId v) ballotId) (prisma.vote db).

(** The environment with another account of which calls reject. *)
Definition with_rejects (rej : Op -> bool) (env : Env) : Env :=
  mkEnv (clock env) (random_otp env) (random_token env) (bcrypt_hash env)
        (bcrypt_compare env) (new_verification_id env) (new_ballot_id env)
        (db_now env) (delivered env) (delivery_error env)
        (settled_by_next_await env) rej.

(** ** A small election, for the examples *)

Module Scenario.

(** A stand-in for bcrypt: the hash is the code behind a fixed prefix. *)
Definition toy_hash (code : string) : string := String.append "$2a$10$" code.
Definition toy_compare (code hash : string) : bool := String.eqb (toy_hash code) hash.

Definition never : Op -> bool := fun _ => false.

Definition only_ballot_update : Op -> bool :=
  fun op => match op with ballot_update => true | _ => false end.

Definition only_audit : Op -> bool :=
  fun op => match op with audit_write _ => true | _ => false end.

(** The environment of a request served at instant [t]. *)
Definition env_at (t : Time) (code tok vid bid : string) (deliver : Channel -> bool)
    (rej : Op -> bool) : Env :=
  mkEnv (fun _ => t) code tok toy_hash toy_compare vid bid t deliver
        (fun _ => "gateway unreachable") (fun _ => false) rej.

Definition all_delivered : Channel -> bool := fun _ => true.

(** One eligible voter, one position open from the first minute to the end
    of the first hour, an approved and a pending candidate for it. *)
Definition P1 : Position.t := Position.mk "P1" "President" 60000 3600000.

Definition db0 : Store :=
  prisma.mkStore
    [EligibleVoter.mk "v1" "REG123" "Ann" EligibleVoter.ELIGIBLE
                      (Some "ann@example.org") (Some "+256700000001")]
    [] [] []
    [P1]
    [Candidate.mk "C1" "P1" "Bob" Candidate.APPROVED;
     Candidate.mk "C2" "P1" "Eve" Candidate.PENDING]
    [].

Definition request (r : string) : RequestOTPBody := mkRequestOTPBody (Some r).
Definition confirm (r code : string) : ConfirmOTPBody :=
  mkConfirmOTPBody (Some r) (Some code).
Definition cast (tok : string) (vs : list Selection) : CastVoteBody :=
  mkCastVoteBody (Some tok) (Some vs).

(** The voter asks for a code and confirms it, twice over, before voting. *)
Definition requested1 : Store * Response :=
  requestOTP (env_at 100000 "123456" "" "ver1" "" all_delivered never)
             (request "reg123") db0.
Definition issued1 : Store * Response :=
  confirmOTP (env_at 130000 "" "tokA" "" "b1" all_delivered never)
             (confirm "reg123" "123456") (fst requested1).
Definition requested2 : Store * Response :=
  requestOTP (env_at 160000 "654321" "" "ver2" "" all_delivered never)
             (request "reg123") (fst issued1).
Definition issued2 : Store * Response :=
  confirmOTP (env_at 190000 "" "tokB" "" "b2" all_delivered never)
             (confirm "reg123" "654321") (fst requested2).
Definition cast1 : Store * Response :=
  castVote (env_at 220000 "" "" "" "" all_delivered never)
           (cast "tokA" [mkSelection "P1" "C1"]) (fst issued2).
Definition cast2 : Store * Response :=
  castVote (env_at 250000 "" "" "" "" all_delivered never)
           (cast "tokB" [mkSelection "P1" "C1"]) (fst cast1).


(** The store once the first ballot is issued. *)
Definition db_issued : Store := fst issued1.

End Scenario.

(** ** The rest of the votes controller *)

(** [orderBy: { key: 'asc' }]: the rows in ascending order of a column, for
    the order [le] of the database on that column; insertion keeps rows with
    equal keys in table order. *)
Fixpoint insert_by {A : Type} (le : A -> A -> bool) (x : A) (l : list A) : list A :=
  match l with
  | [] => [x]
  | y :: rest => if le x y then x :: y :: rest else y :: insert_by le x rest
  end.

Definition orderBy {A K : Type} (le : K -> K -> bool) (key : A -> K) (rows : list A)
    : list A :=
  fold_right (insert_by (fun a b => le (key a) (key b))) [] rows.

(** GET /vote/ballot: the token comes from the query string or, failing
    that, from the [x-ballot-token] header. *)
Record GetBallotRequest := mkGetBallotRequest {
  query_token : option string;
  header_x_ballot_token : option string
}.

(** A candidate of the page, with the [{ id, name }] of its position that the
    query includes. *)
Record ListedCandidate := mkListedCandidate {
  listed : Candidate.t;
  listed_position : option (Id * string)
}.

Record BallotPage := mkBallotPage {
  page_ballot_id : Id;
  page_ballot_status : Ballot.Status;
  page_ballot_issuedAt : Time;
  page_positions : list Position.t;
  page_candidates : list ListedCandidate
}.

Inductive BallotAnswer :=
| Refused (r : Response)
| Page (p : BallotPage).

Definition answer_status (a : BallotAnswer) : Z :=
  match a with
  | Refused r => status r
  | Page _ => 200
  end.

(** [req.query.token || req.headers['x-ballot-token']]. *)
Definition request_token (req : GetBallotRequest) : option string :=
  match truthy (query_token req) with
  | Some t => Some t
  | None => truthy (header_x_ballot_token req)
  end.

Definition include_position (db : Store) (c : Candidate.t) : ListedCandidate :=
  mkListedCandidate c
    (match find (fun p => String.eqb (Position.id p) (Candidate.positionId c))
                (prisma.position db) with
     | Some p => Some (Position.id p, Position.name p)
     | None => None
     end).

(** The handler.  [now_of] is the way the revision obtains [now] from the
    clock; [collate] is the order of the database on names; [diagnose] is
    [None] in the revision without diagnostics and, in the other one, says
    whether its additional query of the candidates of every status rejects
    (the query is made when positions are listed and no candidate is). *)
Definition getBallot_body (now_of : Time -> Time) (collate : string -> string -> bool)
    (diagnose : option bool) (env : Env) (req : GetBallotRequest)
    : Handler BallotPage :=
  match request_token req with
  | None => respond (status_json 400 (ErrorBody "Ballot token is required" None))
  | Some token =>
    found <- query env ballot_findUnique (find_ballot_with_voter token) ;;
    match found with
    | None => respond (status_json 404 (ErrorBody "Invalid ballot token" None))
    | Some (ballot, _) =>
      if Ballot.is_consumed ballot then
        respond (status_json 400 (ErrorBody "This ballot has already been used"
                                            (Some "You can only vote once")))
      else
        let now := now_of (clock env 0) in
        positions <- query env position_findMany_open
          (fun db => orderBy collate Position.name
                       (filter (window_contains now) (prisma.position db))) ;;
        let positionIds := map Position.id positions in
        candidates <- query env candidate_findMany
          (fun db => map (include_position db)
                       (orderBy collate Candidate.name
                          (filter (fun c => id_in positionIds (Candidate.positionId c)
                                            && Candidate.is_approved c)
                                  (prisma.candidate db)))) ;;
        match diagnose, candidates, positions with
        | Some _, c :: _, _ =>
            (* logs [candidates[0].position.name] *)
            match listed_position c with
            | Some _ => ret tt
            | None => throw
            end
        | Some true, [], _ :: _ => throw
        | _, _, _ => ret tt
        end ;;;
        ret (mkBallotPage (Ballot.id ballot) (Ballot.status ballot)
                          (Ballot.issuedAt ballot) positions candidates)
    end
  end.

Definition ballot_failed : Response :=
  status_json 500 (ErrorBody "Failed to fetch ballot" None).

Definition getBallot_with (now_of : Time -> Time) (collate : string -> string -> bool)
    (diagnose : option bool) (env : Env) (req : GetBallotRequest) (db : Store)
    : Store * BallotAnswer :=
  let '(st, out) := getBallot_body now_of collate diagnose env req
                      (mkHState db [] [] []) in
  (store (settle env st),
   match out with
   | Continue p => Page p
   | Responded r => Refused r
   | Threw => Refused ballot_failed
   end).

(** The revision that compares the windows with [new Date()]. *)
Definition getBallot (collate : string -> string -> bool)
    : Env -> GetBallotRequest -> Store -> Store * BallotAnswer :=
  getBallot_with (fun t => t) collate None.

(** The revision that reads the clock through [parseDate] and logs
    diagnostics. *)
Definition getBallot_zone (zone : Time -> Z) (collate : string -> string -> bool)
    (diagnostics_reject : bool)
    : Env -> GetBallotRequest -> Store -> Store * BallotAnswer :=
  getBallot_with (votes_now_local zone) collate (Some diagnostics_reject).

(** The store with the [positionId] column of the candidates rewritten. *)
Definition reassign_candidates (g : Candidate.t -> Id) (db : Store) : Store :=
  prisma.mkStore (prisma.eligibleVoter db) (prisma.verification db) (prisma.ballot db)
    (prisma.vote db) (prisma.position db)
    (map (fun c => Candidate.mk (Candidate.id c) (g c) (Candidate.name c)
                                (Candidate.status c))
         (prisma.candidate db))
    (prisma.auditLog db).

(** The Vote rows [castVote] creates for a ballot and a submission. *)
Definition created_votes (ballotId : Id) (vs : list Selection) : list Vote.t :=
  map (fun v => Vote.mk ballotId (positionId v) (candidateId v)) vs.

(** ** Stores that differ in the audit log only *)

Definition same_tables (db db' : Store) : Prop :=
  prisma.eligibleVoter db' = prisma.eligibleVoter db
  /\ prisma.verification db' = prisma.verification db
  /\ prisma.ballot db' = prisma.ballot db
  /\ prisma.vote db' = prisma.vote db
  /\ prisma.position db' = prisma.position db
  /\ prisma.candidate db' = prisma.candidate db.

(** The challenge [requestOTP] stores for a voter. *)
Definition issued_challenge (env : Env) (voter : EligibleVoter.t) : Verification.t :=
  Verification.mk (new_verification_id env) (EligibleVoter.id voter) "both"
    (bcrypt_hash env (random_otp env)) (db_now env) (clock env 1 + 5 * 60 * 1000)
    None None None.

(** The ballot [confirmOTP] creates for a voter. *)
Definition issued_ballot (env : Env) (voter : EligibleVoter.t) : Ballot.t :=
  Ballot.mk (new_ballot_id env) (EligibleVoter.id voter) (random_token env)
            Ballot.ACTIVE (db_now env) None.

(** ** The positions controller *)

(** [s.includes(c)] for a one-character [c], and the number of occurrences
    of [c] in [s] (so that [s.split(c).length] is one more). *)
Fixpoint includes_char (c : ascii) (s : string) : bool :=
  match s with
  | EmptyString => false
  | String a rest => Ascii.eqb a c || includes_char c rest
  end.

Fixpoint count_char (c : ascii) (s : string) : nat :=
  match s with
  | EmptyString => 0
  | String a rest => (if Ascii.eqb a c then 1 else 0) + count_char c rest
  end.

(** [\d]. *)
Definition is_digit (c : ascii) : bool :=
  let n := nat_of_ascii c in (Nat.leb 48 n && Nat.leb n 57)%bool.

(** [[+-]]. *)
Definition is_sign (c : ascii) : bool := Ascii.eqb c "+" || Ascii.eqb c "-".

(** [s.match(/[+-]\d{2}:\d{2}$/)] is not null: the last six characters of
    [s] are a sign, two digits, a colon and two digits. *)
Definition matches_offset_suffix (s : string) : bool :=
  match rev (list_ascii_of_string s) with
  | d4 :: d3 :: colon :: d2 :: d1 :: sign :: _ =>
      is_sign sign && is_digit d1 && is_digit d2 && Ascii.eqb colon ":"
      && is_digit d3 && is_digit d4
  | _ => false
  end.

(** The string has zone information, in the sense of [parseDate]. *)
Definition has_zone (s : string) : bool :=
  includes_char "Z" s || matches_offset_suffix s.

(** [parseDate] of the positions controller, up to the argument it hands to
    [new Date(..)]: the empty string, which is falsy, is passed as it is; a
    string without zone gets [":00Z"] when it has exactly one colon and
    ["Z"] otherwise; a string with zone is passed as it is. *)
Definition parseDate_argument (dateString : string) : string :=
  match dateString with
  | EmptyString => dateString
  | _ =>
      if negb (includes_char "Z" dateString) && negb (matches_offset_suffix dateString)
      then
        if includes_char ":" dateString && Nat.eqb (S (count_char ":" dateString)) 2
        then String.append dateString ":00Z"
        else String.append dateString "Z"
      else dateString
  end.

Module PositionRow.
Record t := mk {
  id : Id;
  name : string;
  seats : Z;
  nominationOpens : Time;
  nominationCloses : Time;
  votingOpens : Time;
  votingCloses : Time
}.
End PositionRow.

(** The tables the positions controller reaches. *)
Record AdminStore := mkAdminStore {
  admin_position : list PositionRow.t;
  admin_candidate : list Candidate.t;
  admin_vote : list Vote.t;
  admin_auditLog : list AuditEvent.t
}.

(** [seats] in a request body: a JSON number, taken to be an integer, or
    a string. *)
Inductive Seats :=
| SeatsNumber (n : Z)
| SeatsText (s : string).

Record User := mkUser {
  user_id : Id;
  role : string
}.

(** The body of a request; [None] for a field the body does not have. *)
Record PositionBody := mkPositionBody {
  body_name : option string;
  body_seats : option Seats;
  body_nominationOpens : option string;
  body_nominationCloses : option string;
  body_votingOpens : option string;
  body_votingCloses : option string
}.

Inductive AdminOp :=
| position_create
| position_findUnique
| position_update
| position_delete
| position_findMany
| admin_audit (action : string).

(** What the positions controller reads from outside the store:
    [new Date(string)] ([None] for an invalid date), [parseInt] on a string
    ([None] for NaN), [parseInt] on the number that [JSON.parse] makes of an
    integer beyond 2^53 (it reads the text the number prints as, so that
    1e21 gives 1), the id given to a created row, the clock, and which
    awaited calls reject. *)
Record AdminEnv := mkAdminEnv {
  Date_of_string : string -> option Time;
  parseInt_text : string -> option Z;
  parseInt_number : Z -> option Z;
  new_position_id : Id;
  admin_now : Time;
  admin_rejects : AdminOp -> bool
}.

Inductive AdminAnswer :=
| AdminError (code : Z) (error : string)
| PositionSaved (code : Z) (message : string) (position : PositionRow.t)
| PositionDeleted (message : string)
| OpenPositions (positions : list PositionRow.t).

Definition admin_status (a : AdminAnswer) : Z :=
  match a with
  | AdminError code _ => code
  | PositionSaved code _ _ => code
  | PositionDeleted _ => 200
  | OpenPositions _ => 200
  end.

(** [parseDate(dateString)] for a string. *)
Definition parseDate (env : AdminEnv) (dateString : string) : option Time :=
  Date_of_string env (parseDate_argument dateString).

(** [a <= b] and [a < b] on two [Date]s: false as soon as one is invalid. *)
Definition date_le (a b : option Time) : bool :=
  match a, b with
  | Some x, Some y => x <=? y
  | _, _ => false
  end.

Definition date_lt (a b : option Time) : bool :=
  match a, b with
  | Some x, Some y => x <? y
  | _, _ => false
  end.

(** JS truthiness of [seats]: [0] and the empty string are falsy. *)
Definition truthy_seats (o : option Seats) : option Seats :=
  match o with
  | Some (SeatsNumber 0) => None
  | Some (SeatsText EmptyString) => None
  | other => other
  end.

(** [parseInt(seats)]: an integer that a double holds exactly prints as
    its decimal digits and is read back as itself. *)
Definition parseInt (env : AdminEnv) (s : Seats) : option Z :=
  match s with
  | SeatsNumber n =>
      if Z.abs n <=? 9007199254740992 then Some n else parseInt_number env n
  | SeatsText t => parseInt_text env t
  end.

(** A property of the audit payload: a field the body does not have is
    [undefined] and is left out. *)
Definition text_field (key : string) (o : option string) : list (string * Json) :=
  match o with
  | Some s => [(key, JStr s)]
  | None => []
  end.

Definition seats_field (key : string) (o : option Seats) : list (string * Json) :=
  match o with
  | Some (SeatsNumber n) => [(key, JNum n)]
  | Some (SeatsText s) => [(key, JStr s)]
  | None => []
  end.

Definition position_payload (body : PositionBody) : Json :=
  JObj (text_field "name" (body_name body)
        ++ seats_field "seats" (body_seats body)
        ++ text_field "nominationOpens" (body_nominationOpens body)
        ++ text_field "nominationCloses" (body_nominationCloses body)
        ++ text_field "votingOpens" (body_votingOpens body)
        ++ text_field "votingCloses" (body_votingCloses body)).

Definition record_audit (ev : AuditEvent.t) (db : AdminStore) : AdminStore :=
  mkAdminStore (admin_position db) (admin_candidate db) (admin_vote db)
               (admin_auditLog db ++ [ev]).

Definition with_admin_position (f : list PositionRow.t -> list PositionRow.t)
    (db : AdminStore) : AdminStore :=
  mkAdminStore (f (admin_position db)) (admin_candidate db) (admin_vote db)
               (admin_auditLog db).

Definition create_failed : AdminAnswer := AdminError 500 "Failed to create position".

(** POST /positions.  [user] is [req.user], absent when no middleware has
    set it; Prisma refuses a row with an invalid date or a [seats] that is
    not a number. *)
Definition createPosition (env : AdminEnv) (user : option User) (body : PositionBody)
    (db : AdminStore) : AdminStore * AdminAnswer :=
  match user with
  | None => (db, create_failed)
  | Some user =>
    if negb (String.eqb (role user) "ADMIN") then
      (db, AdminError 403 "Only administrators can create positions")
    else
      match truthy (body_name body), truthy_seats (body_seats body),
            truthy (body_nominationOpens body), truthy (body_nominationCloses body),
            truthy (body_votingOpens body), truthy (body_votingCloses body) with
      | Some name, Some seats, Some nominationOpens, Some nominationCloses,
        Some votingOpens, Some votingCloses =>
        let nomOpen := parseDate env nominationOpens in
        let nomClose := parseDate env nominationCloses in
        let voteOpen := parseDate env votingOpens in
        let voteClose := parseDate env votingCloses in
        if date_le nomClose nomOpen then
          (db, AdminError 400 "Nomination close date must be after open date")
        else if date_le voteClose voteOpen then
          (db, AdminError 400 "Voting close date must be after open date")
        else if date_lt voteOpen nomClose then
          (db, AdminError 400 "Voting period must start after nomination period ends")
        else if admin_rejects env position_create then (db, create_failed)
        else
          match parseInt env seats, nomOpen, nomClose, voteOpen, voteClose with
          | Some n, Some a, Some b, Some c, Some d =>
              let position := PositionRow.mk (new_position_id env) name n a b c d in
              let db1 := with_admin_position (fun l => l ++ [position]) db in
              if admin_rejects env (admin_audit "CREATE_POSITION") then
                (db1, create_failed)
              else
                (record_audit
                   (AuditEvent.mk "admin" (Some (user_id user)) "CREATE_POSITION"
                      "position" (PositionRow.id position) (position_payload body))
                   db1,
                 PositionSaved 201 "Position created successfully" position)
          | _, _, _, _, _ => (db, create_failed)
          end
      | _, _, _, _, _, _ => (db, AdminError 400 "All fields are required")
      end
  end.

Definition find_position (id : Id) (db : AdminStore) : option PositionRow.t :=
  find (fun p => String.eqb (PositionRow.id p) id) (admin_position db).

(** The [data] of the update: a field of the body that is truthy replaces
    the column; [None] when a value given is one Prisma refuses. *)
Definition updated_row (env : AdminEnv) (body : PositionBody) (p : PositionRow.t)
    : option PositionRow.t :=
  let text (given : option string) (old : string) : string :=
    match truthy given with Some s => s | None => old end in
  let date (given : option string) (old : Time) : option Time :=
    match truthy given with Some s => parseDate env s | None => Some old end in
  match (match truthy_seats (body_seats body) with
         | Some s => parseInt env s
         | None => Some (PositionRow.seats p)
         end),
        date (body_nominationOpens body) (PositionRow.nominationOpens p),
        date (body_nominationCloses body) (PositionRow.nominationCloses p),
        date (body_votingOpens body) (PositionRow.votingOpens p),
        date (body_votingCloses body) (PositionRow.votingCloses p) with
  | Some n, Some a, Some b, Some c, Some d =>
      Some (PositionRow.mk (PositionRow.id p) (text (body_name body) (PositionRow.name p))
                           n a b c d)
  | _, _, _, _, _ => None
  end.

Definition update_failed : AdminAnswer := AdminError 500 "Failed to update position".

(** PUT /positions/:id. *)
Definition updatePosition (env : AdminEnv) (user : option User) (id : Id)
    (body : PositionBody) (db : AdminStore) : AdminStore * AdminAnswer :=
  if admin_rejects env position_findUnique then (db, update_failed)
  else
    match find_position id db with
    | None => (db, AdminError 404 "Position not found")
    | Some existingPosition =>
      if match truthy (body_nominationOpens body), truthy (body_nominationCloses body) with
         | Some nominationOpens, Some nominationCloses =>
             date_le (parseDate env nominationCloses) (parseDate env nominationOpens)
         | _, _ => false
         end
      then (db, AdminError 400 "Nomination close date must be after open date")
      else if match truthy (body_votingOpens body), truthy (body_votingCloses body) with
              | Some votingOpens, Some votingCloses =>
                  date_le (parseDate env votingCloses) (parseDate env votingOpens)
              | _, _ => false
              end
      then (db, AdminError 400 "Voting close date must be after open date")
      else if admin_rejects env position_update then (db, update_failed)
      else
        match updated_row env body existingPosition with
        | None => (db, update_failed)
        | Some position =>
            let db1 :=
              with_admin_position
                (map (fun p => if String.eqb (PositionRow.id p) id then position else p))
                db in
            match user with
            | None => (db1, update_failed)
            | Some user =>
                if admin_rejects env (admin_audit "UPDATE_POSITION") then
                  (db1, update_failed)
                else
                  (record_audit
                     (AuditEvent.mk "admin" (Some (user_id user)) "UPDATE_POSITION"
                        "position" (PositionRow.id position) (position_payload body))
                     db1,
                   PositionSaved 200 "Position updated successfully" position)
            end
        end
    end.

Definition delete_failed : AdminAnswer := AdminError 500 "Failed to delete position".

(** DELETE /positions/:id. *)
Definition deletePosition (env : AdminEnv) (user : option User) (id : Id)
    (db : AdminStore) : AdminStore * AdminAnswer :=
  if admin_rejects env position_findUnique then (db, delete_failed)
  else
    match find_position id db with
    | None => (db, AdminError 404 "Position not found")
    | Some position =>
      let count_candidates :=
        List.length (filter (fun c => String.eqb (Candidate.positionId c) id)
                            (admin_candidate db)) in
      let count_votes :=
        List.length (filter (fun v => String.eqb (Vote.positionId v) id)
                            (admin_vote db)) in
      if Nat.ltb 0 count_candidates then
        (db, AdminError 400 "Cannot delete position with existing candidates")
      else if Nat.ltb 0 count_votes then
        (db, AdminError 400 "Cannot delete position with existing votes")
      else if admin_rejects env position_delete then (db, delete_failed)
      else
        let db1 :=
          with_admin_position
            (filter (fun p => negb (String.eqb (PositionRow.id p) id))) db in
        match user with
        | None => (db1, delete_failed)
        | Some user =>
            if admin_rejects env (admin_audit "DELETE_POSITION") then (db1, delete_failed)
            else
              (record_audit
                 (AuditEvent.mk "admin" (Some (user_id user)) "DELETE_POSITION"
                    "position" id (JObj [("name", JStr (PositionRow.name position))]))
                 db1,
               PositionDeleted "Position deleted successfully")
        end
    end.

(** The filter of [getOpenPositions]:
    [nowTime >= opensTime && nowTime <= closesTime] on the nomination
    window. *)
Definition open_for_nomination (now : Time) (p : PositionRow.t) : bool :=
  (now >=? PositionRow.nominationOpens p) && (now <=? PositionRow.nominationCloses p).

(** GET /positions/open. *)
Definition getOpenPositions (env : AdminEnv) (db : AdminStore)
    : AdminStore * AdminAnswer :=
  if admin_rejects env position_findMany then
    (db, AdminError 500 "Failed to fetch open positions")
  else
    let allPositions := orderBy Z.leb PositionRow.nominationCloses (admin_position db) in
    (db, OpenPositions (filter (open_for_nomination (admin_now env)) allPositions)).

(** The four instants of a row are in order. *)
Definition windows_ordered (p : PositionRow.t) : Prop :=
  PositionRow.nominationOpens p < PositionRow.nominationCloses p
  /\ PositionRow.nominationCloses p <= PositionRow.votingOpens p
  /\ PositionRow.votingOpens p < PositionRow.votingCloses p.

(** Every candidate and every vote points at a position that exists. *)
Definition references_resolve (db : AdminStore) : Prop :=
  (forall c, In c (admin_candidate db) ->
     exists p, In p (admin_position db) /\ PositionRow.id p = Candidate.positionId c)
  /\ (forall v, In v (admin_vote db) ->
        exists p, In p (admin_position db) /\ PositionRow.id p = Vote.positionId v).

(** A small table of positions, for the examples. *)
Module AdminScenario.

Definition env (rej : AdminOp -> bool) : AdminEnv :=
  mkAdminEnv (fun s => if String.eqb s "2030-01-01T00:00:00Z" then Some 1000
                       else if String.eqb s "2030-01-02T00:00:00Z" then Some 2000
                       else None)
             (fun _ => None) (fun _ => None) "P9" 1500 rej.

Definition quiet : AdminOp -> bool := fun _ => false.

Definition admin : User := mkUser "u1" "ADMIN".

Definition row : PositionRow.t := PositionRow.mk "P1" "President" 1 100 1800 2000 3000.

Definition db : AdminStore :=
  mkAdminStore [row] [Candidate.mk "C1" "P1" "Bob" Candidate.APPROVED] [] [].

Definition only_votingCloses (s : string) : PositionBody :=
  mkPositionBody None None None None None (Some s).

End AdminScenario.

(** * Properties *)

(** ** Counting the rows a query selects

    Both the window check and the candidate check of [castVote] compare the
    number of rows a query returns with the number of selections.  With
    unique keys the two numbers agree exactly when the requested ids are
    pairwise different and each of them names a row that passes the
    filter. *)

Section SelectByIds.
Context {A : Type}.
Variable key : A -> Id.
Variable keep : A -> bool.

#[local] Abbreviation select := (select key keep).

Lemma id_in_In (ids : list Id) (x : Id) : id_in ids x = true <-> In x ids.
Proof.
  unfold id_in. rewrite existsb_exists. split.
  - intros [y [Hy Heq]]. apply String.eqb_eq in Heq. now subst.
  - intros Hx. exists x. split; [assumption | apply String.eqb_refl].
Qed.

Lemma select_In (ids : list Id) (rows : list A) (r : A) :
  In r (select ids rows) <-> In r rows /\ In (key r) ids /\ keep r = true.
Proof.
  unfold select. rewrite filter_In, andb_true_iff, id_in_In. tauto.
Qed.

Lemma keys_filter_NoDup (g : A -> bool) (rows : list A) :
  NoDup (map key rows) -> NoDup (map key (filter g rows)).
Proof.
  induction rows as [|r rows IH]; simpl; intros Hnd; [constructor|].
  inversion Hnd as [|? ? Hnotin Hrest]; subst.
  destruct (g r); simpl; [constructor|]; auto.
  intros Hin. apply Hnotin. apply in_map_iff in Hin.
  destruct Hin as [r' [Hk Hr']]. apply filter_In in Hr'.
  apply in_map_iff. exists r'. tauto.
Qed.

Lemma select_keys_incl (ids : list Id) (rows : list A) :
  incl (map key (select ids rows)) ids.
Proof.
  intros x Hx. apply in_map_iff in Hx. destruct Hx as [r [Hk Hr]].
  apply select_In in Hr. subst. tauto.
Qed.

Lemma select_length_le (ids : list Id) (rows : list A) :
  NoDup (map key rows) ->
  (List.length (select ids rows) <= List.length ids)%nat.
Proof.
  intros Hnd. rewrite <- (length_map key).
  apply NoDup_incl_length.
  - now apply keys_filter_NoDup.
  - apply select_keys_incl.
Qed.

(** The count comparison of the handler, read as a statement about the
    submission. *)
Lemma select_length_eq_iff (ids : list Id) (rows : list A) :
  NoDup (map key rows) ->
  (List.length (select ids rows) = List.length ids <->
   NoDup ids /\
   forall x, In x ids -> exists r, In r rows /\ key r = x /\ keep r = true).
Proof.
  intros Hnd.
  assert (Hsel : NoDup (map key (select ids rows)))
    by now apply keys_filter_NoDup.
  pose proof (select_keys_incl ids rows) as Hincl.
  split.
  - intros Hlen.
    assert (Hle : (List.length ids <= List.length (map key (select ids rows)))%nat)
      by (rewrite length_map; lia).
    split.
    + exact (NoDup_incl_NoDup Hsel Hle Hincl).
    + intros x Hx.
      pose proof (NoDup_length_incl Hsel Hle Hincl) as Hback.
      apply Hback in Hx. apply in_map_iff in Hx.
      destruct Hx as [r [Hk Hr]]. apply select_In in Hr.
      exists r. tauto.
  - intros [Hids Hall].
    apply Nat.le_antisymm; [now apply select_length_le|].
    rewrite <- (length_map key (select ids rows)).
    apply NoDup_incl_length; [assumption|].
    intros x Hx. destruct (Hall x Hx) as [r [Hr [Hk Hkeep]]].
    apply in_map_iff. exists r. split; [assumption|].
    apply select_In. subst. tauto.
Qed.

(** A repeated id makes the counts differ. *)
Lemma select_length_repeated (ids : list Id) (rows : list A) :
  NoDup (map key rows) -> ~ NoDup ids ->
  Nat.eqb (List.length (select ids rows)) (List.length ids) = false.
Proof.
  intros Hnd Hrep. apply Nat.eqb_neq. intros Heq.
  apply (select_length_eq_iff ids rows Hnd) in Heq. tauto.
Qed.

(** So does an id whose row does not pass the filter. *)
Lemma select_length_rejected (ids : list Id) (rows : list A) (r : A) :
  NoDup (map key rows) -> In r rows -> In (key r) ids -> keep r = false ->
  Nat.eqb (List.length (select ids rows)) (List.length ids) = false.
Proof.
  intros Hnd Hr Hk Hkeep. apply Nat.eqb_neq. intros Heq.
  apply (select_length_eq_iff ids rows Hnd) in Heq.
  destruct Heq as [_ Hall]. destruct (Hall _ Hk) as [r' [Hr' [Hk' Hkeep']]].
  assert (r' = r); [|congruence].
  clear - Hnd Hr Hr' Hk'. induction rows as [|a rows IH]; [contradiction|].
  simpl in Hnd. inversion Hnd as [|? ? Hnotin Hrest]; subst.
  destruct Hr as [->|Hr], Hr' as [->|Hr']; auto.
  - exfalso. apply Hnotin. apply in_map_iff. exists r'. tauto.
  - exfalso. apply Hnotin. apply in_map_iff. exists r. rewrite Hk'. tauto.
Qed.

(** And an id none of whose rows passes the filter, be it that it names no
    row at all. *)
Lemma select_length_unmatched (ids : list Id) (rows : list A) (x : Id) :
  NoDup (map key rows) -> In x ids ->
  (forall r, In r rows -> key r = x -> keep r = false) ->
  Nat.eqb (List.length (select ids rows)) (List.length ids) = false.
Proof.
  intros Hnd Hx Hnone. apply Nat.eqb_neq. intros Heq.
  apply (select_length_eq_iff ids rows Hnd) in Heq.
  destruct Heq as [_ Hall]. destruct (Hall _ Hx) as [r [Hr [Hk Hkeep]]].
  rewrite (Hnone r Hr Hk) in Hkeep. discriminate.
Qed.
End SelectByIds.

(** ** Running a handler *)

(** Unfolds the handler combinators in the goal. *)
Ltac step_handler :=
  unfold detached, logAudit, bind, query, mutate, attempt, respond, throw, ret,
    on_store, get_sentMethods, get_failedMethods, register; simpl.

(** Splits on whether the next awaited call rejects. *)
Ltac case_rejects env op :=
  let E := fresh "Hrej" in
  destruct (rejects env op) eqn:E; simpl.

Lemma repeated_not_NoDup (vs l1 l2 l3 : list Selection) (a b : Selection) :
  vs = l1 ++ a :: l2 ++ b :: l3 -> positionId a = positionId b ->
  ~ NoDup (map positionId vs).
Proof.
  intros -> Hab Hnd. rewrite map_app in Hnd. simpl in Hnd.
  apply NoDup_app_remove_l in Hnd. inversion Hnd as [|? ? Hnotin _]; subst.
  apply Hnotin. rewrite map_app. apply in_or_app. right. simpl. now left.
Qed.

(** A submission that repeats a position never gets past the window check:
    whatever the environment does, the handler answers 400, 404 or 500 and
    the store is the one it started from. *)
Lemma castVote_with_repeated (now_of : Time -> Time) (env : Env) (req : CastVoteBody)
    (db : Store) (vs : list Selection) :
  position_ids_unique db ->
  votes req = Some vs ->
  ~ NoDup (map positionId vs) ->
  exists r, castVote_with now_of env req db = (db, r)
            /\ (status r = 400 \/ status r = 404 \/ status r = 500).
Proof.
  intros Hkeys Hvotes Hrep.
  unfold castVote_with, handle, castVote_body. rewrite Hvotes.
  destruct (truthy (token req)) as [tok|]; [|step_handler; eauto].
  destruct vs as [|v vs']; [step_handler; eauto|].
  step_handler. case_rejects env ballot_findUnique; [eauto|].
  destruct (find_ballot_with_voter tok db) as [[b voter]|]; [|simpl; eauto].
  destruct (Ballot.is_consumed b); [simpl; eauto|].
  step_handler. case_rejects env position_findMany_open; [eauto|].
  pose proof (select_length_repeated Position.id
                (window_contains (now_of (clock env 0)))
                (map positionId (v :: vs')) (prisma.position db) Hkeys Hrep) as Hcount.
  unfold select in Hcount. rewrite length_map in Hcount. simpl in Hcount.
  rewrite Hcount. simpl.
  case_rejects env position_findMany_all; eauto.
Qed.

Lemma window_contains_iff (now : Time) (p : Position.t) :
  window_contains now p = true <-> in_closed_window now p.
Proof.
  unfold window_contains, in_closed_window.
  rewrite andb_true_iff, Z.leb_le, Z.geb_le. tauto.
Qed.

(** When the count of open rows differs from the count of selections the
    handler answers with the window error and writes nothing. *)
Lemma castVote_window_mismatch (now_of : Time -> Time) (env : Env) (req : CastVoteBody)
    (db : Store) (tok : string) (vs : list Selection) (b : Ballot.t)
    (voter : option EligibleVoter.t) :
  reaches_window_check env req db tok vs b voter ->
  Nat.eqb (List.length (select Position.id (window_contains (now_of (clock env 0)))
                          (map positionId vs) (prisma.position db)))
          (List.length vs) = false ->
  fst (castVote_with now_of env req db) = db
  /\ status (snd (castVote_with now_of env req db)) = 400
  /\ error_code (snd (castVote_with now_of env req db)) = Some WINDOW_CLOSED.
Proof.
  intros (Htok & Hvotes & Hne & Hr1 & Hfind & Hactive & Hr2 & Hr3) Hcount.
  unfold castVote_with, handle, castVote_body. rewrite Htok, Hvotes.
  destruct vs as [|v vs']; [congruence|].
  step_handler. rewrite Hr1, Hfind, Hactive. step_handler. rewrite Hr2.
  unfold select in Hcount. simpl in Hcount. simpl. rewrite Hcount. simpl.
  rewrite Hr3. simpl. auto.
Qed.

(** When the counts agree the handler goes on to the later checks, none of
    which answers with the window error. *)
Lemma castVote_window_match (now_of : Time -> Time) (env : Env) (req : CastVoteBody)
    (db : Store) (tok : string) (vs : list Selection) (b : Ballot.t)
    (voter : option EligibleVoter.t) :
  reaches_window_check env req db tok vs b voter ->
  Nat.eqb (List.length (select Position.id (window_contains (now_of (clock env 0)))
                          (map positionId vs) (prisma.position db)))
          (List.length vs) = true ->
  error_code (snd (castVote_with now_of env req db)) <> Some WINDOW_CLOSED.
Proof.
  intros (Htok & Hvotes & Hne & Hr1 & Hfind & Hactive & Hr2 & Hr3) Hcount.
  unfold castVote_with, handle, castVote_body. rewrite Htok, Hvotes.
  destruct vs as [|v vs']; [congruence|].
  step_handler. rewrite Hr1, Hfind, Hactive. step_handler. rewrite Hr2.
  unfold select in Hcount. simpl in Hcount. simpl. rewrite Hcount. simpl.
  case_rejects env candidate_findMany; [discriminate|].
  match goal with |- context [negb ?c] => destruct c end; simpl; [|discriminate].
  match goal with |- context [negb ?c] => destruct c end; simpl; [|discriminate].
  case_rejects env vote_findMany; [discriminate|].
  match goal with |- context [match ?l with [] => _ | _ :: _ => _ end] => destruct l end;
    simpl; [|discriminate].
  case_rejects env vote_transaction; [discriminate|].
  case_rejects env ballot_update; [discriminate|].
  destruct voter as [voter|]; simpl; [|discriminate].
  case_rejects env (audit_write "CAST_VOTE"); discriminate.
Qed.

(** Concrete key lists are duplicate free. *)
Ltac solve_NoDup :=
  repeat (constructor; [simpl; intuition discriminate|]); constructor.

(** ** Submissions that repeat a position *)

(** C7. A submission with two selections for the same position is answered
    with a status other than 200, no Vote row is written, and the ballot
    table, hence the status of the ballot, is as it was.  This holds in both
    revisions of the controller and whatever the storage calls do. *)
Theorem castVote_repeated_position_writes_nothing :
  forall (now_of : Time -> Time) (env : Env) (req : CastVoteBody) (db : Store)
         (vs l1 l2 l3 : list Selection) (a b : Selection),
    position_ids_unique db ->
    votes req = Some vs ->
    vs = l1 ++ a :: l2 ++ b :: l3 ->
    positionId a = positionId b ->
    status (snd (castVote_with now_of env req db)) <> 200
    /\ prisma.vote (fst (castVote_with now_of env req db)) = prisma.vote db
    /\ prisma.ballot (fst (castVote_with now_of env req db)) = prisma.ballot db.
Proof.
  intros now_of env req db vs l1 l2 l3 a b Hkeys Hvotes Hshape Hab.
  destruct (castVote_with_repeated now_of env req db vs Hkeys Hvotes
              (repeated_not_NoDup vs l1 l2 l3 a b Hshape Hab)) as [r [-> Hstatus]].
  simpl. repeat split; try reflexivity. lia.
Qed.

Lemma castVote_repeated_position_witness :
  position_ids_unique Scenario.db_issued
  /\ status (snd (castVote (Scenario.env_at 220000 "" "" "" "" Scenario.all_delivered
                                              Scenario.never)
                           (Scenario.cast "tokA" [mkSelection "P1" "C1";
                                                  mkSelection "P1" "C2"])
                           Scenario.db_issued)) <> 200.
Proof.
  split.
  - unfold position_ids_unique. simpl. solve_NoDup.
  - apply (castVote_repeated_position_writes_nothing (fun t => t)
             (Scenario.env_at 220000 "" "" "" "" Scenario.all_delivered Scenario.never)
             (Scenario.cast "tokA" [mkSelection "P1" "C1"; mkSelection "P1" "C2"])
             Scenario.db_issued
             [mkSelection "P1" "C1"; mkSelection "P1" "C2"] [] [] []
             (mkSelection "P1" "C1") (mkSelection "P1" "C2")).
    + unfold position_ids_unique. simpl. solve_NoDup.
    + reflexivity.
    + reflexivity.
    + reflexivity.
Defined.

(** ** The voting window *)

Lemma targets_counted (now : Time) (db : Store) (vs : list Selection) :
  position_ids_unique db ->
  (Nat.eqb (List.length (select Position.id (window_contains now)
                           (map positionId vs) (prisma.position db)))
           (List.length vs) = true
   <-> NoDup (map positionId vs)
       /\ forall v, In v vs ->
            exists p, In p (prisma.position db)
                      /\ Position.id p = positionId v /\ in_closed_window now p).
Proof.
  intros Hkeys. rewrite Nat.eqb_eq.
  rewrite <- (length_map positionId vs) at 1.
  rewrite (select_length_eq_iff Position.id (window_contains now) _ _ Hkeys).
  split; intros [Hnd Hall]; (split; [assumption|]).
  - intros v Hv. destruct (Hall (positionId v)) as [p [Hp [Hk Hw]]].
    + now apply in_map.
    + exists p. rewrite <- window_contains_iff. tauto.
  - intros x Hx. apply in_map_iff in Hx. destruct Hx as [v [<- Hv]].
    destruct (Hall v Hv) as [p [Hp [Hk Hw]]].
    exists p. rewrite window_contains_iff. tauto.
Qed.

Lemma closed_target_miscounted (now : Time) (db : Store) (vs : list Selection)
    (v : Selection) (p : Position.t) :
  position_ids_unique db ->
  In v vs -> In p (prisma.position db) -> Position.id p = positionId v ->
  ~ in_closed_window now p ->
  Nat.eqb (List.length (select Position.id (window_contains now)
                          (map positionId vs) (prisma.position db)))
          (List.length vs) = false.
Proof.
  intros Hkeys Hv Hp Hid Hout.
  rewrite <- (length_map positionId vs) at 1.
  apply (select_length_rejected Position.id (window_contains now) _ _ p Hkeys Hp).
  - rewrite Hid. now apply in_map.
  - destruct (window_contains now p) eqn:E; [|reflexivity].
    apply window_contains_iff in E. contradiction.
Qed.





(** In the revision that reads the clock through [parseDate] the seconds are
    dropped, so on a server in UTC the window stays open until the end of
    the minute in which it closes: thirty seconds after [votingCloses] that
    revision still accepts the vote, while the other one answers with the
    window error.  On a server three hours ahead of UTC the same revision
    turns down a vote cast in the fourth minute, when the window is open and
    the other revision accepts the vote, its [now] being three hours
    back. *)
Lemma castVote_zone_accepts_within_the_minute :
  let env := Scenario.env_at 3630000 "" "" "" "" Scenario.all_delivered Scenario.never in
  let early := Scenario.env_at 220000 "" "" "" "" Scenario.all_delivered Scenario.never in
  let zone3 : Time -> Z := fun _ => 3 * 3600000 in
  let req := Scenario.cast "tokA" [mkSelection "P1" "C1"] in
  Position.votingCloses Scenario.P1 < clock env 0
  /\ status (snd (castVote_zone (fun _ => 0) env req Scenario.db_issued)) = 200
  /\ error_code (snd (castVote env req Scenario.db_issued)) = Some WINDOW_CLOSED
  /\ in_closed_window (clock early 0) Scenario.P1
  /\ status (snd (castVote early req Scenario.db_issued)) = 200
  /\ error_code (snd (castVote_zone zone3 early req Scenario.db_issued))
     = Some WINDOW_CLOSED.
Proof.
  cbv zeta. repeat split; try reflexivity; try (vm_compute; discriminate).
Qed.

(** ** The order of the checks *)

(** Past the window check, a count of approved candidates that differs from
    the count of selections yields the candidate error, with nothing
    written. *)
Lemma castVote_candidate_mismatch (now_of : Time -> Time) (env : Env)
    (req : CastVoteBody) (db : Store) (tok : string) (vs : list Selection)
    (b : Ballot.t) (voter : option EligibleVoter.t) :
  reaches_window_check env req db tok vs b voter ->
  Nat.eqb (List.length (select Position.id (window_contains (now_of (clock env 0)))
                          (map positionId vs) (prisma.position db)))
          (List.length vs) = true ->
  rejects env candidate_findMany = false ->
  Nat.eqb (List.length (select Candidate.id Candidate.is_approved
                          (map candidateId vs) (prisma.candidate db)))
          (List.length vs) = false ->
  fst (castVote_with now_of env req db) = db
  /\ status (snd (castVote_with now_of env req db)) = 400
  /\ error_code (snd (castVote_with now_of env req db)) = Some INVALID_CANDIDATE.
Proof.
  intros (Htok & Hvotes & Hne & Hr1 & Hfind & Hactive & Hr2 & Hr3) Hwin Hr4 Hcand.
  unfold castVote_with, handle, castVote_body. rewrite Htok, Hvotes.
  destruct vs as [|v vs']; [congruence|].
  step_handler. rewrite Hr1, Hfind, Hactive. step_handler. rewrite Hr2.
  unfold select in Hwin, Hcand. simpl in Hwin, Hcand. simpl.
  rewrite Hwin. simpl. rewrite Hr4. simpl. rewrite Hcand. simpl. auto.
Qed.

(** An absent or empty [votes] array is turned down before the ballot is
    looked up. *)
Lemma castVote_empty_first (now_of : Time -> Time) (env : Env) (req : CastVoteBody)
    (db : Store) :
  truthy (token req) <> None ->
  votes req = None \/ votes req = Some [] ->
  castVote_with now_of env req db
  = (db, status_json 400 (ErrorBody "Votes are required" None)).
Proof.
  intros Htok Hvotes. unfold castVote_with, handle, castVote_body.
  destruct (truthy (token req)); [|congruence].
  destruct Hvotes as [-> | ->]; reflexivity.
Qed.

(** The checks that can be reached, in their order.  With a token in the
    request, an absent or empty array of selections is turned down before
    the ballot is looked up.  For a request that reaches the window check,
    the window check comes before the candidate check: a selection that
    targets a position outside its window gives the window error whatever
    the candidates are, and when the positions are pairwise different and
    all open, a selection whose candidate is missing or not approved gives
    the candidate error.  A submission that repeats a position is answered
    400 and nothing is written. *)
Lemma castVote_check_order :
  forall (now_of : Time -> Time) (env : Env) (req : CastVoteBody) (db : Store)
         (tok : string) (vs : list Selection) (b : Ballot.t)
         (voter : option EligibleVoter.t),
    position_ids_unique db ->
    reaches_window_check env req db tok vs b voter ->
    let now := now_of (clock env 0) in
    let answer := castVote_with now_of env req db in
    (forall req',
        truthy (token req') <> None ->
        votes req' = None \/ votes req' = Some [] ->
        castVote_with now_of env req' db
        = (db, status_json 400 (ErrorBody "Votes are required" None)))
    /\ ((exists v p, In v vs /\ In p (prisma.position db)
                     /\ Position.id p = positionId v /\ ~ in_closed_window now p) ->
        error_code (snd answer) = Some WINDOW_CLOSED)
    /\ (candidate_ids_unique db ->
        rejects env candidate_findMany = false ->
        NoDup (map positionId vs) ->
        (forall v, In v vs ->
           exists p, In p (prisma.position db) /\ Position.id p = positionId v
                     /\ in_closed_window now p) ->
        (exists v, In v vs
                   /\ forall c, In c (prisma.candidate db) ->
                                Candidate.id c = candidateId v ->
                                Candidate.is_approved c = false) ->
        error_code (snd answer) = Some INVALID_CANDIDATE /\ fst answer = db)
    /\ (~ NoDup (map positionId vs) ->
        status (snd answer) = 400 /\ fst answer = db).
Proof.
  intros now_of env req db tok vs b voter Hkeys Hreach now answer.
  split; [|split; [|split]].
  - intros req'. apply castVote_empty_first.
  - intros (v & p & Hv & Hp & Hid & Hout).
    apply (castVote_window_mismatch now_of env req db tok vs b voter Hreach).
    exact (closed_target_miscounted now db vs v p Hkeys Hv Hp Hid Hout).
  - intros Hckeys Hrej Hnd Hopen (v & Hv & Hbad).
    assert (Hwin := proj2 (targets_counted now db vs Hkeys) (conj Hnd Hopen)).
    destruct (castVote_candidate_mismatch now_of env req db tok vs b voter
                Hreach Hwin Hrej) as (Hdb & _ & Hcode); [|auto].
    rewrite <- (length_map candidateId vs) at 1.
    apply (select_length_unmatched Candidate.id Candidate.is_approved _ _
             (candidateId v) Hckeys); [now apply in_map | exact Hbad].
  - intros Hrep.
    destruct (castVote_window_mismatch now_of env req db tok vs b voter Hreach)
      as (Hdb & Hst & _); [|auto].
    rewrite <- (length_map positionId vs) at 1.
    exact (select_length_repeated Position.id (window_contains now) _ _ Hkeys Hrep).
Qed.

Lemma castVote_check_order_witness :
  let env := Scenario.env_at 220000 "" "" "" "" Scenario.all_delivered Scenario.never in
  let req := Scenario.cast "tokA" [mkSelection "P1" "C2"] in
  position_ids_unique Scenario.db_issued
  /\ candidate_ids_unique Scenario.db_issued
  /\ error_code (snd (castVote env req Scenario.db_issued)) = Some INVALID_CANDIDATE.
Proof.
  intros env req.
  assert (Hkeys : position_ids_unique Scenario.db_issued)
    by (unfold position_ids_unique; simpl; solve_NoDup).
  assert (Hckeys : candidate_ids_unique Scenario.db_issued)
    by (unfold candidate_ids_unique; simpl; solve_NoDup).
  assert (Hreach : reaches_window_check env req Scenario.db_issued "tokA"
                     [mkSelection "P1" "C2"]
                     (Ballot.mk "b1" "v1" "tokA" Ballot.ACTIVE 130000 None)
                     (Some (EligibleVoter.mk "v1" "REG123" "Ann" EligibleVoter.ELIGIBLE
                              (Some "ann@example.org") (Some "+256700000001")))).
  { unfold reaches_window_check. repeat split; try reflexivity. discriminate. }
  split; [exact Hkeys | split; [exact Hckeys|]].
  destruct (castVote_check_order (fun t => t) env req Scenario.db_issued
              _ _ _ _ Hkeys Hreach) as (_ & _ & Hcand & _).
  apply Hcand.
  - exact Hckeys.
  - reflexivity.
  - simpl. solve_NoDup.
  - intros v [<- | []]. exists Scenario.P1. repeat split.
    + simpl. now left.
    + unfold in_closed_window. simpl. lia.
    + unfold in_closed_window. simpl. lia.
  - exists (mkSelection "P1" "C2"). split; [simpl; now left|].
    intros c [<- | [<- | []]]; simpl; intros Hc; [discriminate | reflexivity].
Defined.

(** C6. The handler has a test of its own for a repeated position, with
    the answer "Cannot vote multiple times for the same position", but it is
    written after the window check and the candidate check, and the window
    check compares the number of open rows found with the number of
    selections.  A submission that names the same open position twice, with
    an approved candidate, on an ACTIVE ballot, is therefore answered by the
    window check: the answer is "Some positions are not open for voting",
    with no closed position to report, although the position is open; it is
    not the malformed-submission error, and nothing is written. *)
Theorem castVote_repeated_position_gets_window_error :
  let env := Scenario.env_at 220000 "" "" "" "" Scenario.all_delivered Scenario.never in
  let req := Scenario.cast "tokA" [mkSelection "P1" "C1"; mkSelection "P1" "C1"] in
  in_closed_window (clock env 0) Scenario.P1
  /\ In (Candidate.mk "C1" "P1" "Bob" Candidate.APPROVED)
        (prisma.candidate Scenario.db_issued)
  /\ snd (castVote env req Scenario.db_issued)
     = status_json 400
         (NotOpenBody "Some positions are not open for voting"
            "Voting window may have closed. Contact administrator to extend voting time."
            [])
  /\ error_code (snd (castVote env req Scenario.db_issued)) = Some WINDOW_CLOSED
  /\ error_code (snd (castVote env req Scenario.db_issued)) <> Some MALFORMED_SUBMISSION
  /\ snd (castVote env req Scenario.db_issued)
     <> status_json 400
          (ErrorBody "Cannot vote multiple times for the same position" None)
  /\ fst (castVote env req Scenario.db_issued) = Scenario.db_issued.
Proof.
  cbv zeta. repeat split; try reflexivity; try (vm_compute; discriminate).
  simpl. now left.
Qed.

Lemma set_size_NoDup (ids : list Id) : NoDup ids -> set_size ids = List.length ids.
Proof.
  induction 1 as [|x rest Hnotin _ IH]; simpl; [reflexivity|].
  destruct (id_in rest x) eqn:E.
  - apply (id_in_In rest x) in E. contradiction.
  - now rewrite IH.
Qed.

(** The answer "Cannot vote multiple times for the same position" is never
    sent: a submission that would fail that test has already failed the
    window check. *)
Lemma castVote_repeated_check_unreachable (now_of : Time -> Time) (env : Env)
    (req : CastVoteBody) (db : Store) :
  position_ids_unique db ->
  snd (castVote_with now_of env req db)
  <> status_json 400 (ErrorBody "Cannot vote multiple times for the same position" None).
Proof.
  intros Hkeys. unfold castVote_with, handle, castVote_body.
  destruct (truthy (token req)) as [tok|]; [|discriminate].
  destruct (votes req) as [[|v vs]|]; try discriminate.
  step_handler. case_rejects env ballot_findUnique; [discriminate|].
  destruct (find_ballot_with_voter tok db) as [[b voter]|]; [|discriminate].
  destruct (Ballot.is_consumed b); [discriminate|].
  step_handler. case_rejects env position_findMany_open; [discriminate|].
  match goal with |- context [negb (Nat.eqb ?n ?m)] => destruct (Nat.eqb n m) eqn:Hwin end;
    simpl; [|case_rejects env position_findMany_all; discriminate].
  case_rejects env candidate_findMany; [discriminate|].
  match goal with |- context [negb ?c] => destruct c end; simpl; [|discriminate].
  assert (Hnd : NoDup (map positionId (v :: vs))).
  { apply (targets_counted (now_of (clock env 0)) db (v :: vs) Hkeys).
    unfold select. exact Hwin. }
  pose proof (set_size_NoDup _ Hnd) as Hsize.
  simpl in Hsize. rewrite Hsize, Nat.eqb_refl. simpl.
  case_rejects env vote_findMany; [discriminate|].
  match goal with |- context [match ?l with [] => _ | _ :: _ => _ end] => destruct l end;
    simpl; [|discriminate].
  case_rejects env vote_transaction; [discriminate|].
  case_rejects env ballot_update; [discriminate|].
  destruct voter as [voter|]; simpl; [|discriminate].
  case_rejects env (audit_write "CAST_VOTE"); discriminate.
Qed.

(** ** Delivery of the code *)

(** [requestOTP] tests [sentMethods.length === 0] in the same synchronous run
    that registered the delivery callbacks, so the array is still empty:
    whatever the request, the store and the environment, the answer is never
    200. *)
Lemma requestOTP_never_answers_200 (env : Env) (req : RequestOTPBody) (db : Store) :
  status (snd (requestOTP env req db)) <> 200.
Proof.
  unfold requestOTP, handle, requestOTP_body.
  destruct (truthy (request_reg_no req)) as [r|]; [|discriminate].
  step_handler. case_rejects env eligibleVoter_findUnique; [discriminate|].
  destruct (find_voter r db) as [voter|]; [|discriminate].
  destruct (is_eligible voter); simpl; [|discriminate].
  case_rejects env ballot_findFirst; [discriminate|].
  destruct (find_consumed_ballot _ db); [discriminate|].
  simpl. case_rejects env verification_findFirst; [discriminate|].
  destruct (findFirst_latest _ db); [discriminate|].
  simpl. case_rejects env bcrypt_hash_call; [discriminate|].
  destruct (truthy (EligibleVoter.email voter)); [|discriminate].
  destruct (truthy (EligibleVoter.phone voter)); [|discriminate].
  simpl. case_rejects env verification_create; discriminate.
Qed.

(** C4. For the eligible voter of the example, with both contact channels,
    not rate limited and who has not voted, both deliveries succeed (the
    callbacks, once they run, record "email" and "SMS" as sent) and yet the
    answer is 500, "Failed to send OTP via both email and SMS", with the
    challenge stored.  More generally no request is ever answered 200. *)
Theorem requestOTP_reports_failure_though_delivered :
  let env := Scenario.env_at 100000 "123456" "" "ver1" "" Scenario.all_delivered
                             Scenario.never in
  let req := Scenario.request "REG123" in
  (delivered env Email = true /\ delivered env SMS = true)
  /\ snd (requestOTP env req Scenario.db0)
     = status_json 500
         (DeliveryFailedBody "Failed to send OTP via both email and SMS"
            "Please contact administrator. Both email and SMS services may be misconfigured."
            None None)
  /\ sentMethods (settle env (fst (requestOTP_body env req
                                     (mkHState Scenario.db0 [] [] []))))
     = ["email"; "SMS"]
  /\ List.length (prisma.verification (fst (requestOTP env req Scenario.db0))) = 1%nat
  /\ forall env' req' db', status (snd (requestOTP env' req' db')) <> 200.
Proof.
  cbv zeta. repeat split; try reflexivity.
  intros env' req' db'. apply requestOTP_never_answers_200.
Qed.

(** ** The audit sink *)

(** In [castVote] the audit call is detached: whether it rejects or not, the
    answer and the tables are the same. *)
Lemma castVote_ignores_audit_failure (now_of : Time -> Time) (env : Env)
    (rej : Op -> bool) (req : CastVoteBody) (db : Store) :
  (forall op, (forall a, op <> audit_write a) -> rej op = rejects env op) ->
  let quiet := castVote_with now_of env req db in
  let noisy := castVote_with now_of (with_rejects rej env) req db in
  snd noisy = snd quiet
  /\ prisma.vote (fst noisy) = prisma.vote (fst quiet)
  /\ prisma.ballot (fst noisy) = prisma.ballot (fst quiet).
Proof.
  intros Hsame. cbv zeta.
  assert (H1 : rej ballot_findUnique = rejects env ballot_findUnique)
    by (apply Hsame; discriminate).
  assert (H2 : rej position_findMany_open = rejects env position_findMany_open)
    by (apply Hsame; discriminate).
  assert (H3 : rej position_findMany_all = rejects env position_findMany_all)
    by (apply Hsame; discriminate).
  assert (H4 : rej candidate_findMany = rejects env candidate_findMany)
    by (apply Hsame; discriminate).
  assert (H5 : rej vote_findMany = rejects env vote_findMany)
    by (apply Hsame; discriminate).
  assert (H6 : rej vote_transaction = rejects env vote_transaction)
    by (apply Hsame; discriminate).
  assert (H7 : rej ballot_update = rejects env ballot_update)
    by (apply Hsame; discriminate).
  unfold castVote_with, handle, castVote_body.
  destruct (truthy (token req)) as [tok|]; [|simpl; auto].
  destruct (votes req) as [[|v vs]|]; try (simpl; auto).
  step_handler. rewrite H1. case_rejects env ballot_findUnique; [auto|].
  destruct (find_ballot_with_voter tok db) as [[b voter]|]; [|simpl; auto].
  destruct (Ballot.is_consumed b); [simpl; auto|].
  step_handler. rewrite H2. case_rejects env position_findMany_open; [auto|].
  match goal with |- context [negb ?c] => destruct c end; simpl.
  2:{ rewrite H3. case_rejects env position_findMany_all; auto. }
  rewrite H4. case_rejects env candidate_findMany; [auto|].
  match goal with |- context [negb ?c] => destruct c end; simpl; [|auto].
  match goal with |- context [negb ?c] => destruct c end; simpl; [|auto].
  rewrite H5. case_rejects env vote_findMany; [auto|].
  match goal with |- context [match ?l with [] => _ | _ :: _ => _ end] => destruct l end;
    simpl; [|auto].
  rewrite H6. case_rejects env vote_transaction; [auto|].
  rewrite H7. case_rejects env ballot_update; [auto|].
  destruct voter as [voter|]; simpl; [|auto].
  destruct (rej (audit_write "CAST_VOTE")), (rejects env (audit_write "CAST_VOTE"));
    simpl; auto.
Qed.

(** C5. In [confirmOTP] the audit call is awaited inside the handler's
    [try]: when it rejects, the request that would have been answered 200
    with the ballot token is answered 500 "Failed to verify OTP", although
    the ballot has been created; and the request with a wrong code, which
    would have been answered 401, is answered 500 as well. *)
Theorem confirmOTP_answer_depends_on_audit :
  let quiet := Scenario.env_at 130000 "" "tokA" "" "b1" Scenario.all_delivered
                               Scenario.never in
  let noisy := Scenario.env_at 130000 "" "tokA" "" "b1" Scenario.all_delivered
                               Scenario.only_audit in
  let db := fst Scenario.requested1 in
  snd (confirmOTP quiet (Scenario.confirm "REG123" "123456") db)
  = json (VerifiedBody "Verification successful" "tokA" 130000
            "Use this token to cast your vote. It can only be used once.")
  /\ snd (confirmOTP noisy (Scenario.confirm "REG123" "123456") db)
     = status_json 500 (ErrorBody "Failed to verify OTP" None)
  /\ prisma.ballot (fst (confirmOTP noisy (Scenario.confirm "REG123" "123456") db))
     = [Ballot.mk "b1" "v1" "tokA" Ballot.ACTIVE 130000 None]
  /\ snd (confirmOTP quiet (Scenario.confirm "REG123" "000000") db)
     = status_json 401 (ErrorBody "Invalid OTP" None)
  /\ snd (confirmOTP noisy (Scenario.confirm "REG123" "000000") db)
     = status_json 500 (ErrorBody "Failed to verify OTP" None).
Proof. cbv zeta. repeat split; reflexivity. Qed.

(** ** Commit of the votes *)

(** C1. The Vote rows are inserted by one transaction and the ballot is
    marked CONSUMED by a separate call after it.  When that call rejects,
    the answer is 500 "Failed to cast vote", the Vote row of the submission
    is in the store and the ballot is still ACTIVE; a second attempt with
    the same token is then turned down for the votes already recorded, and
    the ballot stays ACTIVE. *)
Theorem castVote_votes_stay_when_ballot_update_rejects :
  let failing := Scenario.env_at 220000 "" "" "" "" Scenario.all_delivered
                                 Scenario.only_ballot_update in
  let working := Scenario.env_at 230000 "" "" "" "" Scenario.all_delivered
                                 Scenario.never in
  let req := Scenario.cast "tokA" [mkSelection "P1" "C1"] in
  let first := castVote failing req Scenario.db_issued in
  let second := castVote working req (fst first) in
  snd first = status_json 500 (ErrorBody "Failed to cast vote" None)
  /\ votes_of "b1" (fst first) = [Vote.mk "b1" "P1" "C1"]
  /\ prisma.ballot (fst first) = [Ballot.mk "b1" "v1" "tokA" Ballot.ACTIVE 130000 None]
  /\ error_code (snd second) = Some DUPLICATE_VOTE
  /\ prisma.ballot (fst second) = [Ballot.mk "b1" "v1" "tokA" Ballot.ACTIVE 130000 None].
Proof. cbv zeta. repeat split; reflexivity. Qed.

(** The other direction holds: the ballot is marked CONSUMED only after the
    transaction has inserted the Vote rows, so in the example a CONSUMED
    ballot has its rows. *)
Lemma castVote_consumed_has_votes :
  let env := Scenario.env_at 220000 "" "" "" "" Scenario.all_delivered Scenario.never in
  let done := castVote env (Scenario.cast "tokA" [mkSelection "P1" "C1"])
                       Scenario.db_issued in
  prisma.ballot (fst done)
  = [Ballot.mk "b1" "v1" "tokA" Ballot.CONSUMED 130000 (Some 220000)]
  /\ votes_of "b1" (fst done) = [Vote.mk "b1" "P1" "C1"].
Proof. cbv zeta. split; reflexivity. Qed.

Lemma find_ballot_with_voter_In (tok : string) (db : Store) (b : Ballot.t)
    (voter : option EligibleVoter.t) :
  find_ballot_with_voter tok db = Some (b, voter) ->
  In b (prisma.ballot db) /\ Ballot.token b = tok.
Proof.
  unfold find_ballot_with_voter.
  destruct (find _ (prisma.ballot db)) as [b'|] eqn:E; [|discriminate].
  intros H. injection H as <- _. apply find_some in E.
  destruct E as [Hin Heq]. apply String.eqb_eq in Heq. auto.
Qed.

(** The same holds of every accepted submission, not only of the example:
    if [castVote] answers 200 when no call rejects, then with the update of
    the ballot rejecting, and nothing else, the answer is 500, the ballot
    table is untouched (the ballot, found ACTIVE, stays ACTIVE) and the Vote
    rows of the submission are in the store. *)
Lemma castVote_commit_is_not_atomic (now_of : Time -> Time) (env : Env)
    (req : CastVoteBody) (db : Store) :
  (forall op, rejects env op = false) ->
  status (snd (castVote_with now_of env req db)) = 200 ->
  let failing := with_rejects Scenario.only_ballot_update env in
  let after := castVote_with now_of failing req db in
  snd after = cast_failed
  /\ prisma.ballot (fst after) = prisma.ballot db
  /\ exists tok b vs,
       truthy (token req) = Some tok /\ votes req = Some vs /\ vs <> []
       /\ In b (prisma.ballot db) /\ Ballot.token b = tok
       /\ Ballot.is_consumed b = false
       /\ prisma.vote (fst after)
          = prisma.vote db
            ++ map (fun v => Vote.mk (Ballot.id b) (positionId v) (candidateId v)) vs.
Proof.
  intros Hok. cbv zeta.
  unfold castVote_with, handle, castVote_body.
  destruct (truthy (token req)) as [tok|]; [|simpl; discriminate].
  destruct (votes req) as [[|v vs]|]; try (simpl; discriminate).
  step_handler. rewrite !Hok. simpl.
  destruct (find_ballot_with_voter tok db) as [[b voter]|] eqn:Hfind;
    [|simpl; discriminate].
  destruct (Ballot.is_consumed b) eqn:Hactive; [simpl; discriminate|].
  step_handler. rewrite ?Hok. simpl.
  match goal with |- context [negb ?c] => destruct c end; simpl; [|discriminate].
  match goal with |- context [negb ?c] => destruct c end; simpl; [|discriminate].
  match goal with |- context [negb ?c] => destruct c end; simpl; [|discriminate].
  match goal with |- context [match ?l with [] => _ | _ :: _ => _ end] => destruct l end;
    simpl; [|discriminate].
  destruct voter as [voter|]; simpl; [|discriminate].
  intros _. split; [reflexivity|]. split; [reflexivity|].
  destruct (find_ballot_with_voter_In tok db b _ Hfind) as [Hin Htok].
  exists tok, b, (v :: vs). repeat split; auto. discriminate.
Qed.

(** ** One vote per voter *)

(** C3. The voter of the example asks for a code and confirms it, then does
    so a second time, and holds two ACTIVE ballots; [castVote] accepts the
    first token and then the second, each with answer 200, and the voter
    ends with two CONSUMED ballots and two Vote rows for the same
    position. *)
Theorem two_ballots_consumed_for_one_voter :
  status (snd Scenario.issued1) = 200
  /\ status (snd Scenario.issued2) = 200
  /\ List.length (active_ballots_of "v1" (fst Scenario.issued2)) = 2%nat
  /\ status (snd Scenario.cast1) = 200
  /\ status (snd Scenario.cast2) = 200
  /\ consumed_ballots_of "v1" (fst Scenario.cast2)
     = [Ballot.mk "b1" "v1" "tokA" Ballot.CONSUMED 130000 (Some 220000);
        Ballot.mk "b2" "v1" "tokB" Ballot.CONSUMED 190000 (Some 250000)]
  /\ prisma.vote (fst Scenario.cast2)
     = [Vote.mk "b1" "P1" "C1"; Vote.mk "b2" "P1" "C1"].
Proof. repeat split; reflexivity. Qed.

(** ** Challenges *)

Lemma latest_In (rows : list Verification.t) (v : Verification.t) :
  latest rows = Some v -> In v rows.
Proof.
  revert v. induction rows as [|x rows IH]; simpl; intros v H; [discriminate|].
  destruct (latest rows) as [w|].
  - destruct (Verification.issuedAt w >? Verification.issuedAt x);
      injection H as <-; auto.
  - injection H as <-. auto.
Qed.

Lemma unverified_unexpired_iff (voterId : Id) (now : Time) (v : Verification.t) :
  unverified_unexpired voterId now v = true
  <-> Verification.voterId v = voterId
      /\ Verification.verifiedAt v = None
      /\ Verification.consumedAt v = None
      /\ now <= Verification.expiresAt v.
Proof.
  unfold unverified_unexpired, is_null.
  rewrite !andb_true_iff, String.eqb_eq, Z.geb_le.
  destruct (Verification.verifiedAt v), (Verification.consumedAt v);
    intuition (discriminate || auto).
Qed.

(** The challenge [confirmOTP] compares the code against is always one of
    the voter's own, unverified, unconsumed and not expired. *)
Lemma located_challenge_is_valid (voterId : Id) (now : Time) (db : Store)
    (v : Verification.t) :
  findFirst_latest (unverified_unexpired voterId now) db = Some v ->
  In v (prisma.verification db)
  /\ Verification.voterId v = voterId
  /\ Verification.verifiedAt v = None
  /\ Verification.consumedAt v = None
  /\ now <= Verification.expiresAt v.
Proof.
  intros H. apply latest_In in H. apply filter_In in H. destruct H as [Hin Hok].
  apply unverified_unexpired_iff in Hok. tauto.
Qed.





(** ** Issuing ballots *)

Lemma no_consumed_ballot_found (voterId : Id) (db : Store) :
  (forall b, In b (prisma.ballot db) -> Ballot.voterId b = voterId ->
             Ballot.status b <> Ballot.CONSUMED) ->
  find_consumed_ballot voterId db = None.
Proof.
  intros Hnone. unfold find_consumed_ballot.
  destruct (find _ (prisma.ballot db)) as [b|] eqn:E; [|reflexivity].
  apply find_some in E. destruct E as [Hin Hb].
  apply andb_true_iff in Hb. destruct Hb as [Hv Hc].
  apply String.eqb_eq in Hv. unfold Ballot.is_consumed in Hc.
  specialize (Hnone b Hin Hv). destruct (Ballot.status b); [discriminate|congruence].
Qed.

Lemma fresh_token_not_found (tok : string) (db : Store) :
  (forall b, In b (prisma.ballot db) -> Ballot.token b <> tok) ->
  existsb (fun b' => String.eqb (Ballot.token b') tok) (prisma.ballot db) = false.
Proof.
  intros Hfresh. destruct (existsb _ (prisma.ballot db)) eqn:E; [|reflexivity].
  apply existsb_exists in E. destruct E as [b [Hin Heq]].
  apply String.eqb_eq in Heq. exfalso. exact (Hfresh b Hin Heq).
Qed.

(** C8. A voter who holds an ACTIVE ballot and no CONSUMED one, and whose
    most recent unverified, unconsumed and unexpired challenge matches the
    code presented, gets from [confirmOTP] the answer 200 with a new token,
    and a second ballot with status ACTIVE is created for the same voter
    next to the one already held.  (No call rejects, and the token drawn is
    not the token of an existing ballot.) *)
Theorem confirmOTP_issues_second_active_ballot :
  forall (env : Env) (req : ConfirmOTPBody) (db : Store) (r code : string)
         (voter : EligibleVoter.t) (held : Ballot.t) (challenge : Verification.t),
    (forall op, rejects env op = false) ->
    truthy (reg_no req) = Some r ->
    truthy (otp req) = Some code ->
    find_voter r db = Some voter ->
    In held (prisma.ballot db) ->
    Ballot.voterId held = EligibleVoter.id voter ->
    Ballot.status held = Ballot.ACTIVE ->
    (forall b, In b (prisma.ballot db) ->
               Ballot.voterId b = EligibleVoter.id voter ->
               Ballot.status b <> Ballot.CONSUMED) ->
    findFirst_latest (unverified_unexpired (EligibleVoter.id voter) (clock env 0)) db
    = Some challenge ->
    bcrypt_compare env code (Verification.otpHash challenge) = true ->
    (forall b, In b (prisma.ballot db) -> Ballot.token b <> random_token env) ->
    let issued := Ballot.mk (new_ballot_id env) (EligibleVoter.id voter)
                            (random_token env) Ballot.ACTIVE (db_now env) None in
    let after := fst (confirmOTP env req db) in
    snd (confirmOTP env req db)
    = json (VerifiedBody "Verification successful" (random_token env) (db_now env)
              "Use this token to cast your vote. It can only be used once.")
    /\ prisma.ballot after = prisma.ballot db ++ [issued]
    /\ In held (active_ballots_of (EligibleVoter.id voter) after)
    /\ In issued (active_ballots_of (EligibleVoter.id voter) after)
    /\ held <> issued.
Proof.
  intros env req db r code voter held challenge Hok Hreg Hotp Hvoter Hheld Hmine
         Hactive Hnone Hlocated Hcode Hfresh issued after.
  assert (Hrun : confirmOTP env req db
            = (fst (confirmOTP env req db),
               json (VerifiedBody "Verification successful" (random_token env)
                       (db_now env)
                       "Use this token to cast your vote. It can only be used once."))
              /\ prisma.ballot (fst (confirmOTP env req db)) = prisma.ballot db ++ [issued]).
  { unfold confirmOTP, handle, confirmOTP_body. rewrite Hreg, Hotp.
    step_handler. rewrite !Hok, Hvoter. simpl. rewrite Hlocated. simpl.
    rewrite Hcode. simpl.
    rewrite (no_consumed_ballot_found _ _ Hnone). simpl.
    unfold ballot_create_row. simpl.
    rewrite (fresh_token_not_found _ _ Hfresh). simpl.
    split; reflexivity. }
  destruct Hrun as [Hanswer Hballots].
  split; [rewrite Hanswer; reflexivity|].
  split; [exact Hballots|].
  unfold active_ballots_of. fold after in Hballots. rewrite Hballots.
  repeat split.
  - apply filter_In. split; [apply in_or_app; now left|].
    rewrite Hmine, String.eqb_refl. unfold Ballot.is_active, Ballot.is_consumed.
    now rewrite Hactive.
  - apply filter_In. split; [apply in_or_app; right; simpl; now left|].
    simpl. now rewrite String.eqb_refl.
  - intros ->. apply (Hfresh _ Hheld). reflexivity.
Qed.

Lemma confirmOTP_issues_second_active_ballot_witness :
  let env := Scenario.env_at 190000 "" "tokB" "" "b2" Scenario.all_delivered
                             Scenario.never in
  let req := Scenario.confirm "reg123" "654321" in
  let db := fst Scenario.requested2 in
  active_ballots_of "v1" db = [Ballot.mk "b1" "v1" "tokA" Ballot.ACTIVE 130000 None]
  /\ active_ballots_of "v1" (fst (confirmOTP env req db))
     = [Ballot.mk "b1" "v1" "tokA" Ballot.ACTIVE 130000 None;
        Ballot.mk "b2" "v1" "tokB" Ballot.ACTIVE 190000 None]
  /\ status (snd (confirmOTP env req db)) = 200.
Proof.
  intros env req db. split; [reflexivity|]. split; [reflexivity|].
  destruct (confirmOTP_issues_second_active_ballot env req db "reg123" "654321"
              (EligibleVoter.mk "v1" "REG123" "Ann" EligibleVoter.ELIGIBLE
                 (Some "ann@example.org") (Some "+256700000001"))
              (Ballot.mk "b1" "v1" "tokA" Ballot.ACTIVE 130000 None)
              (Verification.mk "ver2" "v1" "both" "$2a$10$654321" 160000 460000
                 None None None))
    as [Hanswer _].
  - intros op. reflexivity.
  - reflexivity.
  - reflexivity.
  - reflexivity.
  - simpl. now left.
  - reflexivity.
  - reflexivity.
  - intros b [<- | []] _. discriminate.
  - reflexivity.
  - reflexivity.
  - intros b [<- | []]. discriminate.
  - rewrite Hanswer. reflexivity.
Defined.

(** * Further properties of the handlers *)

From Stdlib Require Import Permutation Sorted.

(** ** What castVote writes *)

(** Runs [castVote] test by test; [k] closes the branches that answer before
    the commit, and the two goals left are the commit with the audit call
    rejecting and resolving. *)
Ltac walk_castVote env k :=
  unfold castVote_with, handle, castVote_body;
  destruct (truthy (token _)) as [?tok|] eqn:?Htok; [|k];
  destruct (votes _) as [[|?v ?vs]|] eqn:?Hvotes; [k| |k];
  step_handler;
  destruct (rejects env ballot_findUnique) eqn:?Hrej; simpl; [k|];
  destruct (find_ballot_with_voter _ _) as [[?b ?voter]|] eqn:?Hfind; [|simpl; k];
  destruct (Ballot.is_consumed _) eqn:?Hactive; [simpl; k|];
  step_handler;
  destruct (rejects env position_findMany_open) eqn:?Hrej; simpl; [k|];
  match goal with |- context [negb ?c] => destruct c eqn:?Hwin end; simpl;
    [|destruct (rejects env position_findMany_all) eqn:?Hrej; simpl; k];
  destruct (rejects env candidate_findMany) eqn:?Hrej; simpl; [k|];
  match goal with |- context [negb ?c] => destruct c eqn:?Hcand end; simpl; [|k];
  match goal with |- context [negb ?c] => destruct c eqn:?Hset end; simpl; [|k];
  destruct (rejects env vote_findMany) eqn:?Hrej; simpl; [k|];
  match goal with
  | |- context [match ?l with [] => _ | _ :: _ => _ end] => destruct l eqn:?Hprior
  end; simpl; [|k];
  destruct (rejects env vote_transaction) eqn:?Hrej; simpl; [k|];
  destruct (rejects env ballot_update) eqn:?Hrej; simpl; [k|];
  match goal with
  | |- context [match ?o with Some _ => _ | None => _ end] =>
      destruct o as [?voter|] eqn:?Hvoter
  end; simpl; [|k];
  destruct (rejects env (audit_write "CAST_VOTE")) eqn:?Hrej; simpl.

(** X1. When [castVote] answers 400 or 404, the store is the one it
    started from: a submission that is turned down leaves no Vote row, no
    change to a ballot and no audit event. *)
Theorem castVote_refusal_writes_nothing :
  forall (now_of : Time -> Time) (env : Env) (req : CastVoteBody) (db : Store),
    status (snd (castVote_with now_of env req db)) = 400
    \/ status (snd (castVote_with now_of env req db)) = 404 ->
    fst (castVote_with now_of env req db) = db.
Proof.
  intros now_of env req db.
  walk_castVote env ltac:(intros [H|H]; try reflexivity; discriminate H).
  all: intros [H|H]; discriminate H.
Qed.

Lemma castVote_refusal_writes_nothing_witness :
  let env := Scenario.env_at 220000 "" "" "" "" Scenario.all_delivered Scenario.never in
  let req := Scenario.cast "no-such-token" [mkSelection "P1" "C1"] in
  status (snd (castVote env req Scenario.db_issued)) = 404
  /\ fst (castVote env req Scenario.db_issued) = Scenario.db_issued.
Proof.
  intros env req. split; [reflexivity|].
  apply (castVote_refusal_writes_nothing (fun t => t) env req Scenario.db_issued).
  right. reflexivity.
Defined.

(** What a successful [castVote] found and did. *)
Lemma castVote_commit_effect :
  forall (now_of : Time -> Time) (env : Env) (req : CastVoteBody) (db : Store),
    status (snd (castVote_with now_of env req db)) = 200 ->
    exists tok vs b voter,
      truthy (token req) = Some tok
      /\ votes req = Some vs
      /\ find_ballot_with_voter tok db = Some (b, Some voter)
      /\ Ballot.is_consumed b = false
      /\ snd (castVote_with now_of env req db)
         = json (VoteCastBody "Vote cast successfully" (List.length vs)
                   "Your vote has been recorded. Thank you for participating!")
      /\ prisma.vote (fst (castVote_with now_of env req db))
         = prisma.vote db ++ created_votes (Ballot.id b) vs
      /\ prisma.ballot (fst (castVote_with now_of env req db))
         = map (fun x => if String.eqb (Ballot.id x) (Ballot.id b)
                         then Ballot.consume (clock env 1) x else x)
               (prisma.ballot db)
      /\ prisma.eligibleVoter (fst (castVote_with now_of env req db))
         = prisma.eligibleVoter db
      /\ prisma.verification (fst (castVote_with now_of env req db))
         = prisma.verification db
      /\ prisma.position (fst (castVote_with now_of env req db)) = prisma.position db
      /\ prisma.candidate (fst (castVote_with now_of env req db)) = prisma.candidate db
      /\ (prisma.auditLog (fst (castVote_with now_of env req db)) = prisma.auditLog db
          \/ exists ev,
               prisma.auditLog (fst (castVote_with now_of env req db))
               = prisma.auditLog db ++ [ev]
               /\ AuditEvent.action ev = "CAST_VOTE"
               /\ AuditEvent.entityId ev = Ballot.id b).
Proof.
  intros now_of env req db.
  remember (castVote_with now_of env req db) as a eqn:E. revert E.
  walk_castVote env ltac:(intros -> H; discriminate H).
  all: intros -> _; simpl; exists tok, (v :: vs), b, voter0; rewrite ?length_map;
    repeat split; try reflexivity; try assumption.
  - left; reflexivity.
  - right; eexists; repeat split; reflexivity.
Qed.

(** X2. When [castVote] answers 200, the token named an existing ballot
    that was not CONSUMED, the answer reports as many votes as the
    submission has selections, the Vote table has grown by exactly one row
    per selection, in the order of the submission and all for that ballot,
    the rows of the ballot table with the id of that ballot are CONSUMED
    with the second reading of the clock and the other rows are as they
    were, the other tables are untouched, and the audit log has grown by at
    most the CAST_VOTE event of that ballot. *)
Theorem castVote_success_effect :
  forall (now_of : Time -> Time) (env : Env) (req : CastVoteBody) (db : Store),
    status (snd (castVote_with now_of env req db)) = 200 ->
    exists tok vs b voter,
      truthy (token req) = Some tok
      /\ votes req = Some vs
      /\ find_ballot_with_voter tok db = Some (b, Some voter)
      /\ Ballot.is_consumed b = false
      /\ snd (castVote_with now_of env req db)
         = json (VoteCastBody "Vote cast successfully" (List.length vs)
                   "Your vote has been recorded. Thank you for participating!")
      /\ prisma.vote (fst (castVote_with now_of env req db))
         = prisma.vote db ++ created_votes (Ballot.id b) vs
      /\ prisma.ballot (fst (castVote_with now_of env req db))
         = map (fun x => if String.eqb (Ballot.id x) (Ballot.id b)
                         then Ballot.consume (clock env 1) x else x)
               (prisma.ballot db)
      /\ prisma.eligibleVoter (fst (castVote_with now_of env req db))
         = prisma.eligibleVoter db
      /\ prisma.verification (fst (castVote_with now_of env req db))
         = prisma.verification db
      /\ prisma.position (fst (castVote_with now_of env req db)) = prisma.position db
      /\ prisma.candidate (fst (castVote_with now_of env req db)) = prisma.candidate db
      /\ (prisma.auditLog (fst (castVote_with now_of env req db)) = prisma.auditLog db
          \/ exists ev,
               prisma.auditLog (fst (castVote_with now_of env req db))
               = prisma.auditLog db ++ [ev]
               /\ AuditEvent.action ev = "CAST_VOTE"
               /\ AuditEvent.entityId ev = Ballot.id b).
Proof. intros now_of env req db. apply castVote_commit_effect. Qed.

Lemma castVote_success_effect_witness :
  let env := Scenario.env_at 220000 "" "" "" "" Scenario.all_delivered Scenario.never in
  let req := Scenario.cast "tokA" [mkSelection "P1" "C1"] in
  status (snd (castVote env req Scenario.db_issued)) = 200
  /\ exists b, prisma.vote (fst (castVote env req Scenario.db_issued))
               = prisma.vote Scenario.db_issued
                 ++ created_votes (Ballot.id b) [mkSelection "P1" "C1"].
Proof.
  intros env req. split; [reflexivity|].
  destruct (castVote_success_effect (fun t => t) env req Scenario.db_issued)
    as (tok & vs & b & voter & _ & Hvs & _ & _ & _ & Hvotes & _); [reflexivity|].
  exists b. injection Hvs as <-. exact Hvotes.
Defined.


Lemma filter_nil_forall {A} (f : A -> bool) (l : list A) :
  filter f l = [] -> forall x, In x l -> f x = false.
Proof.
  intros H x Hx. destruct (f x) eqn:E; [|reflexivity].
  assert (Hin : In x (filter f l)) by (apply filter_In; auto).
  rewrite H in Hin. contradiction.
Qed.

(** X3. [castVote] answers 200 only for a submission that passed every
    test: the token names a ballot that is ACTIVE, the selections target
    pairwise different positions, each of them a row of the position table
    whose window [[votingOpens, votingCloses]] contains the handler's [now],
    the candidate ids are pairwise different and each names an APPROVED
    candidate, and the ballot had no Vote row for any of these positions.
    (Position and candidate ids are primary keys.) *)
Theorem castVote_accepts_only_valid_submissions :
  forall (now_of : Time -> Time) (env : Env) (req : CastVoteBody) (db : Store),
    position_ids_unique db ->
    candidate_ids_unique db ->
    status (snd (castVote_with now_of env req db)) = 200 ->
    exists token_ sels ballot_,
      truthy (token req) = Some token_
      /\ votes req = Some sels
      /\ (exists owner, find_ballot_with_voter token_ db = Some (ballot_, owner))
      /\ Ballot.status ballot_ = Ballot.ACTIVE
      /\ NoDup (map positionId sels)
      /\ NoDup (map candidateId sels)
      /\ forall sel, In sel sels ->
           (exists p, In p (prisma.position db) /\ Position.id p = positionId sel
                      /\ in_closed_window (now_of (clock env 0)) p)
           /\ (exists c, In c (prisma.candidate db) /\ Candidate.id c = candidateId sel
                         /\ Candidate.status c = Candidate.APPROVED)
           /\ (forall w, In w (prisma.vote db) -> Vote.ballotId w = Ballot.id ballot_ ->
                         Vote.positionId w <> positionId sel).
Proof.
  intros now_of env req db Hpk Hck.
  walk_castVote env ltac:(intros H; discriminate H).
  all: intros _; exists tok, (v :: vs), b.
  all: assert (Hwin' : Nat.eqb (List.length (select Position.id
                          (window_contains (now_of (clock env 0)))
                          (map positionId (v :: vs)) (prisma.position db)))
                        (List.length (v :: vs)) = true) by exact Hwin.
  all: apply (targets_counted _ _ _ Hpk) in Hwin'; destruct Hwin' as [Hnd Hopen].
  all: assert (Hcand' : List.length (select Candidate.id Candidate.is_approved
                          (map candidateId (v :: vs)) (prisma.candidate db))
                        = List.length (map candidateId (v :: vs)))
         by (rewrite length_map; apply Nat.eqb_eq; exact Hcand).
  all: apply (select_length_eq_iff Candidate.id Candidate.is_approved _ _ Hck) in Hcand';
    destruct Hcand' as [Hcnd Hcall].
  all: split; [reflexivity|]; split; [reflexivity|]; split; [eexists; exact Hfind|].
  all: split; [unfold Ballot.is_consumed in Hactive; destruct (Ballot.status b);
               [reflexivity | discriminate]|].
  all: split; [exact Hnd|]; split; [exact Hcnd|].
  all: intros sel Hsel; split; [apply Hopen; exact Hsel|]; split.
  all: try (destruct (Hcall (candidateId sel)) as [c [Hc [Hid Happ]]];
            [now apply in_map|]; exists c; repeat split; auto;
            unfold Candidate.is_approved in Happ;
            destruct (Candidate.status c); congruence).
  all: intros w Hw Hb Hp;
    pose proof (filter_nil_forall _ _ Hprior w Hw) as Hf; simpl in Hf;
    rewrite Hb, String.eqb_refl in Hf; simpl in Hf;
    apply (in_map positionId) in Hsel;
    apply (id_in_In _ (positionId sel)) in Hsel; simpl in Hsel; rewrite <- Hp in Hsel;
    congruence.
Qed.

Lemma castVote_accepts_only_valid_submissions_witness :
  let env := Scenario.env_at 220000 "" "" "" "" Scenario.all_delivered Scenario.never in
  let req := Scenario.cast "tokA" [mkSelection "P1" "C1"] in
  status (snd (castVote env req Scenario.db_issued)) = 200
  /\ exists sels, votes req = Some sels /\ NoDup (map candidateId sels).
Proof.
  intros env req. split; [reflexivity|].
  destruct (castVote_accepts_only_valid_submissions (fun t => t) env req
              Scenario.db_issued)
    as (t & sels & bl & _ & Hsels & _ & _ & _ & Hnd & _).
  - unfold position_ids_unique. simpl. solve_NoDup.
  - unfold candidate_ids_unique. simpl. solve_NoDup.
  - reflexivity.
  - exists sels. split; assumption.
Defined.

Lemma find_map_preserving {A} (p : A -> bool) (f : A -> A) (l : list A) :
  (forall x, p (f x) = p x) ->
  find p (map f l) = option_map f (find p l).
Proof.
  intros Hp. induction l as [|x l IH]; simpl; [reflexivity|].
  rewrite Hp. destruct (p x); [reflexivity | exact IH].
Qed.

(** Once a row is CONSUMED the lookup by its token finds it CONSUMED. *)
Lemma find_ballot_after_consume (tok : string) (db db' : Store) (b : Ballot.t)
    (voter : option EligibleVoter.t) (at_ : Time) :
  find_ballot_with_voter tok db = Some (b, voter) ->
  prisma.ballot db'
  = map (fun x => if String.eqb (Ballot.id x) (Ballot.id b)
                  then Ballot.consume at_ x else x) (prisma.ballot db) ->
  prisma.eligibleVoter db' = prisma.eligibleVoter db ->
  find_ballot_with_voter tok db' = Some (Ballot.consume at_ b, voter).
Proof.
  unfold find_ballot_with_voter. intros Hfind Hb Hv. rewrite Hb, Hv.
  rewrite find_map_preserving.
  - destruct (find _ (prisma.ballot db)) as [b0|]; [|discriminate].
    injection Hfind as -> <-. simpl. rewrite String.eqb_refl. reflexivity.
  - intros x. destruct (String.eqb (Ballot.id x) (Ballot.id b)); reflexivity.
Qed.

(** X4. A ballot token is good for one submission: once [castVote] has
    answered 200 for a token, any later POST /vote/cast and any later
    GET /vote/ballot with that token, in either revision and whatever else
    the request holds, is not answered 200 and changes nothing in the
    store; when the lookup of the ballot resolves, the answer is 400 "This
    ballot has already been used" (for castVote, given a non-empty array of
    selections). *)
Theorem castVote_token_single_use :
  forall (now_of now_of' : Time -> Time) (collate : string -> string -> bool)
         (diagnose : option bool) (env env' : Env) (req req' : CastVoteBody)
         (page_req : GetBallotRequest) (db : Store),
    status (snd (castVote_with now_of env req db)) = 200 ->
    truthy (token req') = truthy (token req) ->
    request_token page_req = truthy (token req) ->
    let used := fst (castVote_with now_of env req db) in
    fst (castVote_with now_of' env' req' used) = used
    /\ status (snd (castVote_with now_of' env' req' used)) <> 200
    /\ fst (getBallot_with now_of' collate diagnose env' page_req used) = used
    /\ answer_status (snd (getBallot_with now_of' collate diagnose env' page_req used))
       <> 200
    /\ (rejects env' ballot_findUnique = false ->
        (exists sel sels, votes req' = Some (sel :: sels)) ->
        error_code (snd (castVote_with now_of' env' req' used)) = Some ALREADY_VOTED)
    /\ (rejects env' ballot_findUnique = false ->
        snd (getBallot_with now_of' collate diagnose env' page_req used)
        = Refused (status_json 400 (ErrorBody "This ballot has already been used"
                                              (Some "You can only vote once")))).
Proof.
  intros now_of now_of' collate diagnose env env' req req' page_req db H200 Htok' Hpage used.
  destruct (castVote_commit_effect now_of env req db H200)
    as (tok & vs & b & voter & Htok & _ & Hfind & _ & _ & _ & Hballots & Hvoters & _).
  pose proof (find_ballot_after_consume tok db used b (Some voter) (clock env 1)
                Hfind Hballots Hvoters) as Hused.
  rewrite Htok in Htok', Hpage.
  assert (Hcast : fst (castVote_with now_of' env' req' used) = used
                  /\ status (snd (castVote_with now_of' env' req' used)) <> 200
                  /\ (rejects env' ballot_findUnique = false ->
                      (exists sel sels, votes req' = Some (sel :: sels)) ->
                      error_code (snd (castVote_with now_of' env' req' used))
                      = Some ALREADY_VOTED)).
  { unfold castVote_with, handle, castVote_body. rewrite Htok'.
    destruct (votes req') as [[|sel sels]|]; simpl;
      try (repeat split; try discriminate; intros _ (? & ? & ?); discriminate).
    step_handler. destruct (rejects env' ballot_findUnique); simpl;
      [repeat split; try discriminate|].
    rewrite Hused. simpl. repeat split; discriminate. }
  assert (Hget : fst (getBallot_with now_of' collate diagnose env' page_req used) = used
                 /\ answer_status
                      (snd (getBallot_with now_of' collate diagnose env' page_req used))
                    <> 200
                 /\ (rejects env' ballot_findUnique = false ->
                     snd (getBallot_with now_of' collate diagnose env' page_req used)
                     = Refused (status_json 400
                                  (ErrorBody "This ballot has already been used"
                                             (Some "You can only vote once"))))).
  { unfold getBallot_with, getBallot_body. rewrite Hpage.
    step_handler. destruct (rejects env' ballot_findUnique); simpl;
      [repeat split; discriminate|].
    rewrite Hused. simpl. repeat split; discriminate. }
  tauto.
Qed.

Lemma castVote_token_single_use_witness :
  let env' := Scenario.env_at 250000 "" "" "" "" Scenario.all_delivered Scenario.never in
  let req := Scenario.cast "tokA" [mkSelection "P1" "C1"] in
  status (snd Scenario.cast1) = 200
  /\ status (snd (castVote env' req (fst Scenario.cast1))) <> 200.
Proof.
  intros env' req. split; [reflexivity|].
  destruct (castVote_token_single_use (fun t => t) (fun t => t) String.leb None
              (Scenario.env_at 220000 "" "" "" "" Scenario.all_delivered Scenario.never)
              env' req req (mkGetBallotRequest (Some "tokA") None)
              (fst Scenario.issued2))
    as (_ & Hstatus & _).
  - reflexivity.
  - reflexivity.
  - reflexivity.
  - exact Hstatus.
Defined.

Lemma candidate_selection_reassigned (g : Candidate.t -> Id) (ids : list Id)
    (rows : list Candidate.t) :
  List.length
    (filter (fun c => id_in ids (Candidate.id c) && Candidate.is_approved c)
       (map (fun c => Candidate.mk (Candidate.id c) (g c) (Candidate.name c)
                                   (Candidate.status c)) rows))
  = List.length
      (filter (fun c => id_in ids (Candidate.id c) && Candidate.is_approved c) rows).
Proof.
  rewrite filter_map_swap, length_map. f_equal.
Qed.

(** X5. [castVote] never reads the [positionId] of a candidate: with that
    column rewritten in any way the answer is the same and the same rows
    are written.  In particular it does not test that the candidate of a
    selection stands for the position of that selection. *)
Theorem castVote_ignores_candidate_position :
  forall (now_of : Time -> Time) (env : Env) (req : CastVoteBody) (db : Store)
         (g : Candidate.t -> Id),
    castVote_with now_of env req (reassign_candidates g db)
    = (reassign_candidates g (fst (castVote_with now_of env req db)),
       snd (castVote_with now_of env req db)).
Proof.
  intros now_of env req db g.
  unfold castVote_with, handle, castVote_body.
  destruct (truthy (token req)) as [tok|]; [|reflexivity].
  destruct (votes req) as [[|v vs]|]; try reflexivity.
  step_handler.
  destruct (rejects env ballot_findUnique); simpl; [reflexivity|].
  change (find_ballot_with_voter tok (reassign_candidates g db))
    with (find_ballot_with_voter tok db).
  destruct (find_ballot_with_voter tok db) as [[b voter]|]; [|reflexivity].
  destruct (Ballot.is_consumed b); [reflexivity|].
  step_handler.
  destruct (rejects env position_findMany_open); simpl; [reflexivity|].
  match goal with |- context [negb ?c] => destruct c end; simpl.
  2:{ destruct (rejects env position_findMany_all); reflexivity. }
  destruct (rejects env candidate_findMany); simpl; [reflexivity|].
  pose proof (candidate_selection_reassigned g (map candidateId (v :: vs))
                (prisma.candidate db)) as Hsame.
  simpl in Hsame. rewrite Hsame.
  match goal with |- context [negb ?c] => destruct c end; simpl; [|reflexivity].
  match goal with |- context [negb ?c] => destruct c end; simpl; [|reflexivity].
  destruct (rejects env vote_findMany); simpl; [reflexivity|].
  match goal with
  | |- context [match ?l with [] => _ | _ :: _ => _ end] => destruct l
  end; simpl; [|reflexivity].
  destruct (rejects env vote_transaction); simpl; [reflexivity|].
  destruct (rejects env ballot_update); simpl; [reflexivity|].
  destruct voter as [voter|]; simpl; [|reflexivity].
  destruct (rejects env (audit_write "CAST_VOTE")); reflexivity.
Qed.

(** On a server in UTC the instant is the clock cut to the minute. *)
Lemma votes_now_local_UTC (t : Time) :
  votes_now_local (fun _ => 0) t = 60000 * (t / 60000).
Proof. unfold votes_now_local. lia. Qed.

(** X6. In the revision that reads the clock through [parseDate], on a
    server whose zone is [off] milliseconds ahead of UTC, the window that
    [castVote] enforces is the stored window moved by [off]: with [minute]
    the reading of the clock cut to the minute, a selection whose position
    has [minute < votingOpens + off] or [votingCloses + off < minute] gives
    the window error and nothing is written, and selections of pairwise
    different positions with
    [votingOpens + off <= minute <= votingCloses + off] do not. *)
Theorem castVote_zone_shifts_window :
  forall (zone : Time -> Z) (off : Z) (env : Env) (req : CastVoteBody) (db : Store)
         (tok : string) (vs : list Selection) (b : Ballot.t)
         (voter : option EligibleVoter.t),
    (forall wall, zone wall = off) ->
    position_ids_unique db ->
    reaches_window_check env req db tok vs b voter ->
    let minute := 60000 * (clock env 0 / 60000) in
    let answer := castVote_zone zone env req db in
    (forall sel p,
        In sel vs -> In p (prisma.position db) -> Position.id p = positionId sel ->
        minute < Position.votingOpens p + off \/ Position.votingCloses p + off < minute ->
        error_code (snd answer) = Some WINDOW_CLOSED /\ fst answer = db)
    /\ (NoDup (map positionId vs) ->
        (forall sel, In sel vs ->
           exists p, In p (prisma.position db) /\ Position.id p = positionId sel
                     /\ Position.votingOpens p + off <= minute
                        <= Position.votingCloses p + off) ->
        error_code (snd answer) <> Some WINDOW_CLOSED).
Proof.
  intros zone off env req db tok vs b voter Hzone Hkeys Hreach minute answer.
  assert (Hnow : votes_now_local zone (clock env 0) = minute - off)
    by (unfold votes_now_local; fold minute; now rewrite Hzone).
  split.
  - intros sel p Hsel Hp Hid Hout.
    destruct (castVote_window_mismatch (votes_now_local zone) env req db tok vs b voter
                Hreach) as (Hdb & _ & Hcode); [|split; assumption].
    apply (closed_target_miscounted _ db vs sel p Hkeys Hsel Hp Hid).
    unfold in_closed_window. rewrite Hnow. lia.
  - intros Hnd Hall.
    apply (castVote_window_match (votes_now_local zone) env req db tok vs b voter Hreach).
    apply (targets_counted _ db vs Hkeys). split; [assumption|].
    intros sel Hsel. destruct (Hall sel Hsel) as (p & Hp & Hid & Hin).
    exists p. repeat split; try assumption; unfold in_closed_window in *;
      rewrite Hnow; lia.
Qed.

Lemma castVote_zone_shifts_window_witness :
  let env := Scenario.env_at (3600000 + 3 * 3600000) "" "" "" ""
                             Scenario.all_delivered Scenario.never in
  let req := Scenario.cast "tokA" [mkSelection "P1" "C1"] in
  let zone := fun _ : Time => 3 * 3600000 in
  Position.votingCloses Scenario.P1 + 3 * 3600000 <= clock env 0
  /\ error_code (snd (castVote_zone zone env req Scenario.db_issued))
     <> Some WINDOW_CLOSED.
Proof.
  intros env req zone. split; [vm_compute; discriminate|].
  assert (Hkeys : position_ids_unique Scenario.db_issued)
    by (unfold position_ids_unique; simpl; solve_NoDup).
  assert (Hreach : reaches_window_check env req Scenario.db_issued "tokA"
                     [mkSelection "P1" "C1"]
                     (Ballot.mk "b1" "v1" "tokA" Ballot.ACTIVE 130000 None)
                     (Some (EligibleVoter.mk "v1" "REG123" "Ann" EligibleVoter.ELIGIBLE
                              (Some "ann@example.org") (Some "+256700000001")))).
  { unfold reaches_window_check. repeat split; try reflexivity. discriminate. }
  destruct (castVote_zone_shifts_window zone (3 * 3600000) env req Scenario.db_issued
              _ _ _ _ (fun _ => eq_refl) Hkeys Hreach) as [_ Hopen].
  apply Hopen.
  - simpl. solve_NoDup.
  - intros sel [<- | []]. exists Scenario.P1. repeat split.
    + simpl. now left.
    + vm_compute. discriminate.
    + vm_compute. discriminate.
Defined.

Lemma insert_by_Permutation {A} (le : A -> A -> bool) (x : A) (l : list A) :
  Permutation (insert_by le x l) (x :: l).
Proof.
  induction l as [|y l IH]; simpl; [reflexivity|].
  destruct (le x y); [reflexivity|].
  rewrite IH. apply perm_swap.
Qed.

Lemma orderBy_Permutation {A K} (le : K -> K -> bool) (key : A -> K) (rows : list A) :
  Permutation (orderBy le key rows) rows.
Proof.
  unfold orderBy. induction rows as [|x rows IH]; simpl; [reflexivity|].
  rewrite insert_by_Permutation. now constructor.
Qed.

Lemma orderBy_In {A K} (le : K -> K -> bool) (key : A -> K) (rows : list A) (x : A) :
  In x (orderBy le key rows) <-> In x rows.
Proof.
  split; apply Permutation_in;
    [|symmetry]; apply orderBy_Permutation.
Qed.

(** What a page says about the store it was read from. *)
Lemma getBallot_page_facts :
  forall (now_of : Time -> Time) (collate : string -> string -> bool)
         (diagnose : option bool) (env : Env) (req : GetBallotRequest) (db : Store)
         (page : BallotPage),
    snd (getBallot_with now_of collate diagnose env req db) = Page page ->
    (exists tok b voter,
        request_token req = Some tok
        /\ find_ballot_with_voter tok db = Some (b, voter)
        /\ Ballot.is_consumed b = false)
    /\ fst (getBallot_with now_of collate diagnose env req db) = db
    /\ page_ballot_status page = Ballot.ACTIVE
    /\ Permutation (page_positions page)
         (filter (window_contains (now_of (clock env 0))) (prisma.position db))
    /\ Permutation (map listed (page_candidates page))
         (filter (fun c => id_in (map Position.id (page_positions page))
                                 (Candidate.positionId c)
                           && Candidate.is_approved c)
                 (prisma.candidate db))
    /\ (forall lc, In lc (page_candidates page) ->
          Candidate.status (listed lc) = Candidate.APPROVED
          /\ exists p, In p (page_positions page)
                       /\ in_closed_window (now_of (clock env 0)) p
                       /\ Position.id p = Candidate.positionId (listed lc)).
Proof.
  intros now_of collate diagnose env req db page.
  unfold getBallot_with, getBallot_body.
  destruct (request_token req) as [tok|] eqn:Htok; [|discriminate].
  step_handler.
  destruct (rejects env ballot_findUnique); simpl; [discriminate|].
  destruct (find_ballot_with_voter tok db) as [[b voter]|] eqn:Hfind; [|discriminate].
  destruct (Ballot.is_consumed b) eqn:Hactive; [discriminate|].
  step_handler.
  destruct (rejects env position_findMany_open); simpl; [discriminate|].
  destruct (rejects env candidate_findMany); simpl; [discriminate|].
  set (positions := orderBy collate Position.name
                      (filter (window_contains (now_of (clock env 0)))
                              (prisma.position db))).
  set (chosen := orderBy collate Candidate.name
                   (filter (fun c => id_in (map Position.id positions)
                                           (Candidate.positionId c)
                                     && Candidate.is_approved c)
                           (prisma.candidate db))).
  assert (Hgoal : forall p0 : BallotPage,
             p0 = mkBallotPage (Ballot.id b) (Ballot.status b) (Ballot.issuedAt b)
                    positions (map (include_position db) chosen) ->
             page_ballot_status p0 = Ballot.ACTIVE
             /\ Permutation (page_positions p0)
                  (filter (window_contains (now_of (clock env 0))) (prisma.position db))
             /\ Permutation (map listed (page_candidates p0))
                  (filter (fun c => id_in (map Position.id (page_positions p0))
                                          (Candidate.positionId c)
                                    && Candidate.is_approved c)
                          (prisma.candidate db))
             /\ (forall lc, In lc (page_candidates p0) ->
                   Candidate.status (listed lc) = Candidate.APPROVED
                   /\ exists p, In p (page_positions p0)
                                /\ in_closed_window (now_of (clock env 0)) p
                                /\ Position.id p = Candidate.positionId (listed lc))).
  { intros p0 ->. simpl. split; [|split; [|split]].
    - unfold Ballot.is_consumed in Hactive. destruct (Ballot.status b);
        [reflexivity | discriminate].
    - apply orderBy_Permutation.
    - rewrite map_map. simpl. rewrite map_id. apply orderBy_Permutation.
    - intros lc Hlc. apply in_map_iff in Hlc. destruct Hlc as [c [<- Hc]]. simpl.
      apply orderBy_In in Hc. apply filter_In in Hc. destruct Hc as [_ Hc].
      apply andb_true_iff in Hc. destruct Hc as [Hpos Happ]. split.
      + unfold Candidate.is_approved in Happ. destruct (Candidate.status c);
          congruence.
      + apply (id_in_In (map Position.id positions)) in Hpos.
        apply in_map_iff in Hpos. destruct Hpos as [p [Hid Hp]].
        exists p. split; [exact Hp|]. split; [|exact Hid].
        apply orderBy_In in Hp. apply filter_In in Hp.
        apply window_contains_iff. tauto. }
  destruct diagnose as [[|]|]; simpl.
  all: destruct (map (include_position db) chosen) as [|lc rest] eqn:Hchosen; simpl.
  all: try (destruct positions as [|p ps] eqn:Hpositions; simpl).
  all: try (destruct (listed_position lc) eqn:Hlisted; simpl).
  all: try discriminate.
  all: intros Hpage; injection Hpage as <-;
    (split; [exists tok, b, voter; auto|]); split; [reflexivity|];
    apply Hgoal; rewrite ?Hchosen; reflexivity.
Qed.

(** X7. When GET /vote/ballot answers with a page, nothing has been
    written, the ballot shown is ACTIVE, the positions listed are exactly the
    rows of the position table whose window [[votingOpens, votingCloses]]
    contains the handler's [now] (each once), the candidates listed are
    exactly the APPROVED candidates of the listed positions, and so every
    candidate on the page is APPROVED and stands for a listed, open
    position. *)
Theorem getBallot_lists_open_positions :
  forall (now_of : Time -> Time) (collate : string -> string -> bool)
         (diagnose : option bool) (env : Env) (req : GetBallotRequest) (db : Store)
         (page : BallotPage),
    snd (getBallot_with now_of collate diagnose env req db) = Page page ->
    fst (getBallot_with now_of collate diagnose env req db) = db
    /\ page_ballot_status page = Ballot.ACTIVE
    /\ Permutation (page_positions page)
         (filter (window_contains (now_of (clock env 0))) (prisma.position db))
    /\ Permutation (map listed (page_candidates page))
         (filter (fun c => id_in (map Position.id (page_positions page))
                                 (Candidate.positionId c)
                           && Candidate.is_approved c)
                 (prisma.candidate db))
    /\ (forall lc, In lc (page_candidates page) ->
          Candidate.status (listed lc) = Candidate.APPROVED
          /\ exists p, In p (page_positions page)
                       /\ in_closed_window (now_of (clock env 0)) p
                       /\ Position.id p = Candidate.positionId (listed lc)).
Proof.
  intros now_of collate diagnose env req db page Hpage.
  destruct (getBallot_page_facts now_of collate diagnose env req db page Hpage)
    as (_ & H). exact H.
Qed.

Lemma getBallot_lists_open_positions_witness :
  let env := Scenario.env_at 220000 "" "" "" "" Scenario.all_delivered Scenario.never in
  let req := mkGetBallotRequest (Some "tokA") None in
  exists page,
    snd (getBallot String.leb env req Scenario.db_issued) = Page page
    /\ map Position.id (page_positions page) = ["P1"]
    /\ map (fun lc => Candidate.id (listed lc)) (page_candidates page) = ["C1"]
    /\ fst (getBallot String.leb env req Scenario.db_issued) = Scenario.db_issued.
Proof.
  intros env req. eexists. split; [reflexivity|]. split; [reflexivity|].
  split; [reflexivity|].
  apply (getBallot_lists_open_positions (fun t => t) String.leb None env req
           Scenario.db_issued _ eq_refl).
Defined.

Lemma forall_filter_nil {A} (f : A -> bool) (l : list A) :
  (forall x, In x l -> f x = false) -> filter f l = [].
Proof.
  induction l as [|x l IH]; simpl; intros H; [reflexivity|].
  rewrite (H x (or_introl eq_refl)). apply IH. intros y Hy. apply H. now right.
Qed.

(** A submission that meets every condition is taken, when no call
    rejects. *)
Lemma castVote_accepts_valid (now_of : Time -> Time) (env : Env) (req : CastVoteBody)
    (db : Store) (tok : string) (vs : list Selection) (b : Ballot.t)
    (voter : EligibleVoter.t) :
  (forall op, rejects env op = false) ->
  position_ids_unique db ->
  candidate_ids_unique db ->
  truthy (token req) = Some tok ->
  votes req = Some vs ->
  vs <> [] ->
  find_ballot_with_voter tok db = Some (b, Some voter) ->
  Ballot.is_consumed b = false ->
  NoDup (map positionId vs) ->
  NoDup (map candidateId vs) ->
  (forall sel, In sel vs ->
     (exists p, In p (prisma.position db) /\ Position.id p = positionId sel
                /\ in_closed_window (now_of (clock env 0)) p)
     /\ (exists c, In c (prisma.candidate db) /\ Candidate.id c = candidateId sel
                   /\ Candidate.status c = Candidate.APPROVED)
     /\ (forall w, In w (prisma.vote db) -> Vote.ballotId w = Ballot.id b ->
                   Vote.positionId w <> positionId sel)) ->
  snd (castVote_with now_of env req db)
  = json (VoteCastBody "Vote cast successfully" (List.length vs)
            "Your vote has been recorded. Thank you for participating!").
Proof.
  intros Hok Hpk Hck Htok Hvotes Hne Hfind Hactive Hnd Hcnd Hall.
  assert (Hwin : Nat.eqb (List.length (select Position.id
                     (window_contains (now_of (clock env 0)))
                     (map positionId vs) (prisma.position db)))
                   (List.length vs) = true).
  { apply (targets_counted _ db vs Hpk). split; [assumption|].
    intros sel Hsel. apply (Hall sel Hsel). }
  assert (Hcand : Nat.eqb (List.length (select Candidate.id Candidate.is_approved
                      (map candidateId vs) (prisma.candidate db)))
                    (List.length vs) = true).
  { apply Nat.eqb_eq. rewrite <- (length_map candidateId vs).
    apply (select_length_eq_iff Candidate.id Candidate.is_approved _ _ Hck).
    split; [assumption|].
    intros x Hx. apply in_map_iff in Hx. destruct Hx as [sel [<- Hsel]].
    destruct (Hall sel Hsel) as (_ & (c & Hc & Hid & Happ) & _).
    exists c. repeat split; try assumption.
    unfold Candidate.is_approved. now rewrite Happ. }
  assert (Hset : Nat.eqb (set_size (map positionId vs))
                   (List.length (map positionId vs)) = true)
    by (apply Nat.eqb_eq, set_size_NoDup, Hnd).
  assert (Hprior : filter (fun w => String.eqb (Vote.ballotId w) (Ballot.id b)
                                    && id_in (map positionId vs) (Vote.positionId w))
                          (prisma.vote db) = []).
  { apply forall_filter_nil. intros w Hw.
    destruct (String.eqb (Vote.ballotId w) (Ballot.id b)) eqn:Eb; [|reflexivity].
    apply String.eqb_eq in Eb. simpl.
    destruct (id_in (map positionId vs) (Vote.positionId w)) eqn:Ein; [|reflexivity].
    apply (id_in_In (map positionId vs)) in Ein. apply in_map_iff in Ein.
    destruct Ein as [sel [Hp Hsel]].
    destruct (Hall sel Hsel) as (_ & _ & Hno). exfalso.
    exact (Hno w Hw Eb (eq_sym Hp)). }
  unfold castVote_with, handle, castVote_body. rewrite Htok, Hvotes.
  destruct vs as [|v vs']; [congruence|].
  step_handler. rewrite ?Hok. simpl. rewrite Hfind, Hactive. step_handler.
  rewrite ?Hok. simpl.
  unfold select in Hwin, Hcand. simpl in Hwin, Hcand, Hset, Hprior.
  rewrite Hwin. simpl. rewrite Hcand. simpl. rewrite Hset. simpl.
  rewrite Hprior. simpl. rewrite length_map. reflexivity.
Qed.

(** X8. When no call rejects, [castVote] answers 200, reporting as many
    votes as there are selections, for every submission whose token names a
    ballot that is not CONSUMED and whose voter is in the roster, and whose
    selections (at least one) target pairwise different positions with [now]
    in their window, with pairwise different candidate ids that each name an
    APPROVED candidate, the ballot having no Vote row for these
    positions. *)
Theorem castVote_accepts_valid_submission :
  forall (now_of : Time -> Time) (env : Env) (req : CastVoteBody) (db : Store)
         (tok : string) (vs : list Selection) (b : Ballot.t) (voter : EligibleVoter.t),
    (forall op, rejects env op = false) ->
    position_ids_unique db ->
    candidate_ids_unique db ->
    truthy (token req) = Some tok ->
    votes req = Some vs ->
    vs <> [] ->
    find_ballot_with_voter tok db = Some (b, Some voter) ->
    Ballot.is_consumed b = false ->
    NoDup (map positionId vs) ->
    NoDup (map candidateId vs) ->
    (forall sel, In sel vs ->
       (exists p, In p (prisma.position db) /\ Position.id p = positionId sel
                  /\ in_closed_window (now_of (clock env 0)) p)
       /\ (exists c, In c (prisma.candidate db) /\ Candidate.id c = candidateId sel
                     /\ Candidate.status c = Candidate.APPROVED)
       /\ (forall w, In w (prisma.vote db) -> Vote.ballotId w = Ballot.id b ->
                     Vote.positionId w <> positionId sel)) ->
    snd (castVote_with now_of env req db)
    = json (VoteCastBody "Vote cast successfully" (List.length vs)
              "Your vote has been recorded. Thank you for participating!").
Proof.
  intros now_of env req db tok vs b voter. apply castVote_accepts_valid.
Qed.

Lemma castVote_accepts_valid_submission_witness :
  let env := Scenario.env_at 220000 "" "" "" "" Scenario.all_delivered Scenario.never in
  let req := Scenario.cast "tokA" [mkSelection "P1" "C1"] in
  position_ids_unique Scenario.db_issued
  /\ status (snd (castVote env req Scenario.db_issued)) = 200.
Proof.
  intros env req.
  assert (Hpk : position_ids_unique Scenario.db_issued)
    by (unfold position_ids_unique; simpl; solve_NoDup).
  split; [exact Hpk|]. unfold castVote.
  rewrite (castVote_accepts_valid_submission (fun t => t) env req Scenario.db_issued
             "tokA" [mkSelection "P1" "C1"]
             (Ballot.mk "b1" "v1" "tokA" Ballot.ACTIVE 130000 None)
             (EligibleVoter.mk "v1" "REG123" "Ann" EligibleVoter.ELIGIBLE
                (Some "ann@example.org") (Some "+256700000001"))).
  - reflexivity.
  - intros op. reflexivity.
  - exact Hpk.
  - unfold candidate_ids_unique. simpl. solve_NoDup.
  - reflexivity.
  - reflexivity.
  - discriminate.
  - reflexivity.
  - reflexivity.
  - simpl. solve_NoDup.
  - simpl. solve_NoDup.
  - intros sel [<- | []]. split; [|split].
    + exists Scenario.P1. repeat split; [simpl; now left | | ];
        vm_compute; discriminate.
    + eexists. split; [simpl; left; reflexivity|]. split; reflexivity.
    + intros w [].
Defined.

Lemma NoDup_map_transfer {A B C} (f : A -> B) (g : A -> C) (l : list A) :
  NoDup (map f l) ->
  (forall x y, In x l -> In y l -> g x = g y -> f x = f y) ->
  NoDup (map g l).
Proof.
  induction l as [|x l IH]; simpl; intros Hnd Hfg; [constructor|].
  inversion Hnd as [|? ? Hnotin Hrest]; subst. constructor.
  - intros Hin. apply in_map_iff in Hin. destruct Hin as [y [Hg Hy]].
    apply Hnotin. rewrite <- (Hfg y x); [now apply in_map | now right | now left | exact Hg].
  - apply IH; [assumption|]. intros a c Ha Hc. apply Hfg; now right.
Qed.

Lemma unique_candidate_row (db : Store) (c c' : Candidate.t) :
  candidate_ids_unique db ->
  In c (prisma.candidate db) -> In c' (prisma.candidate db) ->
  Candidate.id c = Candidate.id c' -> c = c'.
Proof.
  unfold candidate_ids_unique. intros Hnd Hc Hc' Hid.
  induction (prisma.candidate db) as [|a rows IH]; [contradiction|].
  simpl in Hnd. inversion Hnd as [|? ? Hnotin Hrest]; subst.
  destruct Hc as [-> | Hc], Hc' as [-> | Hc']; auto.
  - exfalso. apply Hnotin. rewrite Hid. now apply in_map.
  - exfalso. apply Hnotin. rewrite <- Hid. now apply in_map.
Qed.

(** X9. The page and the submission agree: when GET /vote/ballot answers
    with a page, a POST /vote/cast with the same token, made at the same
    reading of the clock by the same revision, is answered 200 whenever its
    selections (at least one) pair pairwise different positions each with a
    candidate that the page lists for that position, provided no call
    rejects, the voter of the ballot is in the roster and the ballot has no
    Vote row yet. *)
Theorem castVote_accepts_what_getBallot_lists :
  forall (now_of : Time -> Time) (collate : string -> string -> bool)
         (diagnose : option bool) (env : Env) (page_req : GetBallotRequest)
         (req : CastVoteBody) (db : Store) (page : BallotPage) (vs : list Selection),
    (forall op, rejects env op = false) ->
    position_ids_unique db ->
    candidate_ids_unique db ->
    snd (getBallot_with now_of collate diagnose env page_req db) = Page page ->
    truthy (token req) = request_token page_req ->
    votes req = Some vs ->
    vs <> [] ->
    NoDup (map positionId vs) ->
    (forall sel, In sel vs ->
       exists lc, In lc (page_candidates page)
                  /\ Candidate.id (listed lc) = candidateId sel
                  /\ Candidate.positionId (listed lc) = positionId sel) ->
    (forall tok b, truthy (token req) = Some tok ->
                   find_ballot_with_voter tok db = Some (b, None) -> False) ->
    (forall tok b voter w,
        truthy (token req) = Some tok ->
        find_ballot_with_voter tok db = Some (b, voter) ->
        In w (prisma.vote db) -> Vote.ballotId w <> Ballot.id b) ->
    snd (castVote_with now_of env req db)
    = json (VoteCastBody "Vote cast successfully" (List.length vs)
              "Your vote has been recorded. Thank you for participating!").
Proof.
  intros now_of collate diagnose env page_req req db page vs Hok Hpk Hck Hpage Htok
         Hvotes Hne Hnd Hlisted Hroster Hfresh.
  destruct (getBallot_page_facts now_of collate diagnose env page_req db page Hpage)
    as ((tok & b & voter & Hreq & Hfind & Hactive) & _ & _ & Hpos & Hcands & Hlc).
  rewrite Hreq in Htok.
  destruct voter as [voter|]; [|exfalso; exact (Hroster tok b Htok Hfind)].
  assert (Hrow : forall sel, In sel vs ->
            exists c, In c (prisma.candidate db) /\ Candidate.id c = candidateId sel
                      /\ Candidate.positionId c = positionId sel
                      /\ Candidate.status c = Candidate.APPROVED
                      /\ exists p, In p (prisma.position db)
                                   /\ Position.id p = positionId sel
                                   /\ in_closed_window (now_of (clock env 0)) p).
  { intros sel Hsel. destruct (Hlisted sel Hsel) as (lc & Hin & Hid & Hposid).
    destruct (Hlc lc Hin) as (Happ & p & Hp & Hwin & Hpid).
    exists (listed lc). split; [|repeat split; try assumption].
    - assert (Hc : In (listed lc) (map listed (page_candidates page)))
        by now apply in_map.
      apply (Permutation_in _ Hcands) in Hc. apply filter_In in Hc. tauto.
    - exists p. split; [|split; [congruence | assumption]].
      apply (Permutation_in _ Hpos) in Hp. apply filter_In in Hp. tauto. }
  apply (castVote_accepts_valid now_of env req db tok vs b voter); try assumption.
  - apply (NoDup_map_transfer positionId candidateId vs Hnd).
    intros x y Hx Hy Hsame.
    destruct (Hrow x Hx) as (c & Hc & Hcid & Hcpos & _).
    destruct (Hrow y Hy) as (c' & Hc' & Hcid' & Hcpos' & _).
    assert (c = c') by (apply (unique_candidate_row db); congruence).
    congruence.
  - intros sel Hsel. destruct (Hrow sel Hsel) as (c & Hc & Hcid & _ & Happ & p & Hp).
    split; [exists p; exact Hp|]. split; [exists c; auto|].
    intros w Hw Hb. exfalso. exact (Hfresh tok b (Some voter) w Htok Hfind Hw Hb).
Qed.

Lemma castVote_accepts_what_getBallot_lists_witness :
  let env := Scenario.env_at 220000 "" "" "" "" Scenario.all_delivered Scenario.never in
  let page_req := mkGetBallotRequest (Some "tokA") None in
  let req := Scenario.cast "tokA" [mkSelection "P1" "C1"] in
  answer_status (snd (getBallot String.leb env page_req Scenario.db_issued)) = 200
  /\ status (snd (castVote env req Scenario.db_issued)) = 200.
Proof.
  intros env page_req req. split; [reflexivity|]. unfold castVote.
  erewrite (castVote_accepts_what_getBallot_lists (fun t => t) String.leb None env
              page_req req Scenario.db_issued).
  - reflexivity.
  - intros op. reflexivity.
  - unfold position_ids_unique. simpl. solve_NoDup.
  - unfold candidate_ids_unique. simpl. solve_NoDup.
  - reflexivity.
  - reflexivity.
  - reflexivity.
  - discriminate.
  - simpl. solve_NoDup.
  - intros sel [<- | []]. eexists. split; [simpl; left; reflexivity|].
    split; reflexivity.
  - intros tok b Htok. injection Htok as <-. discriminate.
  - intros tok b voter w _ _ [].
Defined.

(** ** Challenges: requestOTP *)

Lemma same_tables_refl (db : Store) : same_tables db db.
Proof. unfold same_tables. tauto. Qed.

Lemma same_tables_trans (a b c : Store) :
  same_tables a b -> same_tables b c -> same_tables a c.
Proof. unfold same_tables. intuition congruence. Qed.

(** A delivery callback touches the audit log at most. *)
Lemma run_task_same_tables (env : Env) (t : Task) (st : HState) :
  same_tables (store st) (store (run_task env t st)).
Proof.
  destruct t as [ch vid voter]. unfold run_task.
  destruct (delivered env ch); [apply same_tables_refl|].
  unfold detached, logAudit, mutate. simpl.
  destruct (rejects env _); simpl; unfold same_tables; simpl; tauto.
Qed.

Lemma settle_same_tables (env : Env) (st : HState) :
  same_tables (store st) (store (settle env st)).
Proof.
  unfold settle.
  assert (H : forall ts s, same_tables (store s)
                (store (fold_left (fun s t => run_task env t s) ts s))).
  { induction ts as [|t ts IH]; intros s; simpl; [apply same_tables_refl|].
    eapply same_tables_trans; [apply run_task_same_tables | apply IH]. }
  apply (H (microtasks st) (set_microtasks [] st)).
Qed.

Lemma latest_None (rows : list Verification.t) : latest rows = None -> rows = [].
Proof.
  destruct rows as [|x rows]; simpl; [reflexivity|].
  destruct (latest rows) as [w|];
    [destruct (Verification.issuedAt w >? Verification.issuedAt x)|]; discriminate.
Qed.

(** X10. A voter who has an unverified challenge issued within the last two
    minutes (the boundary included) is turned away by [requestOTP] with 429
    and [retryAfter] 120, and nothing is stored, whether or not that
    challenge has been delivered.  (The voter is eligible and has no
    CONSUMED ballot; the three lookups resolve.) *)
Theorem requestOTP_rate_limited :
  forall (env : Env) (req : RequestOTPBody) (db : Store) (r : string)
         (voter : EligibleVoter.t) (pending : Verification.t),
    rejects env eligibleVoter_findUnique = false ->
    rejects env ballot_findFirst = false ->
    rejects env verification_findFirst = false ->
    truthy (request_reg_no req) = Some r ->
    find_voter r db = Some voter ->
    EligibleVoter.status voter = EligibleVoter.ELIGIBLE ->
    find_consumed_ballot (EligibleVoter.id voter) db = None ->
    In pending (prisma.verification db) ->
    Verification.voterId pending = EligibleVoter.id voter ->
    Verification.verifiedAt pending = None ->
    clock env 0 - 120000 <= Verification.issuedAt pending ->
    requestOTP env req db
    = (db, status_json 429 (RateLimitBody "Please wait before requesting another OTP" 120)).
Proof.
  intros env req db r voter pending Hr1 Hr2 Hr3 Hreg Hvoter Helig Hnone Hin Hmine
         Hunverified Hrecent.
  unfold requestOTP, handle, requestOTP_body. rewrite Hreg.
  step_handler. rewrite Hr1, Hvoter. simpl.
  unfold is_eligible. rewrite Helig. simpl. rewrite Hr2, Hnone. simpl. rewrite Hr3.
  match goal with
  | |- context [findFirst_latest ?f db] =>
      destruct (findFirst_latest f db) as [v|] eqn:Hv; [reflexivity|];
      assert (Hp : In pending (filter f (prisma.verification db)))
  end.
  { apply filter_In. split; [assumption|].
    unfold recent_unverified, is_null.
    rewrite Hmine, String.eqb_refl, Hunverified. simpl.
    rewrite andb_true_r. apply Z.geb_le. lia. }
  apply latest_None in Hv. rewrite Hv in Hp. contradiction.
Qed.

Lemma requestOTP_rate_limited_witness :
  let env := Scenario.env_at 220000 "222222" "" "ver2" "" Scenario.all_delivered
                             Scenario.never in
  map Verification.issuedAt (prisma.verification (fst Scenario.requested1)) = [100000]
  /\ snd (requestOTP env (Scenario.request "REG123") (fst Scenario.requested1))
     = status_json 429 (RateLimitBody "Please wait before requesting another OTP" 120).
Proof.
  intros env. split; [reflexivity|].
  rewrite (requestOTP_rate_limited env (Scenario.request "REG123")
             (fst Scenario.requested1) "REG123"
             (EligibleVoter.mk "v1" "REG123" "Ann" EligibleVoter.ELIGIBLE
                (Some "ann@example.org") (Some "+256700000001"))
             (Verification.mk "ver1" "v1" "both" "$2a$10$123456" 100000 400000
                None None None)); try reflexivity.
  simpl. now left.
Defined.

(** X11. [requestOTP] writes nothing but a challenge and audit events:
    voters, ballots, votes, positions and candidates are as they were, and
    the challenge table is either untouched or longer by the one new
    challenge, which belongs to the voter found, holds the hash of the code
    that was drawn, expires five minutes after the second reading of the
    clock and is neither verified nor consumed.  In the second case the
    answer is 500, "Failed to send OTP via both email and SMS". *)
Theorem requestOTP_stores_one_challenge :
  forall (env : Env) (req : RequestOTPBody) (db : Store),
    let after := fst (requestOTP env req db) in
    prisma.eligibleVoter after = prisma.eligibleVoter db
    /\ prisma.ballot after = prisma.ballot db
    /\ prisma.vote after = prisma.vote db
    /\ prisma.position after = prisma.position db
    /\ prisma.candidate after = prisma.candidate db
    /\ (after = db
        \/ exists r voter,
             truthy (request_reg_no req) = Some r
             /\ find_voter r db = Some voter
             /\ prisma.verification after
                = prisma.verification db ++ [issued_challenge env voter]
             /\ error_code (snd (requestOTP env req db)) = Some DELIVERY_FAILED
             /\ status (snd (requestOTP env req db)) = 500).
Proof.
  intros env req db after.
  assert (Hmain :
    after = db
    \/ exists r voter,
         truthy (request_reg_no req) = Some r
         /\ find_voter r db = Some voter
         /\ same_tables (prisma.with_verification
                           (fun l => l ++ [issued_challenge env voter]) db) after
         /\ error_code (snd (requestOTP env req db)) = Some DELIVERY_FAILED
         /\ status (snd (requestOTP env req db)) = 500).
  { subst after. unfold requestOTP, handle, requestOTP_body.
    destruct (truthy (request_reg_no req)) as [r|] eqn:Hreg; [|left; reflexivity].
    step_handler. destruct (rejects env eligibleVoter_findUnique); simpl;
      [left; reflexivity|].
    destruct (find_voter r db) as [voter|] eqn:Hvoter; [|left; reflexivity].
    destruct (is_eligible voter); simpl; [|left; reflexivity].
    destruct (rejects env ballot_findFirst); simpl; [left; reflexivity|].
    destruct (find_consumed_ballot _ db); [left; reflexivity|].
    simpl. destruct (rejects env verification_findFirst); simpl; [left; reflexivity|].
    destruct (findFirst_latest _ db); [left; reflexivity|].
    simpl. destruct (rejects env bcrypt_hash_call); simpl; [left; reflexivity|].
    destruct (truthy (EligibleVoter.email voter)); [|left; reflexivity].
    destruct (truthy (EligibleVoter.phone voter)); [|left; reflexivity].
    simpl. destruct (rejects env verification_create); simpl; [left; reflexivity|].
    right. exists r, voter. repeat split; try reflexivity; try assumption.
    all: match goal with
         | |- context [settle ?e ?st] =>
             destruct (settle_same_tables e st) as (H1 & H2 & H3 & H4 & H5 & H6);
             unfold issued_challenge; simpl in *; assumption
         end. }
  destruct Hmain as [-> | (r & voter & Hreg & Hvoter & Hsame & Hcode & Hst)].
  - repeat split; try reflexivity. now left.
  - destruct Hsame as (H1 & H2 & H3 & H4 & H5 & H6). simpl in *.
    repeat split; try assumption.
    right. exists r, voter. repeat split; assumption.
Qed.

(** ** Challenges: confirmOTP *)

(** [confirmOTP] reads the tables, not the audit log: on two stores with the
    same tables it gives the same answer and leaves the same tables. *)
Lemma confirmOTP_same_tables (env : Env) (req : ConfirmOTPBody) (db db' : Store) :
  same_tables db db' ->
  snd (confirmOTP env req db') = snd (confirmOTP env req db)
  /\ same_tables (fst (confirmOTP env req db)) (fst (confirmOTP env req db')).
Proof.
  destruct db as [e v b vo p c a], db' as [e' v' b' vo' p' c' a'].
  unfold same_tables. simpl. intros (-> & -> & -> & -> & -> & ->).
  unfold confirmOTP, handle, confirmOTP_body.
  destruct (truthy (reg_no req)) as [r|]; [|simpl; tauto].
  destruct (truthy (otp req)) as [code|]; [|simpl; tauto].
  step_handler.
  destruct (rejects env eligibleVoter_findUnique); simpl; [tauto|].
  unfold find_voter. simpl.
  destruct (find _ e) as [voter|]; simpl; [|tauto].
  destruct (rejects env verification_findFirst); simpl; [tauto|].
  unfold findFirst_latest. simpl.
  destruct (latest _) as [ch|]; simpl; [|tauto].
  destruct (rejects env bcrypt_compare_call); simpl; [tauto|].
  destruct (bcrypt_compare env code (Verification.otpHash ch)); simpl.
  2:{ destruct (rejects env (audit_write "OTP_VERIFICATION_FAILED")); simpl; tauto. }
  destruct (rejects env ballot_findFirst); simpl; [tauto|].
  unfold find_consumed_ballot. simpl.
  destruct (find _ b); simpl; [tauto|].
  destruct (rejects env verification_update_verifiedAt); simpl; [tauto|].
  destruct (rejects env ballot_create); simpl; [tauto|].
  unfold ballot_create_row. simpl.
  destruct (existsb _ b); simpl; [tauto|].
  destruct (rejects env verification_update_ballotToken); simpl; [tauto|].
  destruct (rejects env (audit_write "OTP_VERIFIED_BALLOT_ISSUED")); simpl; tauto.
Qed.

(** X12. A wrong code costs nothing: when [confirmOTP] answers 401 the
    tables are as they were (the challenge is still unverified) and the
    audit log is longer by one OTP_VERIFICATION_FAILED event, so whatever
    request comes next is answered as if the wrong code had never been
    presented.  There is no limit on the number of attempts. *)
Theorem confirmOTP_wrong_code_changes_nothing :
  forall (env : Env) (req : ConfirmOTPBody) (db : Store),
    status (snd (confirmOTP env req db)) = 401 ->
    same_tables db (fst (confirmOTP env req db))
    /\ (exists ev, prisma.auditLog (fst (confirmOTP env req db))
                   = prisma.auditLog db ++ [ev]
                   /\ AuditEvent.action ev = "OTP_VERIFICATION_FAILED")
    /\ forall env' req',
         snd (confirmOTP env' req' (fst (confirmOTP env req db)))
         = snd (confirmOTP env' req' db).
Proof.
  intros env req db H401.
  assert (Hframe : same_tables db (fst (confirmOTP env req db))
                   /\ exists ev, prisma.auditLog (fst (confirmOTP env req db))
                                 = prisma.auditLog db ++ [ev]
                                 /\ AuditEvent.action ev = "OTP_VERIFICATION_FAILED").
  { revert H401. unfold confirmOTP, handle, confirmOTP_body.
    destruct (truthy (reg_no req)) as [r|]; [|discriminate].
    destruct (truthy (otp req)) as [code|]; [|discriminate].
    step_handler.
    destruct (rejects env eligibleVoter_findUnique); simpl; [discriminate|].
    destruct (find_voter r db) as [voter|]; simpl; [|discriminate].
    destruct (rejects env verification_findFirst); simpl; [discriminate|].
    destruct (findFirst_latest _ db) as [ch|]; simpl; [|discriminate].
    destruct (rejects env bcrypt_compare_call); simpl; [discriminate|].
    destruct (bcrypt_compare env code (Verification.otpHash ch)); simpl.
    - destruct (rejects env ballot_findFirst); simpl; [discriminate|].
      destruct (find_consumed_ballot _ db); simpl; [discriminate|].
      destruct (rejects env verification_update_verifiedAt); simpl; [discriminate|].
      destruct (rejects env ballot_create); simpl; [discriminate|].
      destruct (ballot_create_row _ _) as [[? ?]|]; simpl; [|discriminate].
      destruct (rejects env verification_update_ballotToken); simpl; [discriminate|].
      destruct (rejects env (audit_write "OTP_VERIFIED_BALLOT_ISSUED")); simpl;
        discriminate.
    - destruct (rejects env (audit_write "OTP_VERIFICATION_FAILED")); simpl;
        [discriminate|].
      intros _. split; [unfold same_tables; simpl; tauto|].
      eexists. split; reflexivity. }
  destruct Hframe as [Hsame Hlog]. repeat split; try apply Hsame; [exact Hlog|].
  intros env' req'. apply (confirmOTP_same_tables env' req' db _ Hsame).
Qed.

Lemma confirmOTP_wrong_code_changes_nothing_witness :
  let env := Scenario.env_at 130000 "" "tokA" "" "b1" Scenario.all_delivered
                             Scenario.never in
  let wrong := Scenario.confirm "REG123" "000000" in
  let right := Scenario.confirm "REG123" "123456" in
  status (snd (confirmOTP env wrong (fst Scenario.requested1))) = 401
  /\ status (snd (confirmOTP env right
                    (fst (confirmOTP env wrong (fst Scenario.requested1))))) = 200.
Proof.
  intros env wrong right. split; [reflexivity|].
  destruct (confirmOTP_wrong_code_changes_nothing env wrong (fst Scenario.requested1))
    as (_ & _ & Hnext); [reflexivity|].
  rewrite Hnext. reflexivity.
Defined.

Lemma truthy_nonempty (s : string) : s <> EmptyString -> truthy (Some s) = Some s.
Proof. destruct s; [congruence | reflexivity]. Qed.

Lemma latest_snoc (rows : list Verification.t) (v : Verification.t) :
  (forall w, In w rows -> Verification.issuedAt w < Verification.issuedAt v) ->
  latest (rows ++ [v]) = Some v.
Proof.
  induction rows as [|x rows IH]; intros Hlt; simpl; [reflexivity|].
  rewrite IH by (intros w Hw; apply Hlt; now right).
  assert (Hx := Hlt x (or_introl eq_refl)).
  destruct (Verification.issuedAt v >? Verification.issuedAt x) eqn:E; [reflexivity|].
  rewrite Z.gtb_ltb in E. apply Z.ltb_ge in E. lia.
Qed.

(** What [requestOTP] leaves when it gets as far as storing the
    challenge. *)
Lemma requestOTP_issues (env : Env) (db : Store) (r : string) (voter : EligibleVoter.t) :
  (forall op, rejects env op = false) ->
  r <> EmptyString ->
  find_voter r db = Some voter ->
  EligibleVoter.status voter = EligibleVoter.ELIGIBLE ->
  truthy (EligibleVoter.email voter) <> None ->
  truthy (EligibleVoter.phone voter) <> None ->
  find_consumed_ballot (EligibleVoter.id voter) db = None ->
  findFirst_latest (recent_unverified (EligibleVoter.id voter) (clock env 0 - 120000)) db
  = None ->
  same_tables (prisma.with_verification (fun l => l ++ [issued_challenge env voter]) db)
              (fst (requestOTP env (mkRequestOTPBody (Some r)) db)).
Proof.
  intros Hok Hr Hvoter Helig Hemail Hphone Hnone Hrate.
  unfold requestOTP, handle, requestOTP_body.
  destruct r as [|a r']; [congruence|]. cbn [request_reg_no truthy].
  step_handler. rewrite ?Hok. simpl. rewrite Hvoter. simpl.
  unfold is_eligible. rewrite Helig. simpl. rewrite Hnone. simpl.
  change (2 * 60 * 1000) with 120000. rewrite Hrate. simpl.
  destruct (truthy (EligibleVoter.email voter)); [|congruence].
  destruct (truthy (EligibleVoter.phone voter)); [|congruence].
  simpl.
  match goal with
  | |- context [settle ?e ?st] => apply (settle_same_tables e st)
  end.
Qed.

(** X13. The code that [requestOTP] draws opens the door: for an eligible
    voter with both contacts on file, no CONSUMED ballot and no unverified
    challenge of the last two minutes, [requestOTP] followed, within five
    minutes, by [confirmOTP] with the code drawn is answered 200 with a
    fresh token, and one ACTIVE ballot of that voter is added.  (No call
    rejects, bcrypt accepts the code against its own hash, the database
    clock is not more than two minutes behind, and the token drawn is not
    in use.) *)
Theorem confirmOTP_accepts_the_issued_code :
  forall (env env' : Env) (db : Store) (r : string) (voter : EligibleVoter.t),
    (forall op, rejects env op = false) ->
    (forall op, rejects env' op = false) ->
    r <> EmptyString ->
    find_voter r db = Some voter ->
    EligibleVoter.status voter = EligibleVoter.ELIGIBLE ->
    truthy (EligibleVoter.email voter) <> None ->
    truthy (EligibleVoter.phone voter) <> None ->
    find_consumed_ballot (EligibleVoter.id voter) db = None ->
    findFirst_latest (recent_unverified (EligibleVoter.id voter) (clock env 0 - 120000))
                     db = None ->
    random_otp env <> EmptyString ->
    bcrypt_compare env' (random_otp env) (bcrypt_hash env (random_otp env)) = true ->
    clock env 0 - 120000 <= db_now env ->
    clock env' 0 <= clock env 1 + 300000 ->
    (forall b, In b (prisma.ballot db) -> Ballot.token b <> random_token env') ->
    let requested := fst (requestOTP env (mkRequestOTPBody (Some r)) db) in
    let confirmed :=
      confirmOTP env' (mkConfirmOTPBody (Some r) (Some (random_otp env))) requested in
    snd confirmed
    = json (VerifiedBody "Verification successful" (random_token env') (db_now env')
              "Use this token to cast your vote. It can only be used once.")
    /\ prisma.ballot (fst confirmed) = prisma.ballot db ++ [issued_ballot env' voter].
Proof.
  intros env env' db r voter Hok Hok' Hr Hvoter Helig Hemail Hphone Hnone Hrate Hcode
         Hbcrypt Hdbclock Hintime Hfresh requested confirmed.
  pose proof (requestOTP_issues env db r voter Hok Hr Hvoter Helig Hemail Hphone
                Hnone Hrate) as Hsame.
  fold requested in Hsame.
  set (stored := prisma.with_verification
                   (fun l => l ++ [issued_challenge env voter]) db) in *.
  destruct (confirmOTP_same_tables env'
              (mkConfirmOTPBody (Some r) (Some (random_otp env))) stored requested Hsame)
    as [Hanswer Htables].
  fold confirmed in Hanswer, Htables.
  assert (Hlocated : findFirst_latest
                       (unverified_unexpired (EligibleVoter.id voter) (clock env' 0))
                       stored = Some (issued_challenge env voter)).
  { unfold findFirst_latest, stored. simpl. rewrite filter_app. simpl.
    assert (Hnew : unverified_unexpired (EligibleVoter.id voter) (clock env' 0)
                     (issued_challenge env voter) = true).
    { apply unverified_unexpired_iff. simpl. repeat split; try reflexivity. lia. }
    rewrite Hnew. apply latest_snoc. intros w Hw. apply filter_In in Hw.
    destruct Hw as [Hin Hw]. apply unverified_unexpired_iff in Hw.
    destruct Hw as (Hmine & Hunverified & _ & _).
    unfold findFirst_latest in Hrate. apply latest_None in Hrate.
    pose proof (filter_nil_forall _ _ Hrate w Hin) as Hold.
    unfold recent_unverified, is_null in Hold.
    rewrite Hmine, String.eqb_refl, Hunverified in Hold. simpl in Hold.
    rewrite andb_true_r in Hold. rewrite Z.geb_leb in Hold. apply Z.leb_gt in Hold.
    simpl. lia. }
  assert (Hrun : snd (confirmOTP env'
                        (mkConfirmOTPBody (Some r) (Some (random_otp env))) stored)
                 = json (VerifiedBody "Verification successful" (random_token env')
                           (db_now env')
                           "Use this token to cast your vote. It can only be used once.")
                 /\ prisma.ballot
                      (fst (confirmOTP env'
                              (mkConfirmOTPBody (Some r) (Some (random_otp env))) stored))
                    = prisma.ballot db ++ [issued_ballot env' voter]).
  { unfold confirmOTP, handle, confirmOTP_body. cbn [reg_no otp].
    rewrite (truthy_nonempty r Hr), (truthy_nonempty _ Hcode).
    step_handler. rewrite ?Hok'. simpl.
    change (find_voter r stored) with (find_voter r db).
    rewrite Hvoter. simpl. rewrite Hlocated. simpl.
    rewrite Hbcrypt. simpl.
    change (find_consumed_ballot (EligibleVoter.id voter) stored)
      with (find_consumed_ballot (EligibleVoter.id voter) db).
    rewrite Hnone. simpl.
    unfold ballot_create_row. simpl.
    rewrite (fresh_token_not_found _ _ Hfresh). simpl.
    split; reflexivity. }
  destruct Hrun as [Hr1 Hr2]. split.
  - rewrite Hanswer. exact Hr1.
  - destruct Htables as (_ & _ & Hb & _). rewrite Hb. exact Hr2.
Qed.

Lemma confirmOTP_accepts_the_issued_code_witness :
  let env := Scenario.env_at 100000 "123456" "" "ver1" "" Scenario.all_delivered
                             Scenario.never in
  let env' := Scenario.env_at 130000 "" "tokA" "" "b1" Scenario.all_delivered
                              Scenario.never in
  status (snd (confirmOTP env' (mkConfirmOTPBody (Some "REG123") (Some (random_otp env)))
                 (fst (requestOTP env (mkRequestOTPBody (Some "REG123")) Scenario.db0))))
  = 200.
Proof.
  intros env env'.
  destruct (confirmOTP_accepts_the_issued_code env env' Scenario.db0 "REG123"
              (EligibleVoter.mk "v1" "REG123" "Ann" EligibleVoter.ELIGIBLE
                 (Some "ann@example.org") (Some "+256700000001")))
    as [Hanswer _].
  - intros op. reflexivity.
  - intros op. reflexivity.
  - discriminate.
  - reflexivity.
  - reflexivity.
  - discriminate.
  - discriminate.
  - reflexivity.
  - reflexivity.
  - discriminate.
  - reflexivity.
  - vm_compute. discriminate.
  - vm_compute. discriminate.
  - intros b [].
  - rewrite Hanswer. reflexivity.
Defined.


(** What a successful [confirmOTP] found and did. *)
Lemma confirmOTP_commit_effect (env : Env) (req : ConfirmOTPBody) (db : Store) :
  status (snd (confirmOTP env req db)) = 200 ->
  exists r code voter challenge,
    truthy (reg_no req) = Some r
    /\ truthy (otp req) = Some code
    /\ find_voter r db = Some voter
    /\ findFirst_latest (unverified_unexpired (EligibleVoter.id voter) (clock env 0)) db
       = Some challenge
    /\ bcrypt_compare env code (Verification.otpHash challenge) = true
    /\ find_consumed_ballot (EligibleVoter.id voter) db = None
    /\ snd (confirmOTP env req db)
       = json (VerifiedBody "Verification successful" (random_token env) (db_now env)
                 "Use this token to cast your vote. It can only be used once.")
    /\ prisma.ballot (fst (confirmOTP env req db))
       = prisma.ballot db ++ [issued_ballot env voter]
    /\ prisma.verification (fst (confirmOTP env req db))
       = map (fun v => if String.eqb (Verification.id v) (Verification.id challenge)
                       then Verification.set_ballotToken (random_token env)
                              (Verification.set_verifiedAt (clock env 1) v)
                       else v)
             (prisma.verification db)
    /\ prisma.eligibleVoter (fst (confirmOTP env req db)) = prisma.eligibleVoter db
    /\ prisma.vote (fst (confirmOTP env req db)) = prisma.vote db
    /\ prisma.position (fst (confirmOTP env req db)) = prisma.position db
    /\ prisma.candidate (fst (confirmOTP env req db)) = prisma.candidate db.
Proof.
  unfold confirmOTP, handle, confirmOTP_body.
  destruct (truthy (reg_no req)) as [r|]; [|discriminate].
  destruct (truthy (otp req)) as [code|]; [|discriminate].
  step_handler.
  destruct (rejects env eligibleVoter_findUnique); simpl; [discriminate|].
  destruct (find_voter r db) as [voter|] eqn:Hvoter; simpl; [|discriminate].
  destruct (rejects env verification_findFirst); simpl; [discriminate|].
  destruct (findFirst_latest _ db) as [ch|] eqn:Hch; simpl; [|discriminate].
  destruct (rejects env bcrypt_compare_call); simpl; [discriminate|].
  destruct (bcrypt_compare env code (Verification.otpHash ch)) eqn:Hcode; simpl.
  2:{ destruct (rejects env (audit_write "OTP_VERIFICATION_FAILED")); simpl;
        discriminate. }
  destruct (rejects env ballot_findFirst); simpl; [discriminate|].
  destruct (find_consumed_ballot _ db) eqn:Hnone; simpl; [discriminate|].
  destruct (rejects env verification_update_verifiedAt); simpl; [discriminate|].
  destruct (rejects env ballot_create); simpl; [discriminate|].
  unfold ballot_create_row. simpl.
  destruct (existsb _ (prisma.ballot db)); simpl; [discriminate|].
  destruct (rejects env verification_update_ballotToken); simpl; [discriminate|].
  destruct (rejects env (audit_write "OTP_VERIFIED_BALLOT_ISSUED")); simpl;
    [discriminate|].
  intros _. exists r, code, voter, ch. repeat split; try reflexivity; try assumption.
  rewrite map_map. apply map_ext. intros v. simpl.
  destruct (String.eqb (Verification.id v) (Verification.id ch)) eqn:E; simpl;
    rewrite E; reflexivity.
Qed.

(** X14. [confirmOTP] answers 200 only when the registration number names
    a voter, the most recent challenge of that voter that is unverified,
    unconsumed and unexpired exists and bcrypt accepts the code against its
    hash, and the voter has no CONSUMED ballot.  Then the answer carries the
    token drawn, exactly one ballot is added, ACTIVE, of that voter and with
    that token, the challenge is marked verified and records the token, and
    voters, votes, positions and candidates are untouched. *)
Theorem confirmOTP_success_effect :
  forall (env : Env) (req : ConfirmOTPBody) (db : Store),
    status (snd (confirmOTP env req db)) = 200 ->
    exists r code voter challenge,
      truthy (reg_no req) = Some r
      /\ truthy (otp req) = Some code
      /\ find_voter r db = Some voter
      /\ findFirst_latest (unverified_unexpired (EligibleVoter.id voter) (clock env 0)) db
         = Some challenge
      /\ bcrypt_compare env code (Verification.otpHash challenge) = true
      /\ find_consumed_ballot (EligibleVoter.id voter) db = None
      /\ snd (confirmOTP env req db)
         = json (VerifiedBody "Verification successful" (random_token env) (db_now env)
                   "Use this token to cast your vote. It can only be used once.")
      /\ prisma.ballot (fst (confirmOTP env req db))
         = prisma.ballot db ++ [issued_ballot env voter]
      /\ prisma.verification (fst (confirmOTP env req db))
         = map (fun v => if String.eqb (Verification.id v) (Verification.id challenge)
                         then Verification.set_ballotToken (random_token env)
                                (Verification.set_verifiedAt (clock env 1) v)
                         else v)
               (prisma.verification db)
      /\ prisma.eligibleVoter (fst (confirmOTP env req db)) = prisma.eligibleVoter db
      /\ prisma.vote (fst (confirmOTP env req db)) = prisma.vote db
      /\ prisma.position (fst (confirmOTP env req db)) = prisma.position db
      /\ prisma.candidate (fst (confirmOTP env req db)) = prisma.candidate db.
Proof. intros env req db. apply confirmOTP_commit_effect. Qed.

Lemma confirmOTP_success_effect_witness :
  exists voter,
    status (snd Scenario.issued1) = 200
    /\ prisma.ballot (fst Scenario.issued1)
       = prisma.ballot (fst Scenario.requested1)
         ++ [issued_ballot (Scenario.env_at 130000 "" "tokA" "" "b1"
                              Scenario.all_delivered Scenario.never) voter].
Proof.
  destruct (confirmOTP_success_effect
              (Scenario.env_at 130000 "" "tokA" "" "b1" Scenario.all_delivered
                               Scenario.never)
              (Scenario.confirm "reg123" "123456") (fst Scenario.requested1))
    as (r & code & voter & ch & _ & _ & _ & _ & _ & _ & _ & Hballots & _);
    [reflexivity|].
  exists voter. split; [reflexivity | exact Hballots].
Defined.

(** X15. The challenge that opened a ballot does not open another: once
    [confirmOTP] has answered 200 for a voter who had a single challenge
    that was unverified, unconsumed and unexpired, a later [confirmOTP] for
    that registration number, with whatever code, is answered 400 "No valid
    OTP found" and changes nothing, on the store the first left and on any
    later store in which the voter is still in the roster and every
    unverified challenge of the voter was there already when the first
    [confirmOTP] finished, for instance once the vote has been cast.  (The
    two lookups of the later request resolve.) *)
Theorem confirmOTP_challenge_single_use :
  forall (env env' : Env) (req req' : ConfirmOTPBody) (db later : Store) (r : string)
         (voter : EligibleVoter.t),
    status (snd (confirmOTP env req db)) = 200 ->
    truthy (reg_no req) = Some r ->
    find_voter r db = Some voter ->
    (forall c c', In c (prisma.verification db) -> In c' (prisma.verification db) ->
       unverified_unexpired (EligibleVoter.id voter) (clock env 0) c = true ->
       unverified_unexpired (EligibleVoter.id voter) (clock env 0) c' = true ->
       Verification.id c = Verification.id c') ->
    find_voter r later = Some voter ->
    (forall c, In c (prisma.verification later) ->
       Verification.voterId c = EligibleVoter.id voter ->
       Verification.verifiedAt c = None ->
       In c (prisma.verification (fst (confirmOTP env req db)))) ->
    clock env 0 <= clock env' 0 ->
    truthy (reg_no req') = Some r ->
    truthy (otp req') <> None ->
    rejects env' eligibleVoter_findUnique = false ->
    rejects env' verification_findFirst = false ->
    confirmOTP env' req' (fst (confirmOTP env req db))
    = (fst (confirmOTP env req db),
       status_json 400 (ErrorBody "No valid OTP found" (Some "Request a new OTP")))
    /\ confirmOTP env' req' later
       = (later,
          status_json 400 (ErrorBody "No valid OTP found" (Some "Request a new OTP"))).
Proof.
  intros env env' req req' db later r voter H200 Hreg Hvoter Hsingle Hvoter' Hold
         Hlater Hreg' Hotp' Hr1 Hr2.
  destruct (confirmOTP_commit_effect env req db H200)
    as (r0 & code & voter0 & ch & Hreg0 & _ & Hvoter0 & Hch & _ & _ & _ & _ & Hver
        & Hvoters & _).
  rewrite Hreg in Hreg0. injection Hreg0 as <-.
  rewrite Hvoter in Hvoter0. injection Hvoter0 as <-.
  set (after := fst (confirmOTP env req db)) in *.
  assert (Hv' : find_voter r after = Some voter)
    by (unfold find_voter in *; now rewrite Hvoters).
  assert (Hspent : forall x, In x (prisma.verification after) ->
            unverified_unexpired (EligibleVoter.id voter) (clock env' 0) x = false).
  { rewrite Hver. intros x Hx. apply in_map_iff in Hx. destruct Hx as [y [<- Hy]].
    apply located_challenge_is_valid in Hch.
    destruct Hch as (Hin & Hmine & Hver0 & Hcons0 & Hexp0).
    destruct (String.eqb (Verification.id y) (Verification.id ch)) eqn:E.
    - unfold unverified_unexpired. simpl. now rewrite andb_false_r.
    - destruct (unverified_unexpired (EligibleVoter.id voter) (clock env' 0) y) eqn:Ey;
        [|reflexivity].
      exfalso. apply String.eqb_neq in E. apply E.
      apply Hsingle; try assumption.
      + apply unverified_unexpired_iff in Ey. apply unverified_unexpired_iff.
        intuition lia.
      + apply unverified_unexpired_iff. auto. }
  assert (Hanswer : forall store,
            find_voter r store = Some voter ->
            (forall x, In x (prisma.verification store) ->
               unverified_unexpired (EligibleVoter.id voter) (clock env' 0) x = false) ->
            confirmOTP env' req' store
            = (store, status_json 400
                        (ErrorBody "No valid OTP found" (Some "Request a new OTP")))).
  { intros store Hfound Hnone.
    unfold confirmOTP, handle, confirmOTP_body. rewrite Hreg'.
    destruct (truthy (otp req')) as [code'|]; [|congruence].
    step_handler. rewrite Hr1, Hfound. simpl. rewrite Hr2.
    unfold findFirst_latest. rewrite (forall_filter_nil _ _ Hnone). reflexivity. }
  split; [exact (Hanswer after Hv' Hspent)|].
  apply (Hanswer later Hvoter').
  intros x Hx.
  destruct (unverified_unexpired (EligibleVoter.id voter) (clock env' 0) x) eqn:Ex;
    [|reflexivity].
  assert (Hin : In x (prisma.verification after)).
  { apply unverified_unexpired_iff in Ex. apply Hold; tauto. }
  rewrite (Hspent x Hin) in Ex. discriminate.
Qed.

Lemma confirmOTP_challenge_single_use_witness :
  let env := Scenario.env_at 130000 "" "tokA" "" "b1" Scenario.all_delivered
                             Scenario.never in
  let env' := Scenario.env_at 240000 "" "tokC" "" "b3" Scenario.all_delivered
                              Scenario.never in
  let voted := fst (castVote (Scenario.env_at 220000 "" "" "" "" Scenario.all_delivered
                                              Scenario.never)
                             (Scenario.cast "tokA" [mkSelection "P1" "C1"])
                             (fst Scenario.issued1)) in
  status (snd Scenario.issued1) = 200
  /\ snd (confirmOTP env' (Scenario.confirm "reg123" "123456") (fst Scenario.issued1))
     = status_json 400 (ErrorBody "No valid OTP found" (Some "Request a new OTP"))
  /\ snd (confirmOTP env' (Scenario.confirm "reg123" "123456") voted)
     = status_json 400 (ErrorBody "No valid OTP found" (Some "Request a new OTP")).
Proof.
  intros env env' voted. split; [reflexivity|].
  change (fst Scenario.issued1)
    with (fst (confirmOTP env (Scenario.confirm "reg123" "123456")
                 (fst Scenario.requested1))).
  destruct (confirmOTP_challenge_single_use env env' (Scenario.confirm "reg123" "123456")
              (Scenario.confirm "reg123" "123456") (fst Scenario.requested1) voted
              "reg123"
              (EligibleVoter.mk "v1" "REG123" "Ann" EligibleVoter.ELIGIBLE
                 (Some "ann@example.org") (Some "+256700000001"))) as [H1 H2].
  - reflexivity.
  - reflexivity.
  - reflexivity.
  - intros c c' [<- | []] [<- | []] _ _. reflexivity.
  - reflexivity.
  - intros c Hin _ _. exact Hin.
  - vm_compute. discriminate.
  - reflexivity.
  - discriminate.
  - reflexivity.
  - reflexivity.
  - rewrite H1, H2. split; reflexivity.
Defined.

(** ** After the vote *)

Lemma consumed_ballot_found (voterId : Id) (db : Store) (b : Ballot.t) :
  In b (prisma.ballot db) -> Ballot.voterId b = voterId ->
  Ballot.is_consumed b = true ->
  exists b', find_consumed_ballot voterId db = Some b'.
Proof.
  intros Hin Hv Hc. unfold find_consumed_ballot.
  destruct (find _ (prisma.ballot db)) as [b'|] eqn:E; [eauto|].
  apply find_none with (x := b) in E; [|assumption].
  rewrite Hv, String.eqb_refl, Hc in E. discriminate.
Qed.

(** With a CONSUMED ballot on record [confirmOTP] creates no ballot. *)
Lemma confirmOTP_refuses_voted (env : Env) (req : ConfirmOTPBody) (db : Store)
    (r : string) (voter : EligibleVoter.t) (b : Ballot.t) :
  truthy (reg_no req) = Some r ->
  find_voter r db = Some voter ->
  find_consumed_ballot (EligibleVoter.id voter) db = Some b ->
  status (snd (confirmOTP env req db)) <> 200
  /\ prisma.ballot (fst (confirmOTP env req db)) = prisma.ballot db
  /\ prisma.verification (fst (confirmOTP env req db)) = prisma.verification db.
Proof.
  intros Hreg Hvoter Hb. unfold confirmOTP, handle, confirmOTP_body. rewrite Hreg.
  destruct (truthy (otp req)) as [code|]; [|simpl; repeat split; discriminate].
  step_handler.
  destruct (rejects env eligibleVoter_findUnique); simpl;
    [repeat split; discriminate|].
  rewrite Hvoter. simpl.
  destruct (rejects env verification_findFirst); simpl; [repeat split; discriminate|].
  destruct (findFirst_latest _ db) as [ch|]; simpl; [|repeat split; discriminate].
  destruct (rejects env bcrypt_compare_call); simpl; [repeat split; discriminate|].
  destruct (bcrypt_compare env code (Verification.otpHash ch)); simpl.
  2:{ destruct (rejects env (audit_write "OTP_VERIFICATION_FAILED")); simpl;
        repeat split; discriminate. }
  destruct (rejects env ballot_findFirst); simpl; [repeat split; discriminate|].
  rewrite Hb. simpl. repeat split; discriminate.
Qed.

(** X16. Voting closes the door behind the voter: once [castVote] has
    answered 200 for a ballot of a voter, [requestOTP] for that voter (found
    eligible, the lookups resolving) is answered 400 "You have already
    voted. Ballot already used." and stores nothing, and [confirmOTP] for
    that voter is never answered 200 and creates no ballot, even with the
    right code for a challenge that is still valid. *)
Theorem voted_voter_gets_no_new_ballot :
  forall (now_of : Time -> Time) (env0 env env' : Env) (cast : CastVoteBody)
         (req : RequestOTPBody) (req' : ConfirmOTPBody) (db : Store)
         (tok r : string) (b : Ballot.t) (owner : option EligibleVoter.t)
         (voter : EligibleVoter.t),
    status (snd (castVote_with now_of env0 cast db)) = 200 ->
    truthy (token cast) = Some tok ->
    find_ballot_with_voter tok db = Some (b, owner) ->
    Ballot.voterId b = EligibleVoter.id voter ->
    find_voter r db = Some voter ->
    let voted := fst (castVote_with now_of env0 cast db) in
    (truthy (request_reg_no req) = Some r ->
     EligibleVoter.status voter = EligibleVoter.ELIGIBLE ->
     rejects env eligibleVoter_findUnique = false ->
     rejects env ballot_findFirst = false ->
     requestOTP env req voted
     = (voted, status_json 400
                 (ErrorBody "You have already voted. Ballot already used."
                            (Some "Each voter can only vote once"))))
    /\ (truthy (reg_no req') = Some r ->
        status (snd (confirmOTP env' req' voted)) <> 200
        /\ prisma.ballot (fst (confirmOTP env' req' voted)) = prisma.ballot voted).
Proof.
  intros now_of env0 env env' cast req req' db tok r b owner voter H200 Htok Hfind
         Hmine Hvoter voted.
  destruct (castVote_commit_effect now_of env0 cast db H200)
    as (tok0 & vs & b0 & voter0 & Htok0 & _ & Hfind0 & _ & _ & _ & Hballots & Hvoters & _).
  rewrite Htok in Htok0. injection Htok0 as <-.
  rewrite Hfind in Hfind0. injection Hfind0 as <- ->.
  fold voted in Hballots, Hvoters.
  assert (Hv' : find_voter r voted = Some voter)
    by (unfold find_voter in *; now rewrite Hvoters).
  destruct (find_ballot_with_voter_In tok db b _ Hfind) as [Hin _].
  destruct (consumed_ballot_found (EligibleVoter.id voter) voted
              (Ballot.consume (clock env0 1) b)) as [b' Hb'].
  { rewrite Hballots. apply in_map_iff. exists b. split; [|assumption].
    now rewrite String.eqb_refl. }
  { exact Hmine. }
  { reflexivity. }
  split.
  - intros Hreg Helig Hr1 Hr2.
    unfold requestOTP, handle, requestOTP_body. rewrite Hreg.
    step_handler. rewrite Hr1, Hv'. simpl.
    unfold is_eligible. rewrite Helig. simpl. rewrite Hr2, Hb'. reflexivity.
  - intros Hreg'.
    destruct (confirmOTP_refuses_voted env' req' voted r voter b' Hreg' Hv' Hb')
      as (H1 & H2 & _). split; assumption.
Qed.

Lemma voted_voter_gets_no_new_ballot_witness :
  let env := Scenario.env_at 300000 "777777" "" "ver9" "" Scenario.all_delivered
                             Scenario.never in
  status (snd Scenario.cast1) = 200
  /\ snd (requestOTP env (Scenario.request "REG123") (fst Scenario.cast1))
     = status_json 400 (ErrorBody "You have already voted. Ballot already used."
                                  (Some "Each voter can only vote once")).
Proof.
  intros env. split; [reflexivity|].
  destruct (voted_voter_gets_no_new_ballot (fun t => t)
              (Scenario.env_at 220000 "" "" "" "" Scenario.all_delivered Scenario.never)
              env env (Scenario.cast "tokA" [mkSelection "P1" "C1"])
              (Scenario.request "REG123") (Scenario.confirm "REG123" "654321")
              (fst Scenario.issued2) "tokA" "REG123"
              (Ballot.mk "b1" "v1" "tokA" Ballot.ACTIVE 130000 None)
              (Some (EligibleVoter.mk "v1" "REG123" "Ann" EligibleVoter.ELIGIBLE
                       (Some "ann@example.org") (Some "+256700000001")))
              (EligibleVoter.mk "v1" "REG123" "Ann" EligibleVoter.ELIGIBLE
                 (Some "ann@example.org") (Some "+256700000001")))
    as [Hrequest _].
  - reflexivity.
  - reflexivity.
  - reflexivity.
  - reflexivity.
  - reflexivity.
  - change (fst Scenario.cast1)
      with (fst (castVote_with (fun t => t)
                   (Scenario.env_at 220000 "" "" "" "" Scenario.all_delivered
                                    Scenario.never)
                   (Scenario.cast "tokA" [mkSelection "P1" "C1"])
                   (fst Scenario.issued2))).
    rewrite Hrequest; reflexivity.
Defined.

(** X17. [confirmOTP] marks the challenge verified before it creates the
    ballot, in two separate writes: when the creation of the ballot fails,
    because the call rejects or because the token drawn is already the token
    of a ballot, the answer is 500, no ballot exists, and the challenge is
    verified all the same, so that it cannot be confirmed again. *)
Theorem confirmOTP_challenge_spent_without_ballot :
  forall (env : Env) (req : ConfirmOTPBody) (db : Store) (r code : string)
         (voter : EligibleVoter.t) (challenge : Verification.t),
    rejects env eligibleVoter_findUnique = false ->
    rejects env verification_findFirst = false ->
    rejects env bcrypt_compare_call = false ->
    rejects env ballot_findFirst = false ->
    rejects env verification_update_verifiedAt = false ->
    truthy (reg_no req) = Some r ->
    truthy (otp req) = Some code ->
    find_voter r db = Some voter ->
    findFirst_latest (unverified_unexpired (EligibleVoter.id voter) (clock env 0)) db
    = Some challenge ->
    bcrypt_compare env code (Verification.otpHash challenge) = true ->
    find_consumed_ballot (EligibleVoter.id voter) db = None ->
    rejects env ballot_create = true
    \/ (exists b, In b (prisma.ballot db) /\ Ballot.token b = random_token env) ->
    snd (confirmOTP env req db) = status_json 500 (ErrorBody "Failed to verify OTP" None)
    /\ prisma.ballot (fst (confirmOTP env req db)) = prisma.ballot db
    /\ prisma.verification (fst (confirmOTP env req db))
       = map (fun v => if String.eqb (Verification.id v) (Verification.id challenge)
                       then Verification.set_verifiedAt (clock env 1) v else v)
             (prisma.verification db)
    /\ exists spent,
         In spent (prisma.verification (fst (confirmOTP env req db)))
         /\ Verification.id spent = Verification.id challenge
         /\ Verification.verifiedAt spent = Some (clock env 1).
Proof.
  intros env req db r code voter ch Hr1 Hr2 Hr3 Hr4 Hr5 Hreg Hotp Hvoter Hch Hcode
         Hnone Hfail.
  assert (Hrun : snd (confirmOTP env req db)
                 = status_json 500 (ErrorBody "Failed to verify OTP" None)
                 /\ prisma.ballot (fst (confirmOTP env req db)) = prisma.ballot db
                 /\ prisma.verification (fst (confirmOTP env req db))
                    = map (fun v => if String.eqb (Verification.id v) (Verification.id ch)
                                    then Verification.set_verifiedAt (clock env 1) v
                                    else v)
                          (prisma.verification db)).
  { unfold confirmOTP, handle, confirmOTP_body. rewrite Hreg, Hotp.
    step_handler. rewrite Hr1, Hvoter. simpl. rewrite Hr2, Hch. simpl.
    rewrite Hr3, Hcode. simpl. rewrite Hr4, Hnone. simpl. rewrite Hr5. simpl.
    destruct (rejects env ballot_create) eqn:Hcreate; simpl; [repeat split|].
    destruct Hfail as [Hf | (b & Hb & Htoken)]; [discriminate|].
    unfold ballot_create_row. simpl.
    assert (Hexists : existsb (fun b' => String.eqb (Ballot.token b') (random_token env))
                              (prisma.ballot db) = true).
    { apply existsb_exists. exists b. split; [assumption|]. now apply String.eqb_eq. }
    rewrite Hexists. simpl. repeat split. }
  destruct Hrun as (Ha & Hb & Hv). repeat split; try assumption.
  apply located_challenge_is_valid in Hch. destruct Hch as (Hin & _).
  exists (Verification.set_verifiedAt (clock env 1) ch). rewrite Hv. split.
  - apply in_map_iff. exists ch. split; [|assumption]. now rewrite String.eqb_refl.
  - split; reflexivity.
Qed.

Lemma confirmOTP_challenge_spent_without_ballot_witness :
  let env := Scenario.env_at 190000 "" "tokA" "" "b2" Scenario.all_delivered
                             Scenario.never in
  map Ballot.token (prisma.ballot (fst Scenario.requested2)) = [random_token env]
  /\ snd (confirmOTP env (Scenario.confirm "REG123" "654321") (fst Scenario.requested2))
     = status_json 500 (ErrorBody "Failed to verify OTP" None).
Proof.
  intros env. split; [reflexivity|].
  destruct (confirmOTP_challenge_spent_without_ballot env
              (Scenario.confirm "REG123" "654321") (fst Scenario.requested2)
              "REG123" "654321"
              (EligibleVoter.mk "v1" "REG123" "Ann" EligibleVoter.ELIGIBLE
                 (Some "ann@example.org") (Some "+256700000001"))
              (Verification.mk "ver2" "v1" "both" "$2a$10$654321" 160000 460000
                 None None None))
    as [Hanswer _].
  - reflexivity.
  - reflexivity.
  - reflexivity.
  - reflexivity.
  - reflexivity.
  - reflexivity.
  - reflexivity.
  - reflexivity.
  - reflexivity.
  - reflexivity.
  - reflexivity.
  - right. eexists. split; [simpl; left; reflexivity | reflexivity].
  - exact Hanswer.
Defined.

(** ** Registration numbers *)






(** Beyond ASCII: an accented letter, a letter whose uppercase is two
    letters, a letter whose uppercase is an ASCII letter. *)
Lemma toUpperCase_beyond_ascii :
  toUpperCase "é1" = "É1"
  /\ toUpperCase "straße" = "STRASSE"
  /\ toUpperCase "ſ1" = "S1".
Proof. vm_compute. repeat split. Qed.










(** ** The positions controller *)

Lemma includes_char_append (c : ascii) (s t : string) :
  includes_char c (String.append s t) = includes_char c s || includes_char c t.
Proof.
  induction s as [|a s IH]; simpl; [reflexivity|].
  rewrite IH. now rewrite orb_assoc.
Qed.

(** X18.  [parseDate] of the positions controller hands the empty string to
    [new Date] as it is; for every other string, the string it hands to
    [new Date] contains a [Z] or ends with a numeric offset.  Normalising a
    second time changes nothing. *)
Theorem parseDate_argument_always_zoned (dateString : string) :
  match dateString with
  | EmptyString => parseDate_argument dateString = EmptyString
  | String _ _ => has_zone (parseDate_argument dateString) = true
  end
  /\ parseDate_argument (parseDate_argument dateString)
     = parseDate_argument dateString.
Proof.
  destruct dateString as [|a s]; [split; reflexivity|].
  set (d := String a s).
  assert (Hstep : parseDate_argument d
                  = if negb (includes_char "Z" d) && negb (matches_offset_suffix d)
                    then if includes_char ":" d && Nat.eqb (S (count_char ":" d)) 2
                         then String.append d ":00Z"
                         else String.append d "Z"
                    else d) by reflexivity.
  clearbody d.
  assert (Hz : has_zone (parseDate_argument d) = true).
  { rewrite Hstep. unfold has_zone.
    destruct (includes_char "Z" d) eqn:HZ; simpl.
    - now rewrite HZ.
    - destruct (matches_offset_suffix d) eqn:HM; simpl.
      + now rewrite HM, orb_true_r.
      + destruct (includes_char ":" d && _)%bool;
          rewrite includes_char_append; simpl; now rewrite orb_true_r. }
  split; [exact Hz|].
  destruct (parseDate_argument d) as [|a' s'] eqn:E; [reflexivity|].
  unfold has_zone in Hz. unfold parseDate_argument.
  apply orb_true_iff in Hz as [Hz|Hz]; rewrite Hz; simpl; [reflexivity|].
  now rewrite andb_false_r.
Qed.

(** What [createPosition] does to the store, case by case. *)
Lemma createPosition_effect
    (env : AdminEnv) (user : option User) (body : PositionBody) (db : AdminStore) :
  let r := createPosition env user body db in
  admin_candidate (fst r) = admin_candidate db
  /\ admin_vote (fst r) = admin_vote db
  /\ ((admin_position (fst r) = admin_position db /\ 400 <= admin_status (snd r))
      \/ exists row u,
           admin_position (fst r) = admin_position db ++ [row]
           /\ windows_ordered row
           /\ PositionRow.id row = new_position_id env
           /\ user = Some u /\ role u = "ADMIN"
           /\ (snd r = PositionSaved 201 "Position created successfully" row
               \/ snd r = create_failed)).
Proof.
  unfold createPosition.
  destruct user as [u|]; [|simpl; repeat split; left; split; [reflexivity|lia]].
  destruct (String.eqb (role u) "ADMIN") eqn:Hrole; simpl negb; cbv iota;
    [|simpl; repeat split; left; split; [reflexivity|lia]].
  apply String.eqb_eq in Hrole.
  destruct (truthy (body_name body)) as [name|];
    [|simpl; repeat split; left; split; [reflexivity|lia]].
  destruct (truthy_seats (body_seats body)) as [seats|];
    [|simpl; repeat split; left; split; [reflexivity|lia]].
  destruct (truthy (body_nominationOpens body)) as [no|];
    [|simpl; repeat split; left; split; [reflexivity|lia]].
  destruct (truthy (body_nominationCloses body)) as [nc|];
    [|simpl; repeat split; left; split; [reflexivity|lia]].
  destruct (truthy (body_votingOpens body)) as [vo|];
    [|simpl; repeat split; left; split; [reflexivity|lia]].
  destruct (truthy (body_votingCloses body)) as [vc|];
    [|simpl; repeat split; left; split; [reflexivity|lia]].
  cbv zeta.
  destruct (date_le (parseDate env nc) (parseDate env no)) eqn:H1;
    [simpl; repeat split; left; split; [reflexivity|lia]|].
  destruct (date_le (parseDate env vc) (parseDate env vo)) eqn:H2;
    [simpl; repeat split; left; split; [reflexivity|lia]|].
  destruct (date_lt (parseDate env vo) (parseDate env nc)) eqn:H3;
    [simpl; repeat split; left; split; [reflexivity|lia]|].
  destruct (admin_rejects env position_create);
    [simpl; repeat split; left; split; [reflexivity|lia]|].
  destruct (parseInt env seats) as [n|];
    [|simpl; repeat split; left; split; [reflexivity|lia]].
  destruct (parseDate env no) as [a|];
    [|simpl; repeat split; left; split; [reflexivity|lia]].
  destruct (parseDate env nc) as [b|];
    [|simpl; repeat split; left; split; [reflexivity|lia]].
  destruct (parseDate env vo) as [c|];
    [|simpl; repeat split; left; split; [reflexivity|lia]].
  destruct (parseDate env vc) as [d|];
    [|simpl; repeat split; left; split; [reflexivity|lia]].
  simpl in H1, H2, H3.
  apply Z.leb_gt in H1, H2. apply Z.ltb_ge in H3.
  destruct (admin_rejects env (admin_audit "CREATE_POSITION")); simpl;
    (split; [reflexivity|]; split; [reflexivity|]; right;
     eexists; exists u; split; [reflexivity|];
     split; [unfold windows_ordered; simpl; lia|];
     split; [reflexivity|]; split; [reflexivity|]; split; [exact Hrole|]);
    [right|left]; reflexivity.
Qed.

(** X19.  [createPosition] never touches candidates or votes, and as far as
    positions go it either leaves the table as it was, or appends one row
    whose four instants are in order (nomination opens before it closes,
    voting opens no earlier than nomination closes and before voting
    closes), and this only for a user whose role is ADMIN. *)
Theorem createPosition_stores_ordered_windows
    (env : AdminEnv) (user : option User) (body : PositionBody) (db : AdminStore) :
  let r := createPosition env user body db in
  admin_candidate (fst r) = admin_candidate db
  /\ admin_vote (fst r) = admin_vote db
  /\ ((admin_position (fst r) = admin_position db /\ 400 <= admin_status (snd r))
      \/ exists row u,
           admin_position (fst r) = admin_position db ++ [row]
           /\ windows_ordered row
           /\ PositionRow.id row = new_position_id env
           /\ user = Some u /\ role u = "ADMIN"
           /\ (snd r = PositionSaved 201 "Position created successfully" row
               \/ snd r = create_failed)).
Proof. exact (createPosition_effect env user body db). Qed.

Lemma find_position_In (id : Id) (db : AdminStore) (p : PositionRow.t) :
  find_position id db = Some p ->
  In p (admin_position db) /\ PositionRow.id p = id.
Proof.
  unfold find_position. intros H. apply find_some in H as [Hin Heq].
  split; [exact Hin|]. now apply String.eqb_eq.
Qed.

Lemma updated_row_id (env : AdminEnv) (body : PositionBody) (p row : PositionRow.t) :
  updated_row env body p = Some row -> PositionRow.id row = PositionRow.id p.
Proof.
  unfold updated_row. intros H.
  repeat match type of H with
         | match ?x with _ => _ end = _ => destruct x; try discriminate
         end.
  all: injection H as <-; reflexivity.
Qed.

(** X20.  [updatePosition] compares the two ends of the voting window only
    when the request carries both.  A request that carries [votingCloses]
    without [votingOpens] is granted with 200 and the instant is stored even
    when it is not after the stored [votingOpens]: the row then no longer has
    its instants in order. *)
Theorem updatePosition_accepts_close_before_open
    (env : AdminEnv) (u : User) (id : Id) (body : PositionBody) (db : AdminStore)
    (existing row : PositionRow.t) (s : string) (d : Time) :
  (forall op, admin_rejects env op = false) ->
  find_position id db = Some existing ->
  truthy (body_nominationCloses body) = None ->
  truthy (body_votingOpens body) = None ->
  truthy (body_votingCloses body) = Some s ->
  parseDate env s = Some d ->
  updated_row env body existing = Some row ->
  d <= PositionRow.votingOpens existing ->
  let r := updatePosition env (Some u) id body db in
  snd r = PositionSaved 200 "Position updated successfully" row
  /\ In row (admin_position (fst r))
  /\ PositionRow.votingOpens row = PositionRow.votingOpens existing
  /\ PositionRow.votingCloses row = d
  /\ ~ windows_ordered row.
Proof.
  intros Hrej Hfind Hnc Hvo Hvc Hd Hrow Hle.
  assert (Hfields : PositionRow.votingOpens row = PositionRow.votingOpens existing
                    /\ PositionRow.votingCloses row = d).
  { revert Hrow. unfold updated_row. rewrite Hvo, Hvc, Hd.
    intros H.
    repeat match type of H with
           | match ?x with _ => _ end = _ => destruct x; try discriminate
           end.
    all: injection H as <-; split; reflexivity. }
  destruct Hfields as [Hopen Hclose].
  unfold updatePosition. rewrite !Hrej, Hfind, Hnc, Hvo, Hrow.
  assert (Hnom : match truthy (body_nominationOpens body), @None string with
                 | Some nominationOpens, Some nominationCloses =>
                     date_le (parseDate env nominationCloses) (parseDate env nominationOpens)
                 | _, _ => false
                 end = false) by (destruct (truthy (body_nominationOpens body)); reflexivity).
  rewrite Hnom. simpl.
  split; [reflexivity|]. split; [|split; [exact Hopen|split; [exact Hclose|]]].
  - apply find_position_In in Hfind as [Hin Hid].
    apply in_map_iff. exists existing. split; [|exact Hin].
    rewrite Hid. now rewrite String.eqb_refl.
  - unfold windows_ordered. lia.
Qed.

Lemma updatePosition_accepts_close_before_open_witness :
  let r := updatePosition (AdminScenario.env AdminScenario.quiet) (Some AdminScenario.admin)
             "P1" (AdminScenario.only_votingCloses "2030-01-01T00:00") AdminScenario.db in
  snd r = PositionSaved 200 "Position updated successfully"
            (PositionRow.mk "P1" "President" 1 100 1800 2000 1000)
  /\ In (PositionRow.mk "P1" "President" 1 100 1800 2000 1000) (admin_position (fst r))
  /\ PositionRow.votingOpens (PositionRow.mk "P1" "President" 1 100 1800 2000 1000)
     = PositionRow.votingOpens AdminScenario.row
  /\ PositionRow.votingCloses (PositionRow.mk "P1" "President" 1 100 1800 2000 1000) = 1000
  /\ ~ windows_ordered (PositionRow.mk "P1" "President" 1 100 1800 2000 1000).
Proof.
  apply (updatePosition_accepts_close_before_open
           (AdminScenario.env AdminScenario.quiet) AdminScenario.admin "P1"
           (AdminScenario.only_votingCloses "2030-01-01T00:00") AdminScenario.db
           AdminScenario.row (PositionRow.mk "P1" "President" 1 100 1800 2000 1000)
           "2030-01-01T00:00" 1000).
  - intros op. reflexivity.
  - reflexivity.
  - reflexivity.
  - reflexivity.
  - reflexivity.
  - reflexivity.
  - reflexivity.
  - simpl. lia.
Defined.

Lemma references_resolve_positions (db db' : AdminStore) :
  admin_candidate db' = admin_candidate db ->
  admin_vote db' = admin_vote db ->
  (forall p, In p (admin_position db) ->
     exists p', In p' (admin_position db') /\ PositionRow.id p' = PositionRow.id p) ->
  references_resolve db -> references_resolve db'.
Proof.
  intros Hc Hv Hp [HC HV]. split.
  - intros c Hin. rewrite Hc in Hin. destruct (HC c Hin) as (p & Hp1 & Hp2).
    destruct (Hp p Hp1) as (p' & H1 & H2). exists p'. split; [exact H1|congruence].
  - intros v Hin. rewrite Hv in Hin. destruct (HV v Hin) as (p & Hp1 & Hp2).
    destruct (Hp p Hp1) as (p' & H1 & H2). exists p'. split; [exact H1|congruence].
Qed.

Lemma references_resolve_audit (ev : AuditEvent.t) (db : AdminStore) :
  references_resolve db -> references_resolve (record_audit ev db).
Proof. intros H. exact H. Qed.

Lemma count_zero_no_reference {A : Type} (f : A -> bool) (l : list A) :
  Nat.ltb 0 (List.length (filter f l)) = false -> forall x, In x l -> f x = false.
Proof.
  intros H x Hin. destruct (f x) eqn:Hf; [|reflexivity].
  assert (Hx : In x (filter f l)) by (apply filter_In; split; assumption).
  destruct (filter f l); [destruct Hx|]. discriminate H.
Qed.

(** X21.  No write of the positions controller leaves a candidate or a vote
    pointing at a position that is gone: when every candidate and every vote
    of the store refers to an existing position, the same holds after
    [createPosition], [updatePosition] and [deletePosition], whatever the
    request and whichever call rejects; and a position that has a candidate
    or a vote is still there after [deletePosition]. *)
Theorem positions_writes_keep_references
    (env : AdminEnv) (user : option User) (id : Id) (body : PositionBody)
    (db : AdminStore) :
  references_resolve db ->
  references_resolve (fst (createPosition env user body db))
  /\ references_resolve (fst (updatePosition env user id body db))
  /\ references_resolve (fst (deletePosition env user id db))
  /\ (forall p, In p (admin_position db) ->
        (exists c, In c (admin_candidate db)
                   /\ Candidate.positionId c = PositionRow.id p)
        \/ (exists v, In v (admin_vote db) /\ Vote.positionId v = PositionRow.id p) ->
        In p (admin_position (fst (deletePosition env user id db)))).
Proof.
  intros Href. split; [|split; [|split]].
  - destruct (createPosition_effect env user body db)
      as (Hc & Hv & Hp).
    apply (references_resolve_positions db); try assumption.
    intros p Hin. exists p. split; [|reflexivity].
    destruct Hp as [[Hp _]|(row & u & Hp & _)]; rewrite Hp; [exact Hin|].
    apply in_or_app. now left.
  - unfold updatePosition.
    destruct (admin_rejects env position_findUnique); [exact Href|].
    destruct (find_position id db) as [existing|] eqn:Hfind; [|exact Href].
    destruct (match truthy (body_nominationOpens body),
                    truthy (body_nominationCloses body) with
              | Some _, Some _ => _ | _, _ => _ end); [exact Href|].
    destruct (match truthy (body_votingOpens body),
                    truthy (body_votingCloses body) with
              | Some _, Some _ => _ | _, _ => _ end); [exact Href|].
    destruct (admin_rejects env position_update); [exact Href|].
    destruct (updated_row env body existing) as [row|] eqn:Hrow; [|exact Href].
    apply updated_row_id in Hrow. apply find_position_In in Hfind as [_ Hid].
    assert (Hkeep : references_resolve
              (with_admin_position
                 (map (fun p => if String.eqb (PositionRow.id p) id then row else p)) db)).
    { apply (references_resolve_positions db); try reflexivity; [|exact Href].
      intros p Hin. simpl.
      exists (if String.eqb (PositionRow.id p) id then row else p). split.
      - apply in_map_iff. exists p. split; [reflexivity|exact Hin].
      - destruct (String.eqb (PositionRow.id p) id) eqn:E; [|reflexivity].
        apply String.eqb_eq in E. congruence. }
    destruct user as [u|]; [|exact Hkeep].
    destruct (admin_rejects env (admin_audit "UPDATE_POSITION")); exact Hkeep.
  - unfold deletePosition.
    destruct (admin_rejects env position_findUnique); [exact Href|].
    destruct (find_position id db) as [position|]; [|exact Href].
    cbv zeta.
    destruct (Nat.ltb 0 (List.length (filter _ (admin_candidate db)))) eqn:Hc;
      [exact Href|].
    destruct (Nat.ltb 0 (List.length (filter _ (admin_vote db)))) eqn:Hv;
      [exact Href|].
    destruct (admin_rejects env position_delete); [exact Href|].
    assert (Hkeep : references_resolve
              (with_admin_position
                 (filter (fun p => negb (String.eqb (PositionRow.id p) id))) db)).
    { destruct Href as [HC HV]. split.
      - intros c Hin. destruct (HC c Hin) as (p & Hp1 & Hp2).
        exists p. split; [|exact Hp2]. simpl. apply filter_In. split; [exact Hp1|].
        rewrite Hp2. simpl in Hin.
        now rewrite (count_zero_no_reference _ _ Hc c Hin).
      - intros v Hin. destruct (HV v Hin) as (p & Hp1 & Hp2).
        exists p. split; [|exact Hp2]. simpl. apply filter_In. split; [exact Hp1|].
        rewrite Hp2. simpl in Hin.
        now rewrite (count_zero_no_reference _ _ Hv v Hin). }
    destruct user as [u|]; [|exact Hkeep].
    destruct (admin_rejects env (admin_audit "DELETE_POSITION")); exact Hkeep.
  - intros p Hin Hused. unfold deletePosition.
    destruct (admin_rejects env position_findUnique); [exact Hin|].
    destruct (find_position id db) as [position|]; [|exact Hin].
    cbv zeta.
    destruct (Nat.ltb 0 (List.length (filter _ (admin_candidate db)))) eqn:Hc;
      [exact Hin|].
    destruct (Nat.ltb 0 (List.length (filter _ (admin_vote db)))) eqn:Hv;
      [exact Hin|].
    assert (Hother : String.eqb (PositionRow.id p) id = false).
    { destruct Hused as [(c & Hcin & Hcp)|(v & Hvin & Hvp)].
      - rewrite <- Hcp. exact (count_zero_no_reference _ _ Hc c Hcin).
      - rewrite <- Hvp. exact (count_zero_no_reference _ _ Hv v Hvin). }
    assert (Hstay : In p (admin_position
              (with_admin_position
                 (filter (fun p => negb (String.eqb (PositionRow.id p) id))) db))).
    { simpl. apply filter_In. split; [exact Hin|]. now rewrite Hother. }
    destruct (admin_rejects env position_delete); [exact Hin|].
    destruct user as [u|]; [|exact Hstay].
    destruct (admin_rejects env (admin_audit "DELETE_POSITION")); exact Hstay.
Qed.


Lemma positions_writes_keep_references_witness :
  references_resolve
    (fst (createPosition (AdminScenario.env AdminScenario.quiet) (Some AdminScenario.admin)
            (AdminScenario.only_votingCloses "2030-01-01T00:00") AdminScenario.db))
  /\ references_resolve
       (fst (updatePosition (AdminScenario.env AdminScenario.quiet)
               (Some AdminScenario.admin) "P1"
               (AdminScenario.only_votingCloses "2030-01-01T00:00") AdminScenario.db))
  /\ references_resolve
       (fst (deletePosition (AdminScenario.env AdminScenario.quiet)
               (Some AdminScenario.admin) "P1" AdminScenario.db))
  /\ (forall p, In p (admin_position AdminScenario.db) ->
        (exists c, In c (admin_candidate AdminScenario.db)
                   /\ Candidate.positionId c = PositionRow.id p)
        \/ (exists v, In v (admin_vote AdminScenario.db)
                      /\ Vote.positionId v = PositionRow.id p) ->
        In p (admin_position
                (fst (deletePosition (AdminScenario.env AdminScenario.quiet)
                        (Some AdminScenario.admin) "P1" AdminScenario.db)))).
Proof.
  apply (positions_writes_keep_references
           (AdminScenario.env AdminScenario.quiet) (Some AdminScenario.admin) "P1"
           (AdminScenario.only_votingCloses "2030-01-01T00:00") AdminScenario.db).
  split.
  - intros c [<-|[]]. exists AdminScenario.row. split; [left; reflexivity|reflexivity].
  - intros v [].
Defined.

Lemma insert_by_StronglySorted {A : Type} (key : A -> Z) (x : A) (l : list A) :
  StronglySorted (fun a b => key a <= key b) l ->
  StronglySorted (fun a b => key a <= key b)
                 (insert_by (fun a b => Z.leb (key a) (key b)) x l).
Proof.
  induction l as [|y l IH]; simpl; intros Hs.
  - constructor; constructor.
  - destruct (Z.leb (key x) (key y)) eqn:E.
    + apply Z.leb_le in E. constructor; [exact Hs|].
      constructor; [exact E|].
      apply StronglySorted_inv in Hs as [_ Hall].
      eapply Forall_impl; [|exact Hall]. simpl. intros a Ha. lia.
    + apply Z.leb_gt in E.
      apply StronglySorted_inv in Hs as [Hs Hall].
      constructor; [now apply IH|].
      apply Forall_forall. intros a Ha.
      apply (Permutation_in _ (insert_by_Permutation _ x l)) in Ha.
      destruct Ha as [<-|Ha]; [lia|].
      rewrite Forall_forall in Hall. now apply Hall.
Qed.

Lemma orderBy_StronglySorted {A : Type} (key : A -> Z) (rows : list A) :
  StronglySorted (fun a b => key a <= key b) (orderBy Z.leb key rows).
Proof.
  unfold orderBy. induction rows as [|x rows IH]; simpl; [constructor|].
  now apply insert_by_StronglySorted.
Qed.

Lemma filter_StronglySorted {A : Type} (R : A -> A -> Prop) (f : A -> bool) (l : list A) :
  StronglySorted R l -> StronglySorted R (filter f l).
Proof.
  induction 1 as [|a l Hs IH Hall]; simpl; [constructor|].
  destruct (f a); [|exact IH].
  constructor; [exact IH|].
  rewrite Forall_forall in *. intros x Hx. apply filter_In in Hx as [Hx _].
  now apply Hall.
Qed.

Lemma filter_Permutation {A : Type} (f : A -> bool) (l l' : list A) :
  Permutation l l' -> Permutation (filter f l) (filter f l').
Proof.
  induction 1 as [|x l l' _ IH|x y l|l l' l'' _ IH1 _ IH2]; simpl.
  - constructor.
  - destruct (f x); [now constructor|exact IH].
  - destruct (f x), (f y); try reflexivity. apply perm_swap.
  - now transitivity (filter f l').
Qed.

(** X22.  When [getOpenPositions] answers with a list, the list holds
    exactly the positions of the store whose nomination window contains the
    reading of the clock, both ends included, each as often as the store has
    it, ordered by the instant their nomination closes, earliest first; and
    the store is left as it was. *)
Theorem getOpenPositions_lists_open_nominations
    (env : AdminEnv) (db : AdminStore) (positions : list PositionRow.t) :
  snd (getOpenPositions env db) = OpenPositions positions ->
  Permutation positions
    (filter (fun p => (PositionRow.nominationOpens p <=? admin_now env)
                      && (admin_now env <=? PositionRow.nominationCloses p))
            (admin_position db))
  /\ (forall p, In p positions <->
        In p (admin_position db)
        /\ PositionRow.nominationOpens p <= admin_now env <= PositionRow.nominationCloses p)
  /\ StronglySorted
       (fun a b => PositionRow.nominationCloses a <= PositionRow.nominationCloses b)
       positions
  /\ fst (getOpenPositions env db) = db.
Proof.
  unfold getOpenPositions.
  destruct (admin_rejects env position_findMany); [discriminate|].
  simpl. intros H. injection H as <-.
  assert (Hperm : Permutation
            (filter (open_for_nomination (admin_now env))
                    (orderBy Z.leb PositionRow.nominationCloses (admin_position db)))
            (filter (fun p => (PositionRow.nominationOpens p <=? admin_now env)
                              && (admin_now env <=? PositionRow.nominationCloses p))
                    (admin_position db))).
  { rewrite (filter_ext (open_for_nomination (admin_now env))
               (fun p => (PositionRow.nominationOpens p <=? admin_now env)
                         && (admin_now env <=? PositionRow.nominationCloses p))).
    - apply filter_Permutation, orderBy_Permutation.
    - intros p. unfold open_for_nomination. now rewrite Z.geb_leb. }
  split; [exact Hperm|]. split; [|split; [|reflexivity]].
  - intros p. split.
    + intros Hin. apply (Permutation_in _ Hperm) in Hin.
      apply filter_In in Hin as [Hin Hb]. split; [exact Hin|]. lia.
    + intros [Hin Hb]. apply (Permutation_in _ (Permutation_sym Hperm)).
      apply filter_In. split; [exact Hin|]. lia.
  - apply filter_StronglySorted, orderBy_StronglySorted.
Qed.

Lemma getOpenPositions_lists_open_nominations_witness :
  Permutation [AdminScenario.row]
    (filter (fun p => (PositionRow.nominationOpens p <=? admin_now (AdminScenario.env AdminScenario.quiet))
                      && (admin_now (AdminScenario.env AdminScenario.quiet) <=? PositionRow.nominationCloses p))
            (admin_position AdminScenario.db))
  /\ (forall p, In p [AdminScenario.row] <->
        In p (admin_position AdminScenario.db)
        /\ PositionRow.nominationOpens p <= admin_now (AdminScenario.env AdminScenario.quiet)
           <= PositionRow.nominationCloses p)
  /\ StronglySorted
       (fun a b => PositionRow.nominationCloses a <= PositionRow.nominationCloses b)
       [AdminScenario.row]
  /\ fst (getOpenPositions (AdminScenario.env AdminScenario.quiet) AdminScenario.db)
     = AdminScenario.db.
Proof.
  apply (getOpenPositions_lists_open_nominations
           (AdminScenario.env AdminScenario.quiet) AdminScenario.db
           [AdminScenario.row]).
  reflexivity.
Defined.
